(** * EstudIA Lambda: the MCP bridge ([mcp_bridge.js]) and its dispatcher
    ([index.js]), embedded in Rocq.

    The development has four layers:
    - [JS]: the JavaScript values the code manipulates (UTF-16 strings,
      binary64 numbers, objects in property order) and the built-ins it calls;
    - [JSON]: [JSON.parse] and [JSON.stringify];
    - [Bridge]: [mcp_bridge.js], in a state-and-exception monad whose state is
      the trace of outbound HTTP requests and the number of clock readings;
    - [Index]: [index.js].

    What [console.log] and [console.error] print is left out, since it
    influences no result; the template literals they are given are kept,
    because interpolating a value converts it to a string, which throws on
    some objects.

    The theorems follow the code: [StringFacts], [JSONFacts] and
    [JSONValid] on strings and JSON texts; [Transport], [ToolCall] and
    [Interpretation] on [makeHttpRequest] and [callMcpTool]; [Adapter],
    [Shape], [Operations] and [Returns] on the twelve handlers;
    [Dispatcher] on [index.js].  Then, on the same definitions:
    [ObjectFacts] (reading an object after writing it), [Parameters] and
    [Entry] ([extractParams], [getEndpoint], the errors of the entry
    point), [Outcomes], [Arguments], [Validation] and [Replies] (what an
    operation costs, sends and reports), [Service] and [Composition] (the
    entry point and the operations together). *)

From Stdlib Require Import ZArith NArith List String Ascii Bool Lia.
From Stdlib Require Import Floats.SpecFloat.
Import ListNotations.

Set Implicit Arguments.
Set Default Proof Using "Type".

(* ================================================================== *)
(** * JavaScript strings *)
(* ================================================================== *)

Module JS.

(** A JavaScript string is a sequence of UTF-16 code units. *)
Definition code_unit := N.
Definition jsstring := list code_unit.

Local Open Scope N_scope.

(** Source literals are written as Rocq strings, which hold UTF-8 bytes;
    [js] decodes them to code units (all literals of the two source files
    are in the Basic Multilingual Plane). *)
Fixpoint js (s : string) : jsstring :=
  match s with
  | EmptyString => []
  | String a s1 =>
    let b0 := N_of_ascii a in
    if b0 <? 128 then b0 :: js s1
    else if b0 <? 224 then
      match s1 with
      | String a1 s2 => ((b0 - 192) * 64 + (N_of_ascii a1 - 128)) :: js s2
      | EmptyString => [b0]
      end
    else
      match s1 with
      | String a1 (String a2 s3) =>
        ((b0 - 224) * 4096 + (N_of_ascii a1 - 128) * 64
         + (N_of_ascii a2 - 128)) :: js s3
      | _ => [b0]
      end
  end.

(** The characters a Rocq string literal cannot hold directly. *)
Definition dq : jsstring := [34].     (* the double quote *)
Definition nl : jsstring := [10].     (* the line feed *)

(** ["name"], a name between double quotes. *)
Definition quoted (s : string) : jsstring := dq ++ js s ++ dq.

(** A longer literal that holds double quotes is written with a backquote in
    the place of each (no literal of the source holds a backquote). *)
Definition jsq (s : string) : jsstring :=
  map (fun c => if c =? 96 then 34 else c) (js s).

Fixpoint str_eqb (a b : jsstring) : bool :=
  match a, b with
  | [], [] => true
  | x :: a', y :: b' => (x =? y) && str_eqb a' b'
  | _, _ => false
  end.

(** [String.prototype.startsWith] *)
Fixpoint startsWith (s p : jsstring) {struct p} : bool :=
  match p, s with
  | [], _ => true
  | y :: p', x :: s' => (x =? y) && startsWith s' p'
  | _ :: _, [] => false
  end.

(** [String.prototype.includes] *)
Fixpoint includes (s p : jsstring) : bool :=
  startsWith s p ||
  match s with
  | [] => false
  | _ :: s' => includes s' p
  end.

(** WhiteSpace and LineTerminator code units, the ones [trim] strips and
    [parseInt]/[parseFloat] skip. *)
Definition white_space : list code_unit :=
  [9; 10; 11; 12; 13; 32; 160; 5760;
   8192; 8193; 8194; 8195; 8196; 8197; 8198; 8199; 8200; 8201; 8202;
   8232; 8233; 8239; 8287; 12288; 65279].

Definition is_white_space (c : code_unit) : bool :=
  existsb (N.eqb c) white_space.

Fixpoint trimStart (s : jsstring) : jsstring :=
  match s with
  | c :: s' => if is_white_space c then trimStart s' else s
  | [] => []
  end.

Definition trimEnd (s : jsstring) : jsstring := rev (trimStart (rev s)).

(** [String.prototype.trim] *)
Definition trim (s : jsstring) : jsstring := trimEnd (trimStart s).

(** [s.split(sep)] for a one-character separator: never empty. *)
Fixpoint split (sep : code_unit) (s : jsstring) : list jsstring :=
  match s with
  | [] => [[]]
  | c :: s' =>
    if c =? sep then [] :: split sep s'
    else match split sep s' with
         | l :: ls => (c :: l) :: ls
         | [] => [[c]]
         end
  end.

(** [s.substring(0, n)] and [s.substring(n)] *)
Definition substring_to (n : nat) (s : jsstring) : jsstring := firstn n s.
Definition substring_from (n : nat) (s : jsstring) : jsstring := skipn n s.

(** [String.prototype.toLowerCase] on the Basic Latin and Latin-1 letters;
    other code units are left as they are.  No code unit outside A-Z lowers
    to a Basic Latin letter of "pdf" or "ppt", so the only comparison the
    source makes on a lowered string is exact. *)
Definition lower_unit (c : code_unit) : code_unit :=
  if (65 <=? c) && (c <=? 90) then c + 32
  else if (192 <=? c) && (c <=? 222) && negb (c =? 215) then c + 32
  else c.

Definition toLowerCase (s : jsstring) : jsstring := map lower_unit s.

(** [String.prototype.toUpperCase], likewise (the sharp s becomes two
    letters, and two Latin-1 letters leave Latin-1).  The source only
    prints an upper-cased string. *)
Definition upper_unit (c : code_unit) : jsstring :=
  if (97 <=? c) && (c <=? 122) then [c - 32]
  else if (224 <=? c) && (c <=? 254) && negb (c =? 247) then [c - 32]
  else if c =? 223 then [83; 83]
  else if c =? 255 then [376]
  else if c =? 181 then [924]
  else [c].

Definition toUpperCase (s : jsstring) : jsstring := flat_map upper_unit s.

(** [s.replace(/\/$/, '')]: one trailing slash is removed. *)
Definition strip_trailing_slash (s : jsstring) : jsstring :=
  match rev s with
  | 47 :: r => rev r
  | _ => s
  end.

(** Decimal digits of a natural number, most significant first. *)
Fixpoint digits_fuel (fuel : nat) (n : N) (acc : jsstring) : jsstring :=
  match fuel with
  | O => acc
  | S f =>
    let acc' := (48 + n mod 10) :: acc in
    if n <? 10 then acc' else digits_fuel f (n / 10) acc'
  end.

Definition digits_of_N (n : N) : jsstring :=
  digits_fuel (S (N.to_nat (N.log2 n))) n [].

Definition string_of_Z (z : Z) : jsstring :=
  match z with
  | Zneg p => 45 :: digits_of_N (Npos p)
  | _ => digits_of_N (Z.to_N z)
  end.

(* ================================================================== *)
(** * JavaScript numbers: IEEE 754 binary64 *)
(* ================================================================== *)

Definition number := spec_float.
Definition prec : Z := 53.
Definition emax : Z := 1024.

Local Open Scope Z_scope.

Definition NaN : number := S754_nan.

(** An integer as a Number (exact up to 2^53, rounded beyond). *)
Definition num_of_Z (z : Z) : number := binary_normalize prec emax z 0 false.

Definition isNaN (x : number) : bool :=
  match x with S754_nan => true | _ => false end.

(** [x < y], [x > y] and [x === y] on Numbers. *)
Definition num_lt (x y : number) : bool := SFltb x y.
Definition num_gt (x y : number) : bool := SFltb y x.
Definition num_eq (x y : number) : bool := SFeqb x y.

(** The Number nearest to the ratio [p / q] (ties to even). *)
Definition round_ratio (neg : bool) (p q : positive) : number :=
  let '(mz, ez, lz) := SFdiv_core_binary prec emax (Zpos p) 0 (Zpos q) 0 in
  binary_round_aux prec emax neg mz ez lz.

(** The Number value of the decimal [m * 10^e]: what a numeric literal
    denotes.  Decimals beyond the binary64 range go to infinity or zero
    without the power of ten being computed. *)
Definition num_of_decimal (neg : bool) (m : N) (e : Z) : number :=
  match m with
  | N0 => S754_zero neg
  | Npos p =>
    let d := Z.of_nat (List.length (digits_of_N m)) in
    if 310 <? d + e then S754_infinity neg
    else if d + e <? -330 then S754_zero neg
    else match e with
         | Z0 => binary_round prec emax neg p 0
         | Zpos k => binary_round prec emax neg (p * 10 ^ k)%positive 0
         | Zneg k => round_ratio neg p (10 ^ k)%positive
         end
  end.

(** ** Number::toString: the shortest decimal that reads back as the Number *)

(** A finite positive Number [m * 2^e] as a ratio of positives. *)
Definition ratio_of (m : positive) (e : Z) : positive * positive :=
  match e with
  | Z0 => (m, 1%positive)
  | Zpos k => ((m * 2 ^ k)%positive, 1%positive)
  | Zneg k => (m, (2 ^ k)%positive)
  end.

Fixpoint small_exp (fuel : nat) (p q : positive) (j : Z) : Z :=
  match fuel with
  | O => j
  | S f => if (q <=? p * 10)%positive then j
           else small_exp f (p * 10)%positive q (j + 1)
  end.

(** The [n] with [10^(n-1) <= p/q < 10^n]. *)
Definition exp10_of (p q : positive) : Z :=
  if (q <=? p)%positive
  then Z.of_nat (List.length (digits_of_N (Npos p / Npos q)))
  else 1 - small_exp 400 p q 1.

(** The [k]-digit decimal [s * 10^(n-k)] that reads back as [x], if there is
    one; of two, the nearer to [x]. *)
Definition shortest_at (x : number) (p q : positive) (n k : Z)
  : option (N * Z) :=
  let '(tn, td) :=
    match k - n with
    | Z0 => (p, q)
    | Zpos j => ((p * 10 ^ j)%positive, q)
    | Zneg j => (p, (q * 10 ^ j)%positive)
    end in
  let lo := (Npos tn / Npos td)%N in
  let r := (Npos tn mod Npos td)%N in
  let hi := (lo + 1)%N in
  let ok c := num_eq (num_of_decimal false c (n - k)) x in
  let prefer_hi :=
    match (2 * r ?= Npos td)%N with
    | Gt => true
    | Eq => N.odd lo
    | Lt => false
    end in
  match ok lo, ok hi with
  | true, true => Some (if prefer_hi then hi else lo, n - k)
  | true, false => Some (lo, n - k)
  | false, true => Some (hi, n - k)
  | false, false => None
  end.

(** The shortest such decimal, trying 1, 2, ... digits.  Seventeen digits
    identify any binary64 value, so the search ends before the fuel does;
    the last branch is there for totality only. *)
Fixpoint shortest_from (fuel : nat) (x : number) (p q : positive) (n k : Z)
  : N * Z :=
  match fuel with
  | O => (N.max 1 (Npos p / Npos q), 0)
  | S f =>
    match shortest_at x p q n k with
    | Some r => r
    | None => shortest_from f x p q n (k + 1)
    end
  end.

Fixpoint strip_zeros (ds : jsstring) : jsstring :=
  match ds with
  | d :: ds' => if (d =? 48)%N then strip_zeros ds' else ds
  | [] => []
  end.

(** The digits [ds] of [s] and the exponent [n]: the number is
    [0.ds * 10^n]. *)
Definition format_number (ds : jsstring) (n : Z) : jsstring :=
  let k := Z.of_nat (List.length ds) in
  if (k <=? n) && (n <=? 21) then ds ++ repeat 48%N (Z.to_nat (n - k))
  else if (0 <? n) && (n <=? 21)
  then firstn (Z.to_nat n) ds ++ [46%N] ++ skipn (Z.to_nat n) ds
  else if (-6 <? n) && (n <=? 0)
  then [48%N; 46%N] ++ repeat 48%N (Z.to_nat (- n)) ++ ds
  else
    let e := n - 1 in
    let es := (if e <? 0 then 45%N else 43%N)
              :: digits_of_N (Z.to_N (Z.abs e)) in
    match ds with
    | [] => []
    | [d] => d :: 101%N :: es
    | d :: rest => d :: 46%N :: rest ++ 101%N :: es
    end.

Definition Number_toString (x : number) : jsstring :=
  match x with
  | S754_nan => js "NaN"
  | S754_zero _ => js "0"
  | S754_infinity s => (if s then [45%N] else []) ++ js "Infinity"
  | S754_finite s m e =>
    let '(p, q) := ratio_of m e in
    let n := exp10_of p q in
    let '(c, e10) := shortest_from 17 (S754_finite false m e) p q n 1 in
    let all := digits_of_N c in
    let ds := rev (strip_zeros (rev all)) in
    (if s then [45%N] else [])
      ++ format_number ds (Z.of_nat (List.length all) + e10)
  end.

(** ** Reading numbers from strings: [parseInt] and [parseFloat] *)

Definition is_digit (c : code_unit) : bool := ((48 <=? c) && (c <=? 57))%N.

Definition hex_value (c : code_unit) : option N :=
  if is_digit c then Some (c - 48)%N
  else if ((97 <=? c) && (c <=? 102))%N then Some (c - 87)%N
  else if ((65 <=? c) && (c <=? 70))%N then Some (c - 55)%N
  else None.

(** The longest prefix of decimal digits, and what follows it. *)
Fixpoint take_digits (s : jsstring) : jsstring * jsstring :=
  match s with
  | c :: s' =>
    if is_digit c then let '(d, r) := take_digits s' in (c :: d, r)
    else ([], s)
  | [] => ([], [])
  end.

Definition N_of_digits (ds : jsstring) : N :=
  fold_left (fun acc c => (acc * 10 + (c - 48))%N) ds 0%N.

Fixpoint take_hex (s : jsstring) (acc : N) (seen : bool) : option N :=
  match s with
  | c :: s' =>
    match hex_value c with
    | Some v => take_hex s' (acc * 16 + v)%N true
    | None => if seen then Some acc else None
    end
  | [] => if seen then Some acc else None
  end.

(** A leading sign: whether it is a minus, and the rest. *)
Definition take_sign (s : jsstring) : bool * jsstring :=
  match s with
  | 45%N :: s' => (true, s')
  | 43%N :: s' => (false, s')
  | _ => (false, s)
  end.

(** [parseInt(s)] with no radix, on a string. *)
Definition parseInt_string (s : jsstring) : number :=
  let '(neg, s1) := take_sign (trimStart s) in
  let mag :=
    match s1 with
    | 48%N :: x :: s2 =>
      if ((x =? 120) || (x =? 88))%N then take_hex s2 0%N false
      else match take_digits s1 with
           | ([], _) => None
           | (ds, _) => Some (N_of_digits ds)
           end
    | _ => match take_digits s1 with
           | ([], _) => None
           | (ds, _) => Some (N_of_digits ds)
           end
    end in
  match mag with
  | None => NaN
  | Some m => num_of_decimal neg m 0
  end.

(** The exponent part [e[+-]digits] of a decimal literal, if one is there. *)
Definition take_exponent (s : jsstring) : Z * jsstring :=
  match s with
  | c :: s1 =>
    if ((c =? 101) || (c =? 69))%N then
      let '(neg, s2) := take_sign s1 in
      match take_digits s2 with
      | ([], _) => (0, s)
      | (ds, r) =>
        let e := Z.of_N (N_of_digits ds) in
        (if neg then - e else e, r)
      end
    else (0, s)
  | [] => (0, s)
  end.

(** [parseFloat(s)] on a string: the longest prefix that is a decimal
    literal. *)
Definition parseFloat_string (s : jsstring) : number :=
  let '(neg, s1) := take_sign (trimStart s) in
  if startsWith s1 (js "Infinity") then S754_infinity neg
  else
    let '(ip, s2) := take_digits s1 in
    let '(fp, s3) :=
      match s2 with
      | 46%N :: s2' => take_digits s2'
      | _ => ([], s2)
      end in
    match ip ++ fp with
    | [] => NaN
    | ds =>
      let '(e, _) := take_exponent s3 in
      num_of_decimal neg (N_of_digits ds) (e - Z.of_nat (List.length fp))
    end.


(* ================================================================== *)
(** * JavaScript values *)
(* ================================================================== *)

(** The values that reach the code: what [JSON.parse] builds, plus
    [undefined].  An object is the list of its own properties in property
    order (array-index names first, in ascending order, then the others in
    insertion order). *)
Unset Elimination Schemes.
Inductive value :=
| VUndefined
| VNull
| VBool (b : bool)
| VNum (n : number)
| VStr (s : jsstring)
| VArr (l : list value)
| VObj (props : list (jsstring * value)).
Set Elimination Schemes.

Definition object := list (jsstring * value).

(** Induction on values: arrays and objects nest values in lists. *)
Section ValueInduction.

Variable P : value -> Prop.
Hypothesis HUndefined : P VUndefined.
Hypothesis HNull : P VNull.
Hypothesis HBool : forall b, P (VBool b).
Hypothesis HNum : forall n, P (VNum n).
Hypothesis HStr : forall s, P (VStr s).
Hypothesis HArr : forall l, Forall P l -> P (VArr l).
Hypothesis HObj : forall o, Forall (fun kv => P (snd kv)) o -> P (VObj o).

Fixpoint value_ind (v : value) : P v :=
  match v with
  | VUndefined => HUndefined
  | VNull => HNull
  | VBool b => HBool b
  | VNum n => HNum n
  | VStr s => HStr s
  | VArr l =>
    @HArr l ((fix all (l : list value) : Forall P l :=
               match l with
               | [] => Forall_nil P
               | x :: l' => @Forall_cons _ P x l' (value_ind x) (all l')
               end) l)
  | VObj o =>
    @HObj o ((fix all (o : object) : Forall (fun kv => P (snd kv)) o :=
               match o with
               | [] => Forall_nil _
               | kv :: o' =>
                 @Forall_cons _ (fun kv => P (snd kv)) kv o'
                              (value_ind (snd kv)) (all o')
               end) o)
  end.

End ValueInduction.

(** ToBoolean *)
Definition truthy (v : value) : bool :=
  match v with
  | VUndefined | VNull => false
  | VBool b => b
  | VNum (S754_nan) | VNum (S754_zero _) => false
  | VNum _ => true
  | VStr [] => false
  | VStr _ => true
  | VArr _ | VObj _ => true
  end.

(** [a || b] *)
Definition or_else (a b : value) : value := if truthy a then a else b.

(** [a === b] where one side is a primitive (the source only compares with
    literals and [undefined]); two objects are never found equal. *)
Definition strict_eq (a b : value) : bool :=
  match a, b with
  | VUndefined, VUndefined => true
  | VNull, VNull => true
  | VBool x, VBool y => Bool.eqb x y
  | VNum x, VNum y => num_eq x y
  | VStr x, VStr y => str_eqb x y
  | _, _ => false
  end.

(** [typeof v === 'string'] *)
Definition is_string (v : value) : bool :=
  match v with VStr _ => true | _ => false end.

(** An array-index property name: the decimal form of an integer below
    2^32 - 1. *)
Definition array_index (k : jsstring) : option N :=
  match k with
  | [] => None
  | _ =>
    if forallb is_digit k
       && str_eqb (digits_of_N (N_of_digits k)) k
       && (N_of_digits k <? 4294967295)%N
    then Some (N_of_digits k) else None
  end.

Fixpoint obj_get (o : object) (k : jsstring) : value :=
  match o with
  | [] => VUndefined
  | (k', v) :: o' => if str_eqb k' k then v else obj_get o' k
  end.

Fixpoint obj_has (o : object) (k : jsstring) : bool :=
  match o with
  | [] => false
  | (k', _) :: o' => str_eqb k' k || obj_has o' k
  end.

Fixpoint obj_replace (o : object) (k : jsstring) (v : value) : object :=
  match o with
  | [] => []
  | (k', v') :: o' =>
    if str_eqb k' k then (k', v) :: o' else (k', v') :: obj_replace o' k v
  end.

(** A new array-index name goes before the first larger index and before
    every other name. *)
Fixpoint obj_insert_index (o : object) (i : N) (k : jsstring) (v : value)
  : object :=
  match o with
  | [] => [(k, v)]
  | (k', v') :: o' =>
    match array_index k' with
    | Some j => if (j <? i)%N then (k', v') :: obj_insert_index o' i k v
                else (k, v) :: o
    | None => (k, v) :: o
    end
  end.

(** CreateDataProperty: an existing property keeps its place. *)
Definition obj_set (o : object) (k : jsstring) (v : value) : object :=
  if obj_has o k then obj_replace o k v
  else match array_index k with
       | Some i => obj_insert_index o i k v
       | None => o ++ [(k, v)]
       end.

Fixpoint indexed (i : N) (l : list value) : object :=
  match l with
  | [] => []
  | v :: l' => (digits_of_N i, v) :: indexed (N.succ i) l'
  end.

(** The own enumerable properties an object spread [{...v}] copies. *)
Definition own_properties (v : value) : object :=
  match v with
  | VObj o => o
  | VArr l => indexed 0 l
  | VStr s => indexed 0 (map (fun c => VStr [c]) s)
  | _ => []
  end.

(** [{...o, ...v}] *)
Definition spread_into (o : object) (v : value) : object :=
  fold_left (fun o kv => obj_set o (fst kv) (snd kv)) (own_properties v) o.

(** Errors are thrown values with a [name] and a [message]. *)
Record error := { name : jsstring; message : jsstring }.

Definition Error (msg : jsstring) : error :=
  {| name := js "Error"; message := msg |}.
Definition TypeError (msg : jsstring) : error :=
  {| name := js "TypeError"; message := msg |}.
Definition SyntaxError (msg : jsstring) : error :=
  {| name := js "SyntaxError"; message := msg |}.

(** [v.k] for the names the source reads, none of which is an array index or
    a property of a prototype: own properties of objects, [length] of arrays
    and strings, [undefined] otherwise, and a TypeError (with V8's message)
    on [undefined] and [null]. *)
Definition get (v : value) (k : string) : error + value :=
  match v with
  | VUndefined =>
    inl (TypeError (js "Cannot read properties of undefined (reading '"
                    ++ js k ++ js "')"))
  | VNull =>
    inl (TypeError (js "Cannot read properties of null (reading '"
                    ++ js k ++ js "')"))
  | VObj o => inr (obj_get o (js k))
  | VArr l =>
    inr (if str_eqb (js k) (js "length")
         then VNum (num_of_Z (Z.of_nat (List.length l)))
         else VUndefined)
  | VStr s =>
    inr (if str_eqb (js k) (js "length")
         then VNum (num_of_Z (Z.of_nat (List.length s)))
         else VUndefined)
  | VBool _ | VNum _ => inr VUndefined
  end.

(** [v?.k] *)
Definition get_opt (v : value) (k : string) : value :=
  match get v k with
  | inr x => x
  | inl _ => VUndefined
  end.

(** Destructuring [const { k } = params], on an object. *)
Definition field (params : object) (k : string) : value :=
  obj_get params (js k).

Fixpoint join (sep : jsstring) (l : list jsstring) : jsstring :=
  match l with
  | [] => []
  | [x] => x
  | x :: l' => x ++ sep ++ join sep l'
  end.

(** What a conversion to a primitive throws when it finds none (V8's
    message). *)
Definition conversion_error : error :=
  TypeError (js "Cannot convert object to primitive value").

(** ToString, as [String(v)], a template literal, [parseInt] and
    [parseFloat] apply it.  On the objects that reach the code (built by
    [JSON.parse] or by an object literal, so with [Object.prototype] above
    them and no function among their properties) the conversion calls
    [toString], then [valueOf]: an own [toString] property hides the
    inherited method and cannot be called, and [valueOf], own or inherited,
    gives no primitive, so the conversion throws; with no own [toString]
    the inherited one answers [[object Object]].  An array joins its
    elements with commas, [undefined] and [null] counting as empty, and
    throws when an element does. *)
Fixpoint ToString (v : value) : error + jsstring :=
  match v with
  | VUndefined => inr (js "undefined")
  | VNull => inr (js "null")
  | VBool true => inr (js "true")
  | VBool false => inr (js "false")
  | VNum n => inr (Number_toString n)
  | VStr s => inr s
  | VArr l =>
    match (fix elements (l : list value) : error + list jsstring :=
             match l with
             | [] => inr []
             | x :: l' =>
               match match x with
                     | VUndefined | VNull => inr []
                     | _ => ToString x
                     end with
               | inl e => inl e
               | inr s =>
                 match elements l' with
                 | inl e => inl e
                 | inr ss => inr (s :: ss)
                 end
               end
             end) l with
    | inl e => inl e
    | inr ss => inr (join (js ",") ss)
    end
  | VObj o =>
    if obj_has o (js "toString") then inl conversion_error
    else inr (js "[object Object]")
  end.

(** [parseInt(v)] and [parseFloat(v)]: the argument is first converted to a
    string, which may throw. *)
Definition parseInt (v : value) : error + number :=
  match ToString v with
  | inl e => inl e
  | inr s => inr (parseInt_string s)
  end.

Definition parseFloat (v : value) : error + number :=
  match ToString v with
  | inl e => inl e
  | inr s => inr (parseFloat_string s)
  end.

End JS.

Import JS.

(* ================================================================== *)
(** * JSON.parse and JSON.stringify *)
(* ================================================================== *)

Module JSON.

Local Open Scope N_scope.

(** ** The lexer: one pass over the text, one code unit at a time *)

Inductive token :=
| TLBrace | TRBrace | TLBracket | TRBracket | TColon | TComma
| TString (s : jsstring)
| TNumber (n : number)
| TTrue | TFalse | TNull.

(** Where the lexer is: between tokens, inside a string (with the code units
    read so far, last first), after a backslash, inside a [\uXXXX] escape,
    inside a number, or inside one of [true], [false], [null]. *)
Inductive lstate :=
| LDefault
| LString (acc : jsstring)
| LEscape (acc : jsstring)
| LUnicode (acc : jsstring) (hex : list N)
| LNumber (acc : jsstring)
| LLiteral (rest : jsstring) (t : token).

(** The fraction of a number literal, if one is there: its digits, whether
    it is well formed (at least one digit), and what follows. *)
Definition take_fraction (s : jsstring) : jsstring * bool * jsstring :=
  match s with
  | c :: r =>
    if c =? 46 then
      let '(fp, s3) := take_digits r in
      (fp, negb (Nat.eqb (List.length fp) 0), s3)
    else ([], true, s)
  | [] => ([], true, s)
  end.

(** Likewise the exponent: its value, whether it has a digit, and what
    follows. *)
Definition take_exponent_part (s : jsstring) : Z * bool * jsstring :=
  match s with
  | c :: r =>
    if (c =? 101) || (c =? 69) then
      let '(eneg, r1) := take_sign r in
      let '(ds, r2) := take_digits r1 in
      let e := Z.of_N (N_of_digits ds) in
      ((if eneg then - e else e)%Z, negb (Nat.eqb (List.length ds) 0), r2)
    else (0%Z, true, s)
  | [] => (0%Z, true, s)
  end.

(** The value of a JSON number literal: an optional minus, an integer part
    with no leading zero, an optional fraction of at least one digit and an
    optional exponent of at least one digit; nothing may follow. *)
Definition number_of_literal (s : jsstring) : option number :=
  let '(neg, s1) := match s with
                    | c :: r => if c =? 45 then (true, r) else (false, s)
                    | [] => (false, s)
                    end in
  let '(ip, s2) := take_digits s1 in
  let int_ok := match ip with
                | [] => false
                | [_] => true
                | d :: _ => negb (d =? 48)
                end in
  let '(fp, frac_ok, s3) := take_fraction s2 in
  let '(e, exp_ok, s4) := take_exponent_part s3 in
  match s4 with
  | [] =>
    if int_ok && frac_ok && exp_ok
    then Some (num_of_decimal neg (N_of_digits (ip ++ fp))
                              (e - Z.of_nat (List.length fp)))
    else None
  | _ => None
  end.

Definition is_json_space (c : code_unit) : bool :=
  (c =? 32) || (c =? 9) || (c =? 10) || (c =? 13).

Definition is_number_unit (c : code_unit) : bool :=
  is_digit c || (c =? 45) || (c =? 43) || (c =? 46) || (c =? 101) || (c =? 69).

(** One step between tokens. *)
Definition lex_default (c : code_unit) : option (lstate * list token) :=
  if is_json_space c then Some (LDefault, [])
  else if c =? 123 then Some (LDefault, [TLBrace])
  else if c =? 125 then Some (LDefault, [TRBrace])
  else if c =? 91 then Some (LDefault, [TLBracket])
  else if c =? 93 then Some (LDefault, [TRBracket])
  else if c =? 58 then Some (LDefault, [TColon])
  else if c =? 44 then Some (LDefault, [TComma])
  else if c =? 34 then Some (LString [], [])
  else if (c =? 45) || is_digit c then Some (LNumber [c], [])
  else if c =? 116 then Some (LLiteral (js "rue") TTrue, [])
  else if c =? 102 then Some (LLiteral (js "alse") TFalse, [])
  else if c =? 110 then Some (LLiteral (js "ull") TNull, [])
  else None.

Definition hex4 (h : list N) : N :=
  fold_left (fun acc d => acc * 16 + d) h 0.

Definition lex_step (st : lstate) (c : code_unit)
  : option (lstate * list token) :=
  match st with
  | LDefault => lex_default c
  | LString acc =>
    if c =? 34 then Some (LDefault, [TString (rev acc)])
    else if c =? 92 then Some (LEscape acc, [])
    else if c <? 32 then None
    else Some (LString (c :: acc), [])
  | LEscape acc =>
    if (c =? 34) || (c =? 92) || (c =? 47) then Some (LString (c :: acc), [])
    else if c =? 98 then Some (LString (8 :: acc), [])
    else if c =? 102 then Some (LString (12 :: acc), [])
    else if c =? 110 then Some (LString (10 :: acc), [])
    else if c =? 114 then Some (LString (13 :: acc), [])
    else if c =? 116 then Some (LString (9 :: acc), [])
    else if c =? 117 then Some (LUnicode acc [], [])
    else None
  | LUnicode acc h =>
    match hex_value c with
    | Some d =>
      if Nat.eqb (List.length h) 3
      then Some (LString (hex4 (h ++ [d]) :: acc), [])
      else Some (LUnicode acc (h ++ [d]), [])
    | None => None
    end
  | LNumber acc =>
    if is_number_unit c then Some (LNumber (c :: acc), [])
    else
      match number_of_literal (rev acc), lex_default c with
      | Some n, Some (st', ts) => Some (st', TNumber n :: ts)
      | _, _ => None
      end
  | LLiteral rest t =>
    match rest with
    | [] => None
    | x :: rest' =>
      if c =? x
      then match rest' with
           | [] => Some (LDefault, [t])
           | _ => Some (LLiteral rest' t, [])
           end
      else None
    end
  end.

(** At the end of the text a number may be pending; a string or a literal
    must not be. *)
Definition lex_end (st : lstate) : option (list token) :=
  match st with
  | LDefault => Some []
  | LNumber acc =>
    match number_of_literal (rev acc) with
    | Some n => Some [TNumber n]
    | None => None
    end
  | _ => None
  end.

Fixpoint lex_from (st : lstate) (s : jsstring) : option (list token) :=
  match s with
  | [] => lex_end st
  | c :: s' =>
    match lex_step st c with
    | Some (st', ts) =>
      match lex_from st' s' with
      | Some ts' => Some (ts ++ ts')
      | None => None
      end
    | None => None
    end
  end.

Definition lex (s : jsstring) : option (list token) := lex_from LDefault s.

(** ** The parser, on tokens *)

Fixpoint parse_value (fuel : nat) (ts : list token)
  : option (value * list token) :=
  match fuel with
  | O => None
  | S f =>
    match ts with
    | TNull :: r => Some (VNull, r)
    | TTrue :: r => Some (VBool true, r)
    | TFalse :: r => Some (VBool false, r)
    | TNumber n :: r => Some (VNum n, r)
    | TString s :: r => Some (VStr s, r)
    | TLBracket :: TRBracket :: r => Some (VArr [], r)
    | TLBracket :: r => parse_elements f r []
    | TLBrace :: TRBrace :: r => Some (VObj [], r)
    | TLBrace :: r => parse_members f r []
    | _ => None
    end
  end
with parse_elements (fuel : nat) (ts : list token) (acc : list value)
  : option (value * list token) :=
  match fuel with
  | O => None
  | S f =>
    match parse_value f ts with
    | Some (v, TComma :: r) => parse_elements f r (v :: acc)
    | Some (v, TRBracket :: r) => Some (VArr (rev (v :: acc)), r)
    | _ => None
    end
  end
with parse_members (fuel : nat) (ts : list token) (acc : object)
  : option (value * list token) :=
  match fuel with
  | O => None
  | S f =>
    match ts with
    | TString k :: TColon :: r =>
      match parse_value f r with
      | Some (v, TComma :: r') => parse_members f r' (obj_set acc k v)
      | Some (v, TRBrace :: r') => Some (VObj (obj_set acc k v), r')
      | _ => None
      end
    | _ => None
    end
  end.

(** [JSON.parse(text)]: [None] where JavaScript throws a SyntaxError. *)
Definition parse (s : jsstring) : option value :=
  match lex s with
  | Some ts =>
    match parse_value (2 * List.length ts + 2) ts with
    | Some (v, []) => Some v
    | _ => None
    end
  | None => None
  end.

(** ** JSON.stringify *)

Definition hex_digit (d : N) : code_unit :=
  if d <? 10 then 48 + d else 87 + d.

Definition unicode_escape (c : code_unit) : jsstring :=
  [92; 117; hex_digit (c / 4096 mod 16); hex_digit (c / 256 mod 16);
   hex_digit (c / 16 mod 16); hex_digit (c mod 16)].

Definition is_high_surrogate (c : code_unit) : bool :=
  (55296 <=? c) && (c <=? 56319).
Definition is_low_surrogate (c : code_unit) : bool :=
  (56320 <=? c) && (c <=? 57343).

Definition quote_unit (c : code_unit) : jsstring :=
  if c =? 8 then [92; 98]
  else if c =? 9 then [92; 116]
  else if c =? 10 then [92; 110]
  else if c =? 12 then [92; 102]
  else if c =? 13 then [92; 114]
  else if c =? 34 then [92; 34]
  else if c =? 92 then [92; 92]
  else if c <? 32 then unicode_escape c
  else [c].

(** The body of QuoteJSONString: a surrogate is written raw only as part of
    a pair. *)
Fixpoint quote_units (s : jsstring) : jsstring :=
  match s with
  | [] => []
  | c :: s' =>
    if is_high_surrogate c then
      match s' with
      | d :: s'' =>
        if is_low_surrogate d then c :: d :: quote_units s''
        else unicode_escape c ++ quote_units s'
      | [] => unicode_escape c
      end
    else if is_low_surrogate c then unicode_escape c ++ quote_units s'
    else quote_unit c ++ quote_units s'
  end.

Definition quote (s : jsstring) : jsstring := dq ++ quote_units s ++ dq.

Definition is_finite (n : number) : bool :=
  match n with
  | S754_nan | S754_infinity _ => false
  | _ => true
  end.

(** [JSON.stringify(v)] with no replacer and no indentation: [None] where
    JavaScript returns [undefined]. *)
Fixpoint stringify (v : value) : option jsstring :=
  match v with
  | VUndefined => None
  | VNull => Some (js "null")
  | VBool true => Some (js "true")
  | VBool false => Some (js "false")
  | VNum n => Some (if is_finite n then Number_toString n else js "null")
  | VStr s => Some (quote s)
  | VArr l =>
    Some (js "[" ++ join (js ",")
      ((fix elements (l : list value) : list jsstring :=
          match l with
          | [] => []
          | x :: l' =>
            match stringify x with
            | Some t => t
            | None => js "null"
            end :: elements l'
          end) l) ++ js "]")
  | VObj o =>
    Some (js "{" ++ join (js ",")
      ((fix members (o : object) : list jsstring :=
          match o with
          | [] => []
          | (k, x) :: o' =>
            match stringify x with
            | Some t => (quote k ++ js ":" ++ t) :: members o'
            | None => members o'
            end
          end) o) ++ js "}")
  end.

(** [JSON.stringify(v)] inside a template literal or a string
    concatenation. *)
Definition stringify_text (v : value) : jsstring :=
  match stringify v with
  | Some s => s
  | None => js "undefined"
  end.

End JSON.

(* ================================================================== *)
(** * The world the code runs in, and its effects *)
(* ================================================================== *)

Module World.

(** An outbound HTTP request, as [makeHttpRequest] hands it to Node's
    [http]/[https] module: where it goes, the method, the headers, and the
    text written as its body ([None] when nothing is written). *)
Record request := {
  rq_url : jsstring;
  rq_method : value;
  rq_headers : object;
  rq_body : option jsstring
}.

(** What comes back: the promise is rejected (the URL is invalid, the
    connection fails, ...) or a response arrives with its status, its
    headers (names in lower case, as Node gives them) and its full text. *)
Inductive transport_result :=
| Rejected (e : error)
| Responded (status : Z) (headers : list (jsstring * jsstring))
            (data : jsstring).

(** Everything the code reads from outside: two environment variables, the
    backend (what the [n]-th outbound request of this invocation meets), the
    clock (its [n]-th reading, in milliseconds since the epoch), and the two
    texts that are the engine's own: the stack of an error and the message
    of the SyntaxError [JSON.parse] throws on a text. *)
Record world := {
  env_MCP_SERVER_URL : option jsstring;
  env_NODE_ENV : option jsstring;
  transport : nat -> request -> transport_result;
  clock : nat -> Z;
  stack_of : error -> jsstring;
  syntax_message : jsstring -> jsstring
}.

(** What one invocation changes: the requests [makeHttpRequest] has been
    asked for so far, oldest first (one that is rejected may never have
    left: [new URL] refuses its address, or the connection fails), and the
    number of clock readings. *)
Record state := {
  trace : list request;
  ticks : nat
}.

Definition initial : state := {| trace := []; ticks := 0 |}.

(** A computation returns or throws. *)
Inductive outcome (A : Type) :=
| Return (a : A)
| Throw (e : error).
Arguments Return {A} a.
Arguments Throw {A} e.

Definition M (A : Type) : Type := world -> state -> outcome A * state.

Definition ret {A} (a : A) : M A := fun _ st => (Return a, st).

Definition throw {A} (e : error) : M A := fun _ st => (Throw e, st).

Definition bind {A B} (m : M A) (f : A -> M B) : M B :=
  fun w st =>
    match m w st with
    | (Return a, st') => f a w st'
    | (Throw e, st') => (Throw e, st')
    end.

(** [try { m } catch (error) { h error }] *)
Definition try_catch {A} (m : M A) (h : error -> M A) : M A :=
  fun w st =>
    match m w st with
    | (Return a, st') => (Return a, st')
    | (Throw e, st') => h e w st'
    end.

(** A property read that may throw. *)
Definition lift {A} (r : error + A) : M A :=
  match r with
  | inr a => ret a
  | inl e => throw e
  end.

Definition ask : M world := fun w st => (Return w, st).

(** [Date.now()] *)
Definition Date_now : M Z :=
  fun w st =>
    (Return (clock w (ticks st)),
     {| trace := trace st; ticks := S (ticks st) |}).

End World.

Import World.

Notation "x <- m ;; k" := (bind m (fun x => k))
  (at level 61, m at next level, right associativity).
Notation "m ;; k" := (bind m (fun _ => k))
  (at level 61, right associativity).

(* ================================================================== *)
(** * Date.prototype.toISOString *)
(* ================================================================== *)

Module Date.

Local Open Scope Z_scope.

(** The civil date of a day number (days since 1970-01-01). *)
Definition civil_of_days (days : Z) : Z * Z * Z :=
  let z := days + 719468 in
  let era := z / 146097 in
  let doe := z - era * 146097 in
  let yoe := (doe - doe / 1460 + doe / 36524 - doe / 146096) / 365 in
  let doy := doe - (365 * yoe + yoe / 4 - yoe / 100) in
  let mp := (5 * doy + 2) / 153 in
  let d := doy - (153 * mp + 2) / 5 + 1 in
  let m := if mp <? 10 then mp + 3 else mp - 9 in
  let y := yoe + era * 400 + (if m <=? 2 then 1 else 0) in
  (y, m, d).

(** [n] in at least [w] digits. *)
Definition pad (w : nat) (n : Z) : jsstring :=
  let ds := digits_of_N (Z.to_N n) in
  repeat 48%N (w - List.length ds) ++ ds.

(** [new Date(t).toISOString()] for a time value [t]. *)
Definition toISOString (t : Z) : jsstring :=
  let '(y, m, d) := civil_of_days (t / 86400000) in
  let ms := t mod 86400000 in
  (if (0 <=? y) && (y <=? 9999) then pad 4 y
   else (if y <? 0 then js "-" else js "+") ++ pad 6 (Z.abs y))
  ++ js "-" ++ pad 2 m ++ js "-" ++ pad 2 d
  ++ js "T" ++ pad 2 (ms / 3600000)
  ++ js ":" ++ pad 2 (ms / 60000 mod 60)
  ++ js ":" ++ pad 2 (ms / 1000 mod 60)
  ++ js "." ++ pad 3 (ms mod 1000) ++ js "Z".

(** [new Date().toISOString()] *)
Definition now_iso : M value :=
  t <- Date_now ;; ret (VStr (toISOString t)).

End Date.

Import Date.

(* ================================================================== *)
(** * mcp_bridge.js: the transport *)
(* ================================================================== *)

Module Bridge.

Local Open Scope string_scope.
Local Open Scope list_scope.

(** Shorthands for the literals of the source. *)
Definition str (s : string) : value := VStr (js s).
Definition strs (l : list string) : value := VArr (map str l).
Definition num (z : Z) : value := VNum (num_of_Z z).
Definition obj (l : list (string * value)) : value :=
  VObj (map (fun kv => (js (fst kv), snd kv)) l).

(** [const MCP_SERVER_URL = process.env.MCP_SERVER_URL || ''] *)
Definition MCP_SERVER_URL (w : world) : jsstring :=
  match env_MCP_SERVER_URL w with
  | Some (c :: u) => c :: u
  | _ => []
  end.

(** The second argument of [makeHttpRequest]. *)
Record options := {
  opt_method : value;
  opt_body : value;
  opt_headers : object
}.

(** What [makeHttpRequest] resolves with. *)
Record response := {
  res_statusCode : Z;
  res_headers : list (jsstring * jsstring);
  res_body : value
}.

(** [res.headers['content-type']] *)
Fixpoint header (hs : list (jsstring * jsstring)) (k : jsstring) : value :=
  match hs with
  | [] => VUndefined
  | (k', v) :: hs' => if str_eqb k' k then VStr v else header hs' k
  end.

(** The loop over the lines of an event-stream body: the remainder of the
    first line that starts with [data: ], or the empty string. *)
Fixpoint first_data_line (lines : list jsstring) : jsstring :=
  match lines with
  | [] => []
  | line :: lines' =>
    if startsWith line (js "data: ") then substring_from 6 line
    else first_data_line lines'
  end.

(** The [end] handler of the response: the body that is resolved. *)
Definition on_end (contentType : value) (data : jsstring) : value :=
  let whole :=
    match JSON.parse data with
    | Some parsed => parsed
    | None => VStr data                   (* catch (e) *)
    end in
  let contentType := or_else contentType (str "") in
  if match contentType with
     | VStr ct => includes ct (js "text/event-stream")
     | _ => false
     end
  then
    let lines := split 10%N (trim data) in
    let jsonData := first_data_line lines in
    if truthy (VStr jsonData) then
      match JSON.parse jsonData with
      | Some parsed => parsed
      | None => VStr data                 (* catch (e) *)
      end
    else whole
  else whole.

(** The request [makeHttpRequest] builds. *)
Definition build_request (url : jsstring) (o : options) : request :=
  {| rq_url := url;
     rq_method := or_else (opt_method o) (str "GET");
     rq_headers :=
       spread_into
         [(js "Content-Type", str "application/json");
          (js "Accept", str "application/json, text/event-stream");
          (js "User-Agent", str "FiscAI-Lambda-Bridge")]
         (VObj (opt_headers o));
     rq_body :=
       if truthy (opt_body o) then
         match opt_body o with
         | VStr s => Some s
         | b => Some (JSON.stringify_text b)
         end
       else None |}.

(** [makeHttpRequest]: the request is handed to the transport, which
    rejects it (its URL does not parse, the connection fails) or responds;
    a response resolves the promise whatever its status. *)
Definition makeHttpRequest (url : jsstring) (o : options) : M response :=
  fun w st =>
    let rq := build_request url o in
    let st' := {| trace := trace st ++ [rq]; ticks := ticks st |} in
    match transport w (List.length (trace st)) rq with
    | Rejected e => (Throw e, st')
    | Responded status hs data =>
      (Return {| res_statusCode := status;
                 res_headers := hs;
                 res_body := on_end (header hs (js "content-type")) data |},
       st')
    end.

(** [callMcpAlternative]: the tool arguments alone, to the REST-like
    endpoint. *)
Definition callMcpAlternative (toolName : jsstring) (toolArgs : value)
  : M value :=
  w <- ask ;;
  let restUrl := MCP_SERVER_URL w ++ js "/tools/" ++ toolName ++ js "/call" in
  response <- makeHttpRequest restUrl
    {| opt_method := str "POST";
       opt_body := toolArgs;
       opt_headers := [(js "Accept", str "application/json");
                       (js "Content-Type", str "application/json")] |} ;;
  if (res_statusCode response =? 200)%Z then ret (res_body response)
  else throw (Error (js "Error en método alternativo: "
                     ++ JSON.stringify_text (res_body response))).

(** The JSON-RPC envelope of a tool call. *)
Definition mcpRequest (now : Z) (toolName : jsstring) (toolArgs : value)
  : value :=
  obj [("jsonrpc", str "2.0");
       ("id", VStr (js "call-" ++ string_of_Z now));
       ("method", str "tools/call");
       ("params", obj [("name", VStr toolName);
                       ("arguments", toolArgs)])].

(** [response.body.error && response.body.error.code === -32600] *)
Definition is_invalid_request (b : value) : M bool :=
  e <- lift (get b "error") ;;
  if truthy e then
    c <- lift (get e "code") ;;
    ret (strict_eq c (num (-32600)))
  else ret false.

Definition callMcpTool (toolName : jsstring) (toolArgs : value) : M value :=
  try_catch
    (now <- Date_now ;;
     w <- ask ;;
     response <- makeHttpRequest (MCP_SERVER_URL w ++ js "/mcp")
       {| opt_method := str "POST";
          opt_body := mcpRequest now toolName toolArgs;
          opt_headers :=
            [(js "Accept", str "application/json, text/event-stream");
             (js "Content-Type", str "application/json")] |} ;;
     if (res_statusCode response =? 200)%Z then
       result <- lift (get (res_body response) "result") ;;
       if truthy result then ret result
       else ret (res_body response)
     else
       retry <- is_invalid_request (res_body response) ;;
       if retry then callMcpAlternative toolName toolArgs
       else throw (Error (js "Error MCP: "
                          ++ JSON.stringify_text (res_body response))))
    (fun error =>
       throw (Error (js "Error conectando con MCP: " ++ message error))).

(* ================================================================== *)
(** * mcp_bridge.js: the twelve handlers *)
(* ================================================================== *)

(** What a handler returns: [{statusCode, body}]. *)
Record result := {
  statusCode : Z;
  body : value
}.

(** [!v || !v.trim()], for the variable named [x]: [trim] is called on
    whatever truthy value is there, and only strings have it. *)
Definition blank (v : value) (x : string) : M bool :=
  if negb (truthy v) then ret true
  else match v with
       | VStr s => ret (negb (truthy (VStr (trim s))))
       | _ => throw (TypeError (js x ++ js ".trim is not a function"))
       end.

(** [v.length] and [v.substring(0, n) + (v.length > n ? '...' : '')], which
    the handlers evaluate on parameters already checked to be strings. *)
Definition length_of (v : value) : value :=
  match v with
  | VStr s => num (Z.of_nat (List.length s))
  | _ => VUndefined
  end.

Definition preview (n : nat) (v : value) : value :=
  match v with
  | VStr s =>
    VStr (substring_to n s
          ++ (if (n <? List.length s)%nat then js "..." else []))
  | _ => VUndefined
  end.

(** [v.toLowerCase()], likewise on a checked string. *)
Definition lower (v : value) : value :=
  match v with
  | VStr s => VStr (toLowerCase s)
  | _ => VUndefined
  end.

(** [v.toUpperCase()], likewise. *)
Definition upper (v : value) : value :=
  match v with
  | VStr s => VStr (toUpperCase s)
  | _ => VUndefined
  end.

(** The strings a template literal is made of: its interpolated values,
    converted in order. *)
Fixpoint interpolate (vs : list value) : error + list jsstring :=
  match vs with
  | [] => inr []
  | v :: vs' =>
    match ToString v with
    | inl e => inl e
    | inr s =>
      match interpolate vs' with
      | inl e => inl e
      | inr ss => inr (s :: ss)
      end
    end
  end.

(** [console.log(`...${v}...`)], given the values the template literal
    interpolates: evaluating the literal is all of the line that can fail,
    and nothing that is printed is read again. *)
Definition console_log (interpolated : list value) : M unit :=
  lift (interpolate interpolated) ;; ret tt.

(** The two bodies every handler ends with, up to [metadata] and [hint]. *)
Definition ok (b : value) : result := {| statusCode := 200; body := b |}.
Definition bad_request (b : value) : result :=
  {| statusCode := 400; body := b |}.
Definition failed (b : value) : result := {| statusCode := 500; body := b |}.

(** Handler for get_fiscal_advice *)
Definition handleMcpFiscalAdvice (params : object) : M result :=
  let actividad := field params "actividad" in
  let ingresos_anuales := field params "ingresos_anuales" in
  let estado := field params "estado" in
  let regimen_actual := field params "regimen_actual" in
  let tiene_rfc := field params "tiene_rfc" in
  let contexto_adicional := field params "contexto_adicional" in
  if negb (truthy actividad) then
    ret (bad_request (obj
      [("error", VStr (js "Falta el parámetro " ++ quoted "actividad"));
       ("required", strs ["actividad"]);
       ("optional", strs ["ingresos_anuales"; "estado"; "regimen_actual";
                          "tiene_rfc"; "contexto_adicional"])]))
  else
    try_catch
      (result <- callMcpTool (js "get_fiscal_advice")
         (obj [("request", obj
            [("actividad", actividad);
             ("ingresos_anuales", ingresos_anuales);
             ("estado", estado);
             ("regimen_actual", regimen_actual);
             ("tiene_rfc", tiene_rfc);
             ("contexto_adicional", contexto_adicional)])]) ;;
       timestamp <- now_iso ;;
       ret (ok (obj
         [("success", VBool true);
          ("data", result);
          ("source", str "mcp_server");
          ("timestamp", timestamp)])))
      (fun error =>
         timestamp <- now_iso ;;
         ret (failed (obj
           [("error", VStr (message error));
            ("timestamp", timestamp)]))).

(** Handler for generate_embedding *)
Definition handleMcpGenerateEmbedding (params : object) : M result :=
  let text := field params "text" in
  b <- blank text "text" ;;
  if b then
    ret (bad_request (obj
      [("error", VStr (js "Falta el parámetro " ++ quoted "text"
                       ++ js " o está vacío"));
       ("required", strs ["text"]);
       ("hint", str "El texto no puede estar vacío para generar el embedding")]))
  else
    try_catch
      (console_log [length_of text] ;;
       console_log [preview 50 text] ;;
       result <- callMcpTool (js "generate_embedding")
         (obj [("text", text)]) ;;
       timestamp <- now_iso ;;
       ret (ok (obj
         [("success", VBool true);
          ("data", result);
          ("source", str "mcp_server");
          ("timestamp", timestamp);
          ("metadata", obj
             [("text_length", length_of text);
              ("text_preview", preview 100 text)])])))
      (fun error =>
         timestamp <- now_iso ;;
         ret (failed (obj
           [("error", VStr (message error));
            ("timestamp", timestamp);
            ("hint", str "Verifica que el servidor MCP esté funcionando y que la API de Gemini esté configurada correctamente")]))).

(** Handler for store_document *)
Definition handleMcpStoreDocument (params : object) : M result :=
  let text := field params "text" in
  let classroom_id := field params "classroom_id" in
  b <- blank text "text" ;;
  if b then
    ret (bad_request (obj
      [("error", VStr (js "Falta el parámetro " ++ quoted "text"
                       ++ js " o está vacío"));
       ("required", strs ["text"]);
       ("optional", strs ["classroom_id"]);
       ("hint", str "El texto del documento no puede estar vacío")]))
  else
    try_catch
      (console_log [length_of text] ;;
       console_log [or_else classroom_id (str "None (global)")] ;;
       console_log [preview 50 text] ;;
       result <- callMcpTool (js "store_document")
         (obj [("text", text);
               ("classroom_id", or_else classroom_id VNull)]) ;;
       timestamp <- now_iso ;;
       ret (ok (obj
         [("success", VBool true);
          ("data", result);
          ("source", str "mcp_server");
          ("timestamp", timestamp);
          ("metadata", obj
             [("text_length", length_of text);
              ("classroom_id", or_else classroom_id VNull);
              ("text_preview", preview 100 text)])])))
      (fun error =>
         timestamp <- now_iso ;;
         ret (failed (obj
           [("error", VStr (message error));
            ("timestamp", timestamp);
            ("hint", str "Verifica que el servidor MCP esté funcionando y que Supabase esté configurado correctamente")]))).

(** A destructuring default: [const { limit = 5 } = params]. *)
Definition field_default (params : object) (k : string) (d : value) : value :=
  match field params k with
  | VUndefined => d
  | v => v
  end.

(** [obj.k = v] on an object under construction. *)
Definition assign (o : value) (k : string) (v : value) : value :=
  match o with
  | VObj ps => VObj (obj_set ps (js k) v)
  | _ => o
  end.

(** Handler for search_similar_documents *)
Definition handleMcpSearchSimilarDocuments (params : object) : M result :=
  let query_text := field params "query_text" in
  let classroom_id := field params "classroom_id" in
  let limit := field_default params "limit" (num 5) in
  let threshold := field params "threshold" in
  b <- blank query_text "query_text" ;;
  if b then
    ret (bad_request (obj
      [("error", VStr (js "Falta el parámetro " ++ quoted "query_text"
                       ++ js " o está vacío"));
       ("required", strs ["query_text"]);
       ("optional", strs ["classroom_id"; "limit"; "threshold"]);
       ("hint", str "El texto de consulta no puede estar vacío")]))
  else
    parsedLimit <- lift (parseInt limit) ;;
    if isNaN parsedLimit || num_lt parsedLimit (num_of_Z 1)
       || num_gt parsedLimit (num_of_Z 50)
    then
      ret (bad_request (obj
        [("error", VStr (js "El parámetro " ++ quoted "limit"
                         ++ js " debe ser un número entre 1 y 50"));
         ("received", limit);
         ("hint", str "Usa un valor numérico válido para limitar los resultados")]))
    else
      bad <- (if negb (strict_eq threshold VUndefined) then
                parsedThreshold <- lift (parseFloat threshold) ;;
                ret (isNaN parsedThreshold
                     || num_lt parsedThreshold (num_of_Z 0)
                     || num_gt parsedThreshold (num_of_Z 1))
              else ret false) ;;
      if bad then
        ret (bad_request (obj
          [("error", VStr (js "El parámetro " ++ quoted "threshold"
                           ++ js " debe ser un número entre 0 y 1"));
           ("received", threshold);
           ("hint", str "El threshold representa la similitud mínima (0=cualquier similitud, 1=idéntico)")]))
      else
      try_catch
        (console_log [preview 50 query_text] ;;
         console_log [or_else classroom_id (str "None (búsqueda global)")] ;;
         console_log [VNum parsedLimit] ;;
         console_log [or_else threshold (str "default")] ;;
         let mcpParams := obj [("query_text", query_text);
                               ("limit", VNum parsedLimit)] in
         let mcpParams :=
           if truthy classroom_id
           then assign mcpParams "classroom_id" classroom_id
           else mcpParams in
         mcpParams <-
           (if negb (strict_eq threshold VUndefined) then
              parsedThreshold <- lift (parseFloat threshold) ;;
              ret (assign mcpParams "threshold" (VNum parsedThreshold))
            else ret mcpParams) ;;
         result <- callMcpTool (js "search_similar_documents") mcpParams ;;
         timestamp <- now_iso ;;
         ret (ok (obj
           [("success", VBool true);
            ("data", result);
            ("source", str "mcp_server");
            ("timestamp", timestamp);
            ("metadata", obj
               [("query_length", length_of query_text);
                ("query_preview", preview 100 query_text);
                ("classroom_id", or_else classroom_id VNull);
                ("limit_used", VNum parsedLimit);
                ("threshold_used", or_else threshold (str "default"))])])))
        (fun error =>
           timestamp <- now_iso ;;
           ret (failed (obj
             [("error", VStr (message error));
              ("timestamp", timestamp);
              ("hint", str "Verifica que el servidor MCP esté funcionando y que las funciones de Supabase estén configuradas")]))).

(** [v === undefined || v === null] *)
Definition is_nullish (v : value) : bool :=
  strict_eq v VUndefined || strict_eq v VNull.

(** Handler for store_document_chunk *)
Definition handleMcpStoreDocumentChunk (params : object) : M result :=
  let classroom_document_id := field params "classroom_document_id" in
  let chunk_index := field params "chunk_index" in
  let content := field params "content" in
  let token_count := field params "token_count" in
  b <- blank classroom_document_id "classroom_document_id" ;;
  if b then
    ret (bad_request (obj
      [("error", VStr (js "Falta el parámetro "
                       ++ quoted "classroom_document_id"));
       ("required", strs ["classroom_document_id"; "chunk_index"; "content"]);
       ("optional", strs ["token_count"]);
       ("hint", str "El ID del documento es obligatorio")]))
  else if is_nullish chunk_index then
    ret (bad_request (obj
      [("error", VStr (js "Falta el parámetro " ++ quoted "chunk_index"));
       ("required", strs ["classroom_document_id"; "chunk_index"; "content"]);
       ("hint", str "El índice del chunk es obligatorio (0, 1, 2, ...)")]))
  else
    b <- blank content "content" ;;
    if b then
      ret (bad_request (obj
        [("error", VStr (js "Falta el parámetro " ++ quoted "content"
                         ++ js " o está vacío"));
         ("required", strs ["classroom_document_id"; "chunk_index";
                            "content"]);
         ("hint", str "El contenido del chunk no puede estar vacío")]))
    else
      try_catch
        (console_log [classroom_document_id] ;;
         console_log [chunk_index] ;;
         console_log [length_of content] ;;
         console_log [or_else token_count (str "auto")] ;;
         index <- lift (parseInt chunk_index) ;;
         tokens <- (if truthy token_count then
                      count <- lift (parseInt token_count) ;; ret (VNum count)
                    else ret VUndefined) ;;
         result <- callMcpTool (js "store_document_chunk")
           (obj [("classroom_document_id", classroom_document_id);
                 ("chunk_index", VNum index);
                 ("content", content);
                 ("token_count", tokens)]) ;;
         timestamp <- now_iso ;;
         index <- lift (parseInt chunk_index) ;;
         ret (ok (obj
           [("success", VBool true);
            ("data", result);
            ("source", str "mcp_server");
            ("timestamp", timestamp);
            ("metadata", obj
               [("classroom_document_id", classroom_document_id);
                ("chunk_index", VNum index);
                ("content_length", length_of content);
                ("token_count", or_else token_count (str "auto"))])])))
        (fun error =>
           timestamp <- now_iso ;;
           ret (failed (obj
             [("error", VStr (message error));
              ("timestamp", timestamp);
              ("hint", str "Verifica que el documento exista y que Supabase esté configurado correctamente")]))).

(** Handler for search_similar_chunks *)
Definition handleMcpSearchSimilarChunks (params : object) : M result :=
  let query_text := field params "query_text" in
  let classroom_id := field params "classroom_id" in
  let limit := field_default params "limit" (num 5) in
  let threshold := field params "threshold" in
  b <- blank query_text "query_text" ;;
  if b then
    ret (bad_request (obj
      [("error", VStr (js "Falta el parámetro " ++ quoted "query_text"
                       ++ js " o está vacío"));
       ("required", strs ["query_text"; "classroom_id"]);
       ("optional", strs ["limit"; "threshold"]);
       ("hint", str "El texto de consulta no puede estar vacío")]))
  else
    b <- blank classroom_id "classroom_id" ;;
    if b then
      ret (bad_request (obj
        [("error", VStr (js "Falta el parámetro " ++ quoted "classroom_id"));
         ("required", strs ["query_text"; "classroom_id"]);
         ("optional", strs ["limit"; "threshold"]);
         ("hint", str "El ID del classroom es OBLIGATORIO para esta búsqueda")]))
    else
      try_catch
        (console_log [classroom_id] ;;
         console_log [preview 50 query_text] ;;
         console_log [limit] ;;
         console_log [or_else threshold (str "default")] ;;
         parsedLimit <- lift (parseInt limit) ;;
         parsedThreshold <-
           (if truthy threshold then
              t <- lift (parseFloat threshold) ;; ret (VNum t)
            else ret VUndefined) ;;
         result <- callMcpTool (js "search_similar_chunks")
           (obj [("query_text", query_text);
                 ("classroom_id", classroom_id);
                 ("limit", VNum parsedLimit);
                 ("threshold", parsedThreshold)]) ;;
         timestamp <- now_iso ;;
         parsedLimit <- lift (parseInt limit) ;;
         ret (ok (obj
           [("success", VBool true);
            ("data", result);
            ("source", str "mcp_server");
            ("timestamp", timestamp);
            ("metadata", obj
               [("query_text", query_text);
                ("classroom_id", classroom_id);
                ("limit", VNum parsedLimit);
                ("threshold", or_else threshold (str "default"))])])))
        (fun error =>
           timestamp <- now_iso ;;
           ret (failed (obj
             [("error", VStr (message error));
              ("timestamp", timestamp);
              ("hint", str "Verifica que el classroom exista y que la función RPC match_classroom_chunks esté creada")]))).

(** Handler for chat_with_classroom_assistant *)
Definition handleMcpChatWithClassroom (params : object) : M result :=
  let message := field params "message" in
  let classroom_id := field params "classroom_id" in
  let user_id := field params "user_id" in
  let session_id := field params "session_id" in
  b <- blank message "message" ;;
  if b then
    ret (bad_request (obj
      [("error", VStr (js "Falta el parámetro " ++ quoted "message"
                       ++ js " o está vacío"));
       ("required", strs ["message"; "classroom_id"]);
       ("optional", strs ["user_id"; "session_id"]);
       ("hint", str "El mensaje del usuario no puede estar vacío")]))
  else
    b <- blank classroom_id "classroom_id" ;;
    if b then
      ret (bad_request (obj
        [("error", VStr (js "Falta el parámetro " ++ quoted "classroom_id"));
         ("required", strs ["message"; "classroom_id"]);
         ("optional", strs ["user_id"; "session_id"]);
         ("hint", str "El ID del classroom es obligatorio")]))
    else
      try_catch
        (console_log [preview 50 message] ;;
         console_log [classroom_id] ;;
         console_log [or_else user_id (str "Anonymous")] ;;
         console_log [or_else session_id (str "N/A")] ;;
         result <- callMcpTool (js "chat_with_classroom_assistant")
           (obj [("request", obj
              [("message", message);
               ("classroom_id", classroom_id);
               ("user_id", or_else user_id VNull);
               ("session_id", or_else session_id VNull)])]) ;;
         timestamp <- now_iso ;;
         ret (ok (obj
           [("success", VBool true);
            ("data", result);
            ("source", str "mcp_server");
            ("timestamp", timestamp);
            ("metadata", obj
               [("message_length", length_of message);
                ("classroom_id", classroom_id);
                ("user_id", or_else user_id (str "anonymous"));
                ("session_id", or_else session_id (str "none"))])])))
        (fun error =>
           timestamp <- now_iso ;;
           ret (failed (obj
             [("error", VStr (JS.message error));
              ("timestamp", timestamp);
              ("hint", str "Verifica que el classroom exista y tenga documentos cargados")]))).

(** Handler for get_classroom_info *)
Definition handleMcpGetClassroomInfo (params : object) : M result :=
  let classroom_id := field params "classroom_id" in
  b <- blank classroom_id "classroom_id" ;;
  if b then
    ret (bad_request (obj
      [("error", VStr (js "Falta el parámetro " ++ quoted "classroom_id"));
       ("required", strs ["classroom_id"]);
       ("hint", str "El ID del classroom es obligatorio")]))
  else
    try_catch
      (console_log [classroom_id] ;;
       result <- callMcpTool (js "get_classroom_info")
         (obj [("classroom_id", classroom_id)]) ;;
       timestamp <- now_iso ;;
       ret (ok (obj
         [("success", VBool true);
          ("data", result);
          ("source", str "mcp_server");
          ("timestamp", timestamp)])))
      (fun error =>
         timestamp <- now_iso ;;
         ret (failed (obj
           [("error", VStr (message error));
            ("timestamp", timestamp);
            ("hint", str "Verifica que el classroom exista")]))).

(** Handler for create_embedding *)
Definition handleMcpCreateEmbedding (params : object) : M result :=
  let text := field params "text" in
  let classroom_id := field params "classroom_id" in
  b <- blank text "text" ;;
  if b then
    ret (bad_request (obj
      [("error", VStr (js "Falta el parámetro " ++ quoted "text"
                       ++ js " o está vacío"));
       ("required", strs ["text"; "classroom_id"]);
       ("hint", str "El texto no puede estar vacío")]))
  else
    b <- blank classroom_id "classroom_id" ;;
    if b then
      ret (bad_request (obj
        [("error", VStr (js "Falta el parámetro " ++ quoted "classroom_id"));
         ("required", strs ["text"; "classroom_id"]);
         ("hint", str "El ID del classroom es obligatorio")]))
    else
      try_catch
        (console_log [length_of text] ;;
         console_log [classroom_id] ;;
         result <- callMcpTool (js "create_embedding")
           (obj [("text", text);
                 ("classroom_id", classroom_id)]) ;;
         timestamp <- now_iso ;;
         ret (ok (obj
           [("success", VBool true);
            ("data", result);
            ("source", str "mcp_server");
            ("timestamp", timestamp);
            ("metadata", obj
               [("text_length", length_of text);
                ("classroom_id", classroom_id)])])))
        (fun error =>
           timestamp <- now_iso ;;
           ret (failed (obj
             [("error", VStr (message error));
              ("timestamp", timestamp);
              ("hint", str "Verifica la configuración de Gemini y Supabase")]))).

(** Handler for professor_assistant *)
Definition handleMcpProfessorAssistant (params : object) : M result :=
  let question := field params "question" in
  let classroom_id := field params "classroom_id" in
  b <- blank question "question" ;;
  if b then
    ret (bad_request (obj
      [("error", VStr (js "Falta el parámetro " ++ quoted "question"
                       ++ js " o está vacío"));
       ("required", strs ["question"; "classroom_id"]);
       ("hint", str "La pregunta no puede estar vacía")]))
  else
    b <- blank classroom_id "classroom_id" ;;
    if b then
      ret (bad_request (obj
        [("error", VStr (js "Falta el parámetro " ++ quoted "classroom_id"));
         ("required", strs ["question"; "classroom_id"]);
         ("hint", str "El ID del classroom es obligatorio")]))
    else
      try_catch
        (console_log [preview 60 question] ;;
         console_log [classroom_id] ;;
         result <- callMcpTool (js "professor_assistant")
           (obj [("question", question);
                 ("classroom_id", classroom_id)]) ;;
         timestamp <- now_iso ;;
         ret (ok (obj
           [("success", VBool true);
            ("data", result);
            ("source", str "mcp_server");
            ("timestamp", timestamp);
            ("metadata", obj
               [("question_length", length_of question);
                ("classroom_id", classroom_id)])])))
        (fun error =>
           timestamp <- now_iso ;;
           ret (failed (obj
             [("error", VStr (message error));
              ("timestamp", timestamp);
              ("hint", str "Verifica que el classroom tenga documentos cargados")]))).

(** [['pdf', 'ppt'].includes(v)] *)
Definition is_pdf_or_ppt (v : value) : bool :=
  strict_eq v (str "pdf") || strict_eq v (str "ppt").

(** [Array.isArray(v)] *)
Definition isArray (v : value) : bool :=
  match v with VArr _ => true | _ => false end.

(** Handler for generate_resources *)
Definition handleMcpGenerateResources (params : object) : M result :=
  let classroom_id := field params "classroom_id" in
  let resource_type := field params "resource_type" in
  let user_id := field params "user_id" in
  let topic := field params "topic" in
  let source_document_ids := field params "source_document_ids" in
  b <- blank classroom_id "classroom_id" ;;
  if b then
    ret (bad_request (obj
      [("error", VStr (js "Falta el parámetro " ++ quoted "classroom_id"));
       ("required", strs ["classroom_id"; "resource_type"; "user_id"]);
       ("optional", strs ["topic"; "source_document_ids"]);
       ("hint", str "El ID del classroom es obligatorio")]))
  else
    b <- blank resource_type "resource_type" ;;
    if b then
      ret (bad_request (obj
        [("error", VStr (js "Falta el parámetro " ++ quoted "resource_type"));
         ("required", strs ["classroom_id"; "resource_type"; "user_id"]);
         ("optional", strs ["topic"; "source_document_ids"]);
         ("hint", VStr (js "El tipo de recurso es obligatorio: "
                        ++ quoted "pdf" ++ js " o " ++ quoted "ppt"))]))
    else if negb (is_pdf_or_ppt (lower resource_type)) then
      ret (bad_request (obj
        [("error", str "Tipo de recurso inválido");
         ("received", resource_type);
         ("allowed", strs ["pdf"; "ppt"]);
         ("hint", VStr (js "El tipo de recurso debe ser "
                        ++ quoted "pdf" ++ js " o " ++ quoted "ppt"))]))
    else
      b <- blank user_id "user_id" ;;
      if b then
        ret (bad_request (obj
          [("error", VStr (js "Falta el parámetro " ++ quoted "user_id"));
           ("required", strs ["classroom_id"; "resource_type"; "user_id"]);
           ("optional", strs ["topic"; "source_document_ids"]);
           ("hint", str "El ID del usuario es obligatorio")]))
      else
        try_catch
          (console_log [upper resource_type] ;;
           console_log [classroom_id] ;;
           console_log [user_id] ;;
           console_log [or_else topic (str "General")] ;;
           documents <- (if truthy source_document_ids
                         then lift (get source_document_ids "length")
                         else ret (str "all")) ;;
           console_log [documents] ;;
           let mcpParams := obj [("classroom_id", classroom_id);
                                 ("resource_type", lower resource_type);
                                 ("user_id", user_id)] in
           let mcpParams :=
             if truthy topic then assign mcpParams "topic" topic
             else mcpParams in
           let mcpParams :=
             if truthy source_document_ids && isArray source_document_ids
             then assign mcpParams "source_document_ids" source_document_ids
             else mcpParams in
           result <- callMcpTool (js "generate_resources") mcpParams ;;
           timestamp <- now_iso ;;
           ret (ok (obj
             [("success", VBool true);
              ("data", result);
              ("source", str "mcp_server");
              ("timestamp", timestamp);
              ("metadata", obj
                 [("classroom_id", classroom_id);
                  ("resource_type", lower resource_type);
                  ("user_id", user_id);
                  ("topic", or_else topic VNull)])])))
          (fun error =>
             timestamp <- now_iso ;;
             ret (failed (obj
               [("error", VStr (message error));
                ("timestamp", timestamp);
                ("hint", str "Verifica que el classroom tenga documentos cargados y que las dependencias de generación estén instaladas")]))).

(** Handler for analyze_and_update_user_context *)
Definition handleMcpAnalyzeUserContext (params : object) : M result :=
  let user_id := field params "user_id" in
  let session_id := field params "session_id" in
  b <- blank user_id "user_id" ;;
  if b then
    ret (bad_request (obj
      [("error", VStr (js "Falta el parámetro " ++ quoted "user_id"));
       ("required", strs ["user_id"; "session_id"]);
       ("hint", str "El ID del usuario es obligatorio")]))
  else
    b <- blank session_id "session_id" ;;
    if b then
      ret (bad_request (obj
        [("error", VStr (js "Falta el parámetro " ++ quoted "session_id"));
         ("required", strs ["user_id"; "session_id"]);
         ("hint", str "El ID de la sesión es obligatorio")]))
    else
      try_catch
        (console_log [user_id] ;;
         console_log [session_id] ;;
         result <- callMcpTool (js "analyze_and_update_user_context")
           (obj [("user_id", user_id);
                 ("session_id", session_id)]) ;;
         timestamp <- now_iso ;;
         ret (ok (obj
           [("success", VBool true);
            ("data", result);
            ("source", str "mcp_server");
            ("timestamp", timestamp);
            ("metadata", obj
               [("user_id", user_id);
                ("session_id", session_id)])])))
        (fun error =>
           timestamp <- now_iso ;;
           ret (failed (obj
             [("error", VStr (message error));
              ("timestamp", timestamp);
              ("hint", str "Verifica que el usuario y la sesión existan")]))).

(** [module.exports]: the twelve operations and the handler of each. *)
Inductive operation :=
| FiscalAdvice
| GenerateEmbedding
| StoreDocument
| SearchSimilarDocuments
| StoreDocumentChunk
| SearchSimilarChunks
| ChatWithClassroom
| GetClassroomInfo
| CreateEmbedding
| ProfessorAssistant
| GenerateResources
| AnalyzeUserContext.

Definition operations : list operation :=
  [FiscalAdvice; GenerateEmbedding; StoreDocument; SearchSimilarDocuments;
   StoreDocumentChunk; SearchSimilarChunks; ChatWithClassroom;
   GetClassroomInfo; CreateEmbedding; ProfessorAssistant; GenerateResources;
   AnalyzeUserContext].

Definition exports (op : operation) : object -> M result :=
  match op with
  | FiscalAdvice => handleMcpFiscalAdvice
  | GenerateEmbedding => handleMcpGenerateEmbedding
  | StoreDocument => handleMcpStoreDocument
  | SearchSimilarDocuments => handleMcpSearchSimilarDocuments
  | StoreDocumentChunk => handleMcpStoreDocumentChunk
  | SearchSimilarChunks => handleMcpSearchSimilarChunks
  | ChatWithClassroom => handleMcpChatWithClassroom
  | GetClassroomInfo => handleMcpGetClassroomInfo
  | CreateEmbedding => handleMcpCreateEmbedding
  | ProfessorAssistant => handleMcpProfessorAssistant
  | GenerateResources => handleMcpGenerateResources
  | AnalyzeUserContext => handleMcpAnalyzeUserContext
  end.

End Bridge.

(* ================================================================== *)
(** * index.js: the dispatcher *)
(* ================================================================== *)

Module Index.

Import Bridge.

Local Open Scope string_scope.
Local Open Scope list_scope.

(** The transport-level response: [{statusCode, headers, body}], the body
    being what [JSON.stringify] returns ([None] for [undefined]). *)
Record response := {
  statusCode : Z;
  headers : list (string * string);
  body : option jsstring
}.

(** [JSON.parse(text)], which throws a SyntaxError. *)
Definition JSON_parse (text : jsstring) : M value :=
  fun w st =>
    match JSON.parse text with
    | Some v => (Return v, st)
    | None => (Throw (SyntaxError (syntax_message w text)), st)
    end.

(** [a || b], the right operand being evaluated only when needed. *)
Definition or_m (a b : M value) : M value :=
  x <- a ;; if truthy x then ret x else b.

(** [v?.k], on the result of a read. *)
Definition chain (v : value) (k : string) : value :=
  if is_nullish v then VUndefined else get_opt v k.

Definition extractParams (event : value) : M object :=
  let params : object := [] in
  queryStringParameters <- lift (get event "queryStringParameters") ;;
  let params :=
    if truthy queryStringParameters
    then spread_into [] queryStringParameters
    else params in
  event_body <- lift (get event "body") ;;
  params <-
    (if truthy event_body then
       body <- (if is_string event_body
                then text <- lift (ToString event_body) ;; JSON_parse text
                else ret event_body) ;;
       ret (spread_into (spread_into [] (VObj params)) body)
     else ret params) ;;
  httpMethod <- lift (get event "httpMethod") ;;
  ret (if negb (truthy queryStringParameters) && negb (truthy event_body)
          && negb (truthy httpMethod)
       then spread_into [] event
       else params).

Definition createResponse (statusCode : Z) (body : value) : response :=
  {| statusCode := statusCode;
     headers :=
       [("Content-Type", "application/json");
        ("Access-Control-Allow-Origin", "*");
        ("Access-Control-Allow-Methods", "GET, POST, OPTIONS");
        ("Access-Control-Allow-Headers", "Content-Type, Authorization")];
     body := JSON.stringify body |}.

(** The chain of tests of [getEndpoint], on the normalized path. *)
Definition endpoint_of_path (path : jsstring) : jsstring :=
  let has s := includes path (js s) in
  if has "/fiscal-advice" || has "/fiscaladvice" then js "fiscal-advice"
  else if has "/generate-embedding" || has "/embedding"
  then js "generate-embedding"
  else if has "/store-document-chunk" || has "/store-chunk"
  then js "store-document-chunk"
  else if has "/search-chunks" || has "/chunks" then js "search-chunks"
  else if has "/chat-classroom" || has "/chat-classroom"
  then js "chat-classroom"
  else if has "/classroom-info" || has "/classroom" then js "classroom-info"
  else if has "/create-embedding" then js "create-embedding"
  else if has "/professor-assistant" || has "/professor"
  then js "professor-assistant"
  else if has "/generate-resources" || has "/resources"
  then js "generate-resources"
  else if has "/analyze-user-context" || has "/analyze-context"
  then js "analyze-user-context"
  else if has "/health" then js "health"
  else if str_eqb path (js "/") || str_eqb path (js "")
          || str_eqb path (js "/info")
  then js "info"
  else js "unknown".

Definition getEndpoint (event : value) : M jsstring :=
  path <- or_m (lift (get event "path"))
            (or_m (lift (get event "rawPath"))
               (or_m (requestContext <- lift (get event "requestContext") ;;
                      ret (chain requestContext "resourcePath"))
                  (ret (str "")))) ;;
  match path with
  | VStr p => ret (endpoint_of_path (strip_trailing_slash p))
  | _ => throw (TypeError (js "path.replace is not a function"))
  end.

(** The ten [case] labels of the switch that call the bridge, and the
    operation each calls. *)
Definition routes : list (string * operation) :=
  [("fiscal-advice", FiscalAdvice);
   ("generate-embedding", GenerateEmbedding);
   ("store-document-chunk", StoreDocumentChunk);
   ("search-chunks", SearchSimilarChunks);
   ("chat-classroom", ChatWithClassroom);
   ("classroom-info", GetClassroomInfo);
   ("create-embedding", CreateEmbedding);
   ("professor-assistant", ProfessorAssistant);
   ("generate-resources", GenerateResources);
   ("analyze-user-context", AnalyzeUserContext)].

Fixpoint lookup_route (rs : list (string * operation)) (endpoint : jsstring)
  : option operation :=
  match rs with
  | [] => None
  | (label, op) :: rs' =>
    if str_eqb endpoint (js label) then Some op
    else lookup_route rs' endpoint
  end.

Definition dispatch (endpoint : jsstring) : option operation :=
  lookup_route routes endpoint.

(** [process.env.MCP_SERVER_URL || fallback] *)
Definition mcp_server (w : world) (fallback : string) : value :=
  match env_MCP_SERVER_URL w with
  | Some (c :: u) => VStr (c :: u)
  | _ => str fallback
  end.

(** [event.requestContext?.http?.method] *)
Definition http_method (event : value) : M value :=
  requestContext <- lift (get event "requestContext") ;;
  ret (chain (chain requestContext "http") "method").

Definition health_body (w : world) (timestamp : value) : value :=
  obj [("status", str "healthy");
       ("service", str "FiscAI Lambda MCP Bridge");
       ("version", str "2.0.0");
       ("mcp_server", mcp_server w "https://fiscmcp.fastmcp.app");
       ("timestamp", timestamp)].

Definition info_body (w : world) (timestamp : value) : value :=
  obj
    [("service", str "EstudIA Lambda - MCP Bridge");
     ("version", str "3.0.0");
     ("description", str "Bridge HTTP para conectar apps con servidor MCP de EstudIA (Sistema de gestión educativa tipo NotebookLM)");
     ("mcp_server", mcp_server w "https://estudia-mcp.fastmcp.app");
     ("endpoints", obj
        [("health", str "/health");
         ("generateEmbedding", str "/generate-embedding");
         ("createEmbedding", str "/create-embedding");
         ("storeDocumentChunk", str "/store-document-chunk");
         ("searchChunks", str "/search-chunks");
         ("chatClassroom", str "/chat-classroom");
         ("professorAssistant", str "/professor-assistant");
         ("classroomInfo", str "/classroom-info");
         ("generateResources", str "/generate-resources");
         ("analyzeUserContext", str "/analyze-user-context");
         ("fiscalAdvice", str "/fiscal-advice")]);
     ("usage", obj
        [("generateEmbedding", obj
            [("method", str "POST");
             ("path", str "/generate-embedding");
             ("body", obj [("text", str "string (required)")])]);
         ("createEmbedding", obj
            [("method", str "POST");
             ("path", str "/create-embedding");
             ("body", obj
                [("text", str "string (required)");
                 ("classroom_id", str "string (required, UUID del classroom)")])]);
         ("storeDocumentChunk", obj
            [("method", str "POST");
             ("path", str "/store-document-chunk");
             ("body", obj
                [("classroom_document_id", str "string (required, UUID del documento)");
                 ("chunk_index", str "number (required, índice del chunk: 0, 1, 2...)");
                 ("content", str "string (required, contenido del chunk)");
                 ("token_count", str "number (optional, número de tokens)")])]);
         ("searchChunks", obj
            [("method", str "POST");
             ("path", str "/search-chunks");
             ("body", obj
                [("query_text", str "string (required)");
                 ("classroom_id", str "string (required, UUID del classroom)");
                 ("limit", str "number (optional, default: 5)");
                 ("threshold", str "number (optional, 0-1, default: 0.6)")])]);
         ("chatClassroom", obj
            [("method", str "POST");
             ("path", str "/chat-classroom");
             ("body", obj
                [("message", str "string (required, mensaje del usuario)");
                 ("classroom_id", str "string (required, UUID del classroom)");
                 ("user_id", str "string (optional, UUID del usuario)");
                 ("session_id", str "string (optional, ID de sesión)")])]);
         ("classroomInfo", obj
            [("method", str "GET/POST");
             ("path", str "/classroom-info");
             ("body", obj
                [("classroom_id", str "string (required, UUID del classroom)")])]);
         ("professorAssistant", obj
            [("method", str "POST");
             ("path", str "/professor-assistant");
             ("body", obj
                [("question", str "string (required, pregunta del estudiante)");
                 ("classroom_id", str "string (required, UUID del classroom)")])]);
         ("generateResources", obj
            [("method", str "POST");
             ("path", str "/generate-resources");
             ("body", obj
                [("classroom_id", str "string (required, UUID del classroom)");
                 ("resource_type", VStr (jsq "string (required, `pdf` o `ppt`)"));
                 ("user_id", str "string (required, UUID del usuario)");
                 ("topic", str "string (optional, tema específico del recurso)");
                 ("source_document_ids", str "array (optional, UUIDs de documentos específicos)")])]);
         ("analyzeUserContext", obj
            [("method", str "POST");
             ("path", str "/analyze-user-context");
             ("body", obj
                [("user_id", str "string (required, UUID del usuario)");
                 ("session_id", str "string (required, UUID de la sesión del cubículo)")])]);
         ("fiscalAdvice", obj
            [("method", str "POST");
             ("path", str "/fiscal-advice");
             ("body", obj
                [("actividad", str "string (required)");
                 ("ingresos_anuales", str "number (optional)");
                 ("estado", str "string (optional)");
                 ("regimen_actual", str "string (optional)");
                 ("tiene_rfc", str "boolean (optional)");
                 ("contexto_adicional", str "string (optional)")])])]);
     ("examples", obj
        [("chatClassroom", VStr (trim (jsq "
            curl -X POST https://your-api-url.com/chat-classroom \
              -H `Content-Type: application/json` \
              -d '{
                `message`: `¿Cuáles son los conceptos clave de la clase?`,
                `classroom_id`: `550e8400-e29b-41d4-a716-446655440000`
              }'
            ")));
         ("professorAssistant", VStr (trim (jsq "
            curl -X POST https://your-api-url.com/professor-assistant \
              -H `Content-Type: application/json` \
              -d '{
                `question`: `¿Puedes explicar el concepto de embeddings?`,
                `classroom_id`: `550e8400-e29b-41d4-a716-446655440000`
              }'
            ")));
         ("storeChunk", VStr (trim (jsq "
            curl -X POST https://your-api-url.com/store-document-chunk \
              -H `Content-Type: application/json` \
              -d '{
                `classroom_document_id`: `doc-uuid-123`,
                `chunk_index`: 0,
                `content`: `Los embeddings son vectores numéricos...`
              }'
            ")));
         ("searchChunks", VStr (trim (jsq "
            curl -X POST https://your-api-url.com/search-chunks \
              -H `Content-Type: application/json` \
              -d '{
                `query_text`: `embeddings vectores`,
                `classroom_id`: `550e8400-e29b-41d4-a716-446655440000`,
                `limit`: 5
              }'
            ")));
         ("analyzeUserContext", VStr (trim (jsq "
            curl -X POST https://your-api-url.com/analyze-user-context \
              -H `Content-Type: application/json` \
              -d '{
                `user_id`: `user-uuid-123`,
                `session_id`: `session-uuid-456`
              }'
            ")))]);
     ("timestamp", timestamp)].

Definition available_endpoints : list string :=
  ["/health";
   "/generate-embedding";
   "/create-embedding";
   "/store-document-chunk";
   "/search-chunks";
   "/chat-classroom";
   "/classroom-info";
   "/professor-assistant";
   "/generate-resources";
   "/analyze-user-context";
   "/fiscal-advice (legacy)"].

Definition not_found_body (endpoint : jsstring) (path method timestamp : value)
  : value :=
  obj [("error", str "Endpoint no encontrado");
       ("endpoint_requested", VStr endpoint);
       ("path", path);
       ("method", method);
       ("available_endpoints", strs available_endpoints);
       ("tip", str "Accede a / o /info para ver la documentación completa");
       ("timestamp", timestamp)].

Section Handler.

(** [const mcpBridge = require('./mcp_bridge')]: the module the handler
    calls, as the handler it has for each operation. *)
Variable mcpBridge : operation -> object -> M result.

(** The body of the [try] block of [handler]. *)
Definition route_with (event : value) : M response :=
  endpoint <- getEndpoint event ;;
  params <- extractParams event ;;
  match dispatch endpoint with
  | Some op =>
    result <- mcpBridge op params ;;
    ret (createResponse (Bridge.statusCode result) (Bridge.body result))
  | None =>
    if str_eqb endpoint (js "health") then
      w <- ask ;;
      timestamp <- now_iso ;;
      ret (createResponse 200 (health_body w timestamp))
    else if str_eqb endpoint (js "info") then
      w <- ask ;;
      timestamp <- now_iso ;;
      ret (createResponse 200 (info_body w timestamp))
    else
      path <- or_m (lift (get event "path"))
                (or_m (lift (get event "rawPath")) (ret (str "N/A"))) ;;
      method <- or_m (lift (get event "httpMethod"))
                  (or_m (http_method event) (ret (str "N/A"))) ;;
      timestamp <- now_iso ;;
      ret (createResponse 404 (not_found_body endpoint path method timestamp))
  end.

(** [exports.handler], given the module. *)
Definition handler_with (event : value) : M response :=
  httpMethod <- lift (get event "httpMethod") ;;
  preflight <-
    (if strict_eq httpMethod (str "OPTIONS") then ret true
     else method <- http_method event ;;
          ret (strict_eq method (str "OPTIONS"))) ;;
  if preflight then ret (createResponse 200 (obj [("message", str "OK")]))
  else
    try_catch (route_with event)
      (fun error =>
         w <- ask ;;
         let stack :=
           match env_NODE_ENV w with
           | Some e => if str_eqb e (js "development")
                       then VStr (stack_of w error) else VUndefined
           | None => VUndefined
           end in
         timestamp <- now_iso ;;
         ret (createResponse 500 (obj
           [("error", VStr (message error));
            ("stack", stack);
            ("timestamp", timestamp)]))).

End Handler.

(** [index.js] as it is deployed, with [mcp_bridge.js] for the module. *)
Definition route : value -> M response := route_with exports.

(** [exports.handler] *)
Definition handler : value -> M response := handler_with exports.

End Index.

(* ================================================================== *)
(** * Facts about strings *)
(* ================================================================== *)

Module StringFacts.

Local Open Scope N_scope.

Lemma str_eqb_refl (s : jsstring) : str_eqb s s = true.
Proof.
  induction s as [|c s IH]; simpl; [reflexivity|].
  now rewrite N.eqb_refl.
Qed.

Lemma str_eqb_eq (a b : jsstring) : str_eqb a b = true <-> a = b.
Proof.
  split.
  - revert b; induction a as [|x a IH]; intros [|y b] H; simpl in H;
      try discriminate; [reflexivity|].
    apply andb_true_iff in H as [Hxy Hab].
    apply N.eqb_eq in Hxy. now rewrite Hxy, (IH b Hab).
  - intros ->. apply str_eqb_refl.
Qed.

Lemma startsWith_app (p s : jsstring) : startsWith (p ++ s) p = true.
Proof.
  induction p as [|c p IH]; simpl; [reflexivity|].
  now rewrite N.eqb_refl.
Qed.

Lemma startsWith_inv (s p : jsstring) :
  startsWith s p = true -> exists r, s = p ++ r.
Proof.
  revert s; induction p as [|y p IH]; intros s H.
  - now exists s.
  - destruct s as [|x s]; simpl in H; [discriminate|].
    apply andb_true_iff in H as [Hxy Hs].
    apply N.eqb_eq in Hxy. destruct (IH s Hs) as [r ->].
    exists r. now rewrite Hxy.
Qed.

Lemma includes_here (s p : jsstring) :
  startsWith s p = true -> includes s p = true.
Proof.
  intros H. destruct s; cbn [includes]; rewrite H; reflexivity.
Qed.

Lemma includes_app (a p b : jsstring) : includes (a ++ p ++ b) p = true.
Proof.
  induction a as [|c a IH].
  - cbn [app]. apply includes_here, startsWith_app.
  - cbn [app includes]. rewrite IH. apply orb_true_r.
Qed.

(** What [trimStart] removes is white space. *)
Lemma trimStart_split (s : jsstring) :
  exists w, s = w ++ trimStart s /\ forallb is_white_space w = true.
Proof.
  induction s as [|c s [w [Hs Hw]]].
  - now exists [].
  - simpl. destruct (is_white_space c) eqn:Hc.
    + exists (c :: w). simpl. rewrite Hc, Hw. split; [now f_equal|reflexivity].
    + now exists [].
Qed.

(** A string is its trimmed form between two runs of white space. *)
Lemma trim_split (s : jsstring) :
  exists w1 w2, s = w1 ++ trim s ++ w2 /\ forallb is_white_space w1 = true.
Proof.
  destruct (trimStart_split s) as [w1 [Hs Hw1]].
  destruct (trimStart_split (rev (trimStart s))) as [w2 [Hr _]].
  exists w1, (rev w2). split; [|assumption].
  unfold trim, trimEnd.
  rewrite <- rev_app_distr, <- Hr, rev_involutive. exact Hs.
Qed.

(** Where the lines of [split] come from: the first line is a prefix of the
    text, every other line follows a line feed. *)
Lemma split_lines (t : jsstring) :
  match split 10 t with
  | [] => False
  | l0 :: ls =>
    (exists r, t = l0 ++ r)
    /\ forall line, In line ls -> exists p r, t = p ++ 10 :: line ++ r
  end.
Proof.
  induction t as [|c t IH]; simpl.
  - split; [now exists []|]. intros line [].
  - destruct (split 10 t) as [|l0 ls]; [contradiction|].
    destruct IH as [[r0 Hr0] Hls].
    destruct (c =? 10) eqn:Hc.
    + apply N.eqb_eq in Hc. subst c. split; [now exists (10 :: t)|].
      intros line [<-|Hin].
      * exists [], r0. simpl. now rewrite Hr0.
      * destruct (Hls line Hin) as [p [r ->]]. now exists (10 :: p), r.
    + split.
      * exists r0. simpl. now rewrite Hr0.
      * intros line Hin. destruct (Hls line Hin) as [p [r ->]].
        now exists (c :: p), r.
Qed.

Lemma is_digit_mod (n : N) : is_digit (48 + n mod 10) = true.
Proof.
  unfold is_digit.
  assert (H : n mod 10 < 10) by now apply N.mod_upper_bound.
  revert H. generalize (n mod 10). intros m H.
  apply andb_true_iff; split; apply N.leb_le; lia.
Qed.

(** The first code unit of the decimal form of a natural number is a
    digit. *)
Lemma digits_fuel_head (fuel : nat) (n : N) (acc : jsstring) :
  exists d r, digits_fuel (S fuel) n acc = d :: r /\ is_digit d = true.
Proof.
  revert n acc; induction fuel as [|f IH]; intros n acc.
  - exists (48 + n mod 10), acc. split; [|apply is_digit_mod].
    cbn [digits_fuel]. now destruct (n <? 10).
  - change (digits_fuel (S (S f)) n acc)
      with (if n <? 10 then (48 + n mod 10) :: acc
            else digits_fuel (S f) (n / 10) ((48 + n mod 10) :: acc)).
    destruct (n <? 10).
    + exists (48 + n mod 10), acc. split; [reflexivity|apply is_digit_mod].
    + apply IH.
Qed.

Lemma digits_of_N_head (n : N) :
  exists d r, digits_of_N n = d :: r /\ is_digit d = true.
Proof. apply digits_fuel_head. Qed.

End StringFacts.

(* ================================================================== *)
(** * Facts about JSON.parse *)
(* ================================================================== *)

Module JSONFacts.

Import JSON StringFacts.

Local Open Scope N_scope.

(** The states the lexer reaches: what is left of a literal is a suffix of
    [true], [false] or [null], so it holds no line feed. *)
Definition reachable (st : lstate) : Prop :=
  match st with
  | LLiteral rest _ => ~ In 10 rest
  | _ => True
  end.

Lemma lex_default_reachable (c : code_unit) st ts :
  lex_default c = Some (st, ts) -> reachable st.
Proof.
  unfold lex_default.
  repeat match goal with
         | |- context [if ?b then _ else _] => destruct b
         end;
    intros H; inversion H; subst; simpl; try exact I;
    intros Hin; repeat (destruct Hin as [Hin|Hin]; [discriminate|]);
    exact Hin.
Qed.

Lemma lex_step_reachable st c st' ts :
  reachable st -> lex_step st c = Some (st', ts) -> reachable st'.
Proof.
  intros Hst H. destruct st; simpl in H.
  - eapply lex_default_reachable; eassumption.
  - repeat match type of H with
           | context [if ?b then _ else _] => destruct b
           end; inversion H; exact I.
  - repeat match type of H with
           | context [if ?b then _ else _] => destruct b
           end; inversion H; exact I.
  - destruct (hex_value c); [|discriminate].
    destruct (Nat.eqb (List.length hex) 3); inversion H; exact I.
  - destruct (is_number_unit c); [inversion H; exact I|].
    destruct (number_of_literal (rev acc)); [|discriminate].
    destruct (lex_default c) as [[st0 ts0]|] eqn:Hd; [|discriminate].
    inversion H; subst. eapply lex_default_reachable; eassumption.
  - destruct rest as [|x rest']; [discriminate|].
    destruct (c =? x); [|discriminate].
    destruct rest'; inversion H; subst; simpl; [exact I|].
    simpl in Hst. intros Hin. apply Hst. now right.
Qed.

(** No JSON text holds a line feed directly followed by the letter d:
    outside strings no token starts with d, and inside strings a line feed
    is not allowed. *)
Lemma lex_from_linefeed_d st (r : jsstring) :
  reachable st -> lex_from st (10 :: 100 :: r) = None.
Proof.
  intros Hst. destruct st; try reflexivity.
  - cbn [lex_from lex_step].
    change (is_number_unit 10) with false. cbv iota.
    destruct (number_of_literal (rev acc)); reflexivity.
  - cbn [lex_from lex_step]. destruct rest as [|x rest']; [reflexivity|].
    destruct (10 =? x) eqn:Hx; [|reflexivity].
    apply N.eqb_eq in Hx. subst x. exfalso. apply Hst. now left.
Qed.

Lemma lex_from_app_linefeed_d (p r : jsstring) st :
  reachable st -> lex_from st (p ++ 10 :: 100 :: r) = None.
Proof.
  revert st; induction p as [|c p IH]; intros st Hst.
  - now apply lex_from_linefeed_d.
  - cbn [app lex_from].
    destruct (lex_step st c) as [[st' ts]|] eqn:Hs; [|reflexivity].
    rewrite (IH st'); [reflexivity|].
    eapply lex_step_reachable; eassumption.
Qed.

(** Between tokens, a white-space code unit is skipped or refused. *)
Lemma lex_default_white_space (c : code_unit) :
  is_white_space c = true ->
  lex_default c = None \/ lex_default c = Some (LDefault, []).
Proof.
  unfold is_white_space, white_space. cbn [existsb]. intros H.
  repeat (apply orb_true_iff in H as [H|H];
          [apply N.eqb_eq in H; subst c; vm_compute; auto|]).
  discriminate.
Qed.

(** Nor does a JSON text start, after white space, with the letter d. *)
Lemma lex_white_space_d (w r : jsstring) :
  forallb is_white_space w = true ->
  lex_from LDefault (w ++ 100 :: r) = None.
Proof.
  induction w as [|c w IH]; intros Hw.
  - reflexivity.
  - cbn [forallb] in Hw. apply andb_true_iff in Hw as [Hc Hw].
    cbn [app lex_from lex_step].
    destruct (lex_default_white_space c Hc) as [-> | ->];
      [reflexivity|].
    now rewrite (IH Hw).
Qed.

(** A text one of whose lines (after trimming) starts with [data: ] is no
    JSON text: [JSON.parse] throws on it. *)
Lemma data_line_unparsable (data line : jsstring) :
  In line (split 10 (trim data)) ->
  startsWith line (js "data: ") = true ->
  parse data = None.
Proof.
  intros Hin Hline.
  assert (Hlex : lex data = None).
  { destruct (trim_split data) as [w1 [w2 [Hdata Hw1]]].
    apply startsWith_inv in Hline as [rest ->].
    pose proof (split_lines (trim data)) as Hsplit.
    destruct (split 10 (trim data)) as [|l0 ls]; [contradiction|].
    destruct Hsplit as [[r0 Hr0] Hls].
    unfold lex. rewrite Hdata.
    destruct Hin as [->|Hin].
    - rewrite Hr0. change (js "data: ") with (100 :: js "ata: ").
      cbn [app]. apply lex_white_space_d, Hw1.
    - destruct (Hls _ Hin) as [p [r Ht]]. rewrite Ht.
      assert (E : w1 ++ (p ++ 10 :: (js "data: " ++ rest) ++ r) ++ w2
                  = (w1 ++ p) ++ 10 :: 100 :: (js "ata: " ++ rest ++ r ++ w2)).
      { change (js "data: ") with (100 :: js "ata: ").
        rewrite <- !app_assoc. cbn [app]. now rewrite <- !app_assoc. }
      refine (eq_trans (f_equal (lex_from LDefault) E) _).
      now apply lex_from_app_linefeed_d. }
  unfold parse. now rewrite Hlex.
Qed.

(** The empty text is no JSON text either. *)
Lemma parse_empty : parse [] = None.
Proof. reflexivity. Qed.

(** ** [JSON.parse] never returns [undefined] *)

Lemma parse_elements_defined fuel ts acc v r :
  parse_elements fuel ts acc = Some (v, r) -> v <> VUndefined.
Proof.
  revert ts acc; induction fuel as [|f IH]; intros ts acc H;
    [discriminate|].
  cbn [parse_elements] in H.
  destruct (parse_value f ts) as [[v0 [|[] r0]]|]; try discriminate.
  - inversion H; discriminate.
  - eapply IH; eassumption.
Qed.

Lemma parse_members_defined fuel ts acc v r :
  parse_members fuel ts acc = Some (v, r) -> v <> VUndefined.
Proof.
  revert ts acc; induction fuel as [|f IH]; intros ts acc H;
    [discriminate|].
  cbn [parse_members] in H.
  destruct ts as [|[] [|[] ts']]; try discriminate.
  destruct (parse_value f ts') as [[v0 [|[] r0]]|]; try discriminate.
  - inversion H; discriminate.
  - eapply IH; eassumption.
Qed.

Lemma parse_value_defined fuel ts v r :
  parse_value fuel ts = Some (v, r) -> v <> VUndefined.
Proof.
  destruct fuel as [|f]; [discriminate|]. cbn [parse_value].
  destruct ts as [|[] ts']; try discriminate;
    try (intros H; inversion H; discriminate).
  - destruct ts' as [|[] ts'']; try discriminate;
      try (intros H; inversion H; discriminate);
      try (apply parse_members_defined).
  - destruct ts' as [|[] ts'']; try discriminate;
      try (intros H; inversion H; discriminate);
      try (apply parse_elements_defined).
Qed.

Lemma parse_defined (s : jsstring) (v : value) :
  parse s = Some v -> v <> VUndefined.
Proof.
  unfold parse. destruct (lex s) as [ts|]; [|discriminate].
  destruct (parse_value _ ts) as [[v0 [|]]|] eqn:H; try discriminate.
  intros E; inversion E; subst. eapply parse_value_defined; eassumption.
Qed.

End JSONFacts.

(* ================================================================== *)
(** * The transport: parsing the reply, interpreting it *)
(* ================================================================== *)

Module Transport.

Import Bridge JSON StringFacts JSONFacts.

Local Open Scope string_scope.
Local Open Scope list_scope.

(** ** The parsing policy, in the words of the specification *)

(** The remainder of the first line that starts with [data: ]. *)
Definition first_data_remainder (data : jsstring) : option jsstring :=
  option_map (substring_from 6)
    (find (fun line => startsWith line (js "data: "))
          (split 10%N (trim data))).

(** The whole body as JSON, or the raw text if it is none. *)
Definition parse_whole (data : jsstring) : value :=
  match JSON.parse data with
  | Some v => v
  | None => VStr data
  end.

(** Step 1 (event stream: the first data line, else fall through), step 2
    (the whole body as JSON), step 3 (the raw text). *)
Definition parsing_policy (contentType data : jsstring) : value :=
  if includes contentType (js "text/event-stream") then
    match first_data_remainder data with
    | Some remainder =>
      match JSON.parse remainder with
      | Some v => v
      | None => parse_whole data
      end
    | None => parse_whole data
    end
  else parse_whole data.

(** [res.headers['content-type'] || ''] *)
Definition content_type (hs : list (jsstring * jsstring)) : jsstring :=
  match header hs (js "content-type") with
  | VStr s => s
  | _ => []
  end.

Lemma header_string hs k :
  header hs k = VUndefined \/ exists s, header hs k = VStr s.
Proof.
  induction hs as [|[k' v] hs IH]; simpl; [now left|].
  destruct (str_eqb k' k); [right; now exists v|exact IH].
Qed.

Lemma first_data_line_find (lines : list jsstring) :
  first_data_line lines =
  match find (fun line => startsWith line (js "data: ")) lines with
  | Some line => substring_from 6 line
  | None => []
  end.
Proof.
  induction lines as [|l ls IH]; [reflexivity|].
  cbn [first_data_line find].
  destruct (startsWith l (js "data: ")); [reflexivity|exact IH].
Qed.

Lemma on_end_policy hs data :
  on_end (header hs (js "content-type")) data
  = parsing_policy (content_type hs) data.
Proof.
  assert (Hct : or_else (header hs (js "content-type")) (str "")
                = VStr (content_type hs)).
  { unfold content_type.
    destruct (header_string hs (js "content-type")) as [->|[s ->]];
      [reflexivity|].
    now destruct s. }
  unfold on_end, parsing_policy. rewrite Hct.
  fold (parse_whole data).
  destruct (includes (content_type hs) (js "text/event-stream"));
    [|reflexivity].
  unfold first_data_remainder. rewrite first_data_line_find.
  destruct (find _ (split 10%N (trim data))) as [line|] eqn:Hfind;
    [|reflexivity].
  cbn [option_map].
  apply find_some in Hfind as [Hin Hline].
  pose proof (data_line_unparsable data line Hin Hline) as Hraw.
  destruct (substring_from 6 line) as [|c r] eqn:Hrem.
  - cbn [truthy]. now rewrite parse_empty.
  - cbn [truthy]. destruct (JSON.parse (c :: r)); [reflexivity|].
    unfold parse_whole. now rewrite Hraw.
Qed.

(** C7: the body [makeHttpRequest] resolves with follows the parsing policy
    of the specification: with an event-stream content type, the remainder
    of the first line starting with [data: ] parsed as JSON, falling through
    to the whole body as JSON when there is no such line or it does not
    parse, and to the raw text when nothing parses; whenever a response
    arrives the promise resolves (nothing is thrown), and it is rejected
    only when the transport itself fails. *)
Theorem C7_response_parsing :
  (forall hs data,
      on_end (header hs (js "content-type")) data
      = parsing_policy (content_type hs) data)
  /\ (forall url o w st,
         let st' := {| trace := trace st ++ [build_request url o];
                       ticks := ticks st |} in
         makeHttpRequest url o w st =
         match transport w (List.length (trace st)) (build_request url o) with
         | Responded status hs data =>
           (Return {| res_statusCode := status;
                      res_headers := hs;
                      res_body := parsing_policy (content_type hs) data |},
            st')
         | Rejected e => (Throw e, st')
         end).
Proof.
  split; [exact on_end_policy|].
  intros url o w st st'. unfold makeHttpRequest.
  destruct (transport w _ _) as [e|status hs data]; [reflexivity|].
  now rewrite on_end_policy.
Qed.

(** The event-stream frame of the specification, and a frame with two data
    lines: only the first is read. *)
Example sse_frame :
  parsing_policy (js "text/event-stream")
    (js "event: message" ++ nl
     ++ jsq "data: {`result`:{`ok`:1}}" ++ nl ++ nl)
  = obj [("result", obj [("ok", num 1)])].
Proof. vm_compute. reflexivity. Qed.

Example sse_two_data_lines :
  parsing_policy (js "text/event-stream; charset=utf-8")
    (jsq "data: {`n`:1}" ++ nl ++ jsq "data: {`n`:2}" ++ nl)
  = obj [("n", num 1)].
Proof. vm_compute. reflexivity. Qed.

Example malformed_body_kept :
  parsing_policy (js "text/html") (js "<html>Bad Gateway</html>")
  = str "<html>Bad Gateway</html>".
Proof. vm_compute. reflexivity. Qed.

(** ** The two requests of a tool call *)

(** The JSON-RPC request to [<base>/mcp]. *)
Definition primary_request (w : world) (now : Z) (toolName : jsstring)
           (toolArgs : value) : request :=
  {| rq_url := MCP_SERVER_URL w ++ js "/mcp";
     rq_method := str "POST";
     rq_headers :=
       [(js "Content-Type", str "application/json");
        (js "Accept", str "application/json, text/event-stream");
        (js "User-Agent", str "FiscAI-Lambda-Bridge")];
     rq_body := Some (JSON.stringify_text (mcpRequest now toolName toolArgs))
  |}.

(** The bare arguments to [<base>/tools/<toolName>/call]. *)
Definition alternate_request (w : world) (toolName : jsstring)
           (toolArgs : object) : request :=
  {| rq_url := MCP_SERVER_URL w ++ js "/tools/" ++ toolName ++ js "/call";
     rq_method := str "POST";
     rq_headers :=
       [(js "Content-Type", str "application/json");
        (js "Accept", str "application/json");
        (js "User-Agent", str "FiscAI-Lambda-Bridge")];
     rq_body := Some (JSON.stringify_text (VObj toolArgs)) |}.

Lemma build_primary w now toolName toolArgs :
  build_request (MCP_SERVER_URL w ++ js "/mcp")
    {| opt_method := str "POST";
       opt_body := mcpRequest now toolName toolArgs;
       opt_headers :=
         [(js "Accept", str "application/json, text/event-stream");
          (js "Content-Type", str "application/json")] |}
  = primary_request w now toolName toolArgs.
Proof. reflexivity. Qed.

Lemma build_alternate w toolName toolArgs :
  build_request (MCP_SERVER_URL w ++ js "/tools/" ++ toolName ++ js "/call")
    {| opt_method := str "POST";
       opt_body := VObj toolArgs;
       opt_headers := [(js "Accept", str "application/json");
                       (js "Content-Type", str "application/json")] |}
  = alternate_request w toolName toolArgs.
Proof. reflexivity. Qed.

(** ** Interpreting the reply *)

(** The body is a JSON-RPC error object with code -32600: an object whose
    [error] member is an object whose [code] member is the number
    -32600. *)
Definition invalid_request_error (b : value) : bool :=
  match b with
  | VObj o =>
    match obj_get o (js "error") with
    | VObj e => strict_eq (obj_get e (js "code")) (num (-32600))
    | _ => false
    end
  | _ => false
  end.

Lemma is_invalid_request_run b w st :
  is_invalid_request b w st =
  (match get b "error" with
   | inl e => Throw e
   | inr _ => Return (invalid_request_error b)
   end, st).
Proof.
  unfold is_invalid_request, bind, lift.
  destruct b as [| |x|n|s|l|o]; try reflexivity.
  cbn [get invalid_request_error ret].
  destruct (obj_get o (js "error")) as [| |[]|[]|[]|l|e]; reflexivity.
Qed.

End Transport.

(* ================================================================== *)
(** * callMcpTool, step by step *)
(* ================================================================== *)

Module ToolCall.

Import Bridge JSON StringFacts JSONFacts Transport.

Local Open Scope string_scope.
Local Open Scope list_scope.

(** What the [catch] of [callMcpTool] rethrows. *)
Definition wrap (e : error) : error :=
  Error (js "Error conectando con MCP: " ++ message e).

Section Run.

Variables (toolName : jsstring) (toolArgs : object) (w : world) (st : state).

Let rq1 := primary_request w (clock w (ticks st)) toolName (VObj toolArgs).
Let rq2 := alternate_request w toolName toolArgs.

(** The state after the first request, and after the second. *)
Definition after_primary : state :=
  {| trace := trace st ++ [rq1]; ticks := S (ticks st) |}.
Definition after_alternate : state :=
  {| trace := trace st ++ [rq1; rq2]; ticks := S (ticks st) |}.

(** The second request and what becomes of its reply. *)
Definition alternative : outcome value * state :=
  match transport w (S (List.length (trace st))) rq2 with
  | Rejected e => (Throw (wrap e), after_alternate)
  | Responded status hs data =>
    let b := parsing_policy (content_type hs) data in
    if (status =? 200)%Z then (Return b, after_alternate)
    else (Throw (wrap (Error (js "Error en método alternativo: "
                              ++ stringify_text b))), after_alternate)
  end.

(** What becomes of the reply to the first request. *)
Definition interpret (status : Z) (b : value) : outcome value * state :=
  if (status =? 200)%Z then
    match get b "result" with
    | inl e => (Throw (wrap e), after_primary)
    | inr r => (Return (if truthy r then r else b), after_primary)
    end
  else
    match get b "error" with
    | inl e => (Throw (wrap e), after_primary)
    | inr _ =>
      if invalid_request_error b then alternative
      else (Throw (wrap (Error (js "Error MCP: " ++ stringify_text b))),
            after_primary)
    end.

Lemma callMcpTool_run :
  callMcpTool toolName (VObj toolArgs) w st =
  match transport w (List.length (trace st)) rq1 with
  | Rejected e => (Throw (wrap e), after_primary)
  | Responded status hs data =>
    interpret status (parsing_policy (content_type hs) data)
  end.
Proof.
  unfold callMcpTool, try_catch, bind, Date_now, ask, makeHttpRequest.
  cbn [trace ticks]. rewrite build_primary. fold rq1.
  destruct (transport w (List.length (trace st)) rq1)
    as [e|status hs data]; [reflexivity|].
  rewrite on_end_policy. cbn [res_statusCode res_body].
  unfold interpret.
  destruct (status =? 200)%Z.
  - unfold lift.
    destruct (get (parsing_policy (content_type hs) data) "result")
      as [e|r]; [reflexivity|].
    unfold ret. now destruct (truthy r).
  - rewrite is_invalid_request_run.
    destruct (get (parsing_policy (content_type hs) data) "error")
      as [e|x]; [reflexivity|].
    destruct (invalid_request_error _); [|reflexivity].
    unfold callMcpAlternative, bind, ask, makeHttpRequest.
    cbn [trace ticks]. rewrite build_alternate. fold rq2.
    unfold alternative, after_alternate.
    rewrite length_app. cbn [List.length].
    replace (List.length (trace st) + 1)%nat
      with (S (List.length (trace st))) by lia.
    rewrite <- app_assoc. cbn [app].
    destruct (transport w (S (List.length (trace st))) rq2)
      as [e|status2 hs2 data2]; [reflexivity|].
    rewrite on_end_policy. cbn [res_statusCode res_body].
    now destruct (status2 =? 200)%Z.
Qed.

(** Every tool call starts with the JSON-RPC request, and makes one request
    or two. *)
Lemma callMcpTool_trace :
  exists rest,
    trace (snd (callMcpTool toolName (VObj toolArgs) w st))
    = trace st ++ rq1 :: rest
    /\ (rest = [] \/ rest = [rq2]).
Proof.
  rewrite callMcpTool_run.
  destruct (transport w (List.length (trace st)) rq1)
    as [e|status hs data]; [exists []; auto|].
  unfold interpret.
  destruct (status =? 200)%Z.
  - destruct (get _ "result"); exists []; auto.
  - destruct (get _ "error"); [exists []; auto|].
    destruct (invalid_request_error _); [|exists []; auto].
    exists [rq2]. split; [|auto].
    unfold alternative.
    destruct (transport w (S (List.length (trace st))) rq2)
      as [e|status2 hs2 data2]; [reflexivity|].
    now destruct (status2 =? 200)%Z.
Qed.

End Run.

End ToolCall.

(* ================================================================== *)
(** * Concrete worlds *)
(* ================================================================== *)

Module Scenario.

Import Bridge.

Local Open Scope Z_scope.

(** A world whose backend is [net], with a clock that starts on
    2025-11-02T00:00:00.000Z and advances one millisecond per reading. *)
Definition world_of (net : nat -> request -> transport_result) : world :=
  {| env_MCP_SERVER_URL := Some (js "https://mcp.example");
     env_NODE_ENV := None;
     transport := net;
     clock := fun n => 1762041600000 + Z.of_nat n;
     stack_of := fun e => name e ++ js ": " ++ message e;
     syntax_message := fun _ => js "Unexpected end of JSON input" |}.

(** A backend that gives the same reply to every request. *)
Definition always (r : transport_result) : nat -> request -> transport_result :=
  fun _ _ => r.

(** A backend whose replies are listed in order; past the list the
    connection is refused. *)
Definition in_turn (rs : list transport_result)
  : nat -> request -> transport_result :=
  fun n _ => nth n rs (Rejected (Error (js "connect ECONNREFUSED"))).

(** A backend that cannot be reached. *)
Definition down : nat -> request -> transport_result :=
  always (Rejected (Error (js "connect ECONNREFUSED"))).

(** The status of the result of a run ([None] when it throws), and the
    number of requests it has made. *)
Definition status_of (x : outcome result * state) : option Z :=
  match fst x with
  | Return r => Some (statusCode r)
  | Throw _ => None
  end.


End Scenario.

(* ================================================================== *)
(** * Response interpretation *)
(* ================================================================== *)

Module Interpretation.

Import Bridge JSON StringFacts JSONFacts Transport ToolCall Scenario.

Local Open Scope string_scope.
Local Open Scope list_scope.

Lemma parsing_policy_defined ct data : parsing_policy ct data <> VUndefined.
Proof.
  assert (Hwhole : parse_whole data <> VUndefined).
  { unfold parse_whole. destruct (JSON.parse data) eqn:H; [|discriminate].
    eapply parse_defined; eassumption. }
  unfold parsing_policy.
  destruct (includes ct _); [|exact Hwhole].
  destruct (first_data_remainder data) as [r|]; [|exact Hwhole].
  destruct (JSON.parse r) eqn:H; [|exact Hwhole].
  eapply parse_defined; eassumption.
Qed.

(** With HTTP 200 a truthy [result] member is unwrapped; with none (or a
    falsy one) the body itself is returned. *)
Lemma callMcpTool_200 toolName toolArgs w st hs data :
  transport w (List.length (trace st))
    (primary_request w (clock w (ticks st)) toolName (VObj toolArgs))
  = Responded 200 hs data ->
  let b := parsing_policy (content_type hs) data in
  callMcpTool toolName (VObj toolArgs) w st =
  match get b "result" with
  | inl e => (Throw (wrap e), after_primary toolName toolArgs w st)
  | inr r => (Return (if truthy r then r else b),
              after_primary toolName toolArgs w st)
  end.
Proof. intros H b. rewrite callMcpTool_run, H. reflexivity. Qed.

(** C5, at the failing inputs: a backend that answers HTTP 200 with the body
    [{"result":0}] has a [result] field, yet the tool call returns the whole
    body, not the field; and with the body [null] (no [result] field) the
    tool call does not return the body but fails on reading [result]. *)
Theorem C5_falsy_result_not_unwrapped :
  fst (callMcpTool (js "generate_embedding") (obj [("text", str "hola")])
         (world_of (always (Responded 200 [] (jsq "{`result`:0}"))))
         initial)
  = Return (obj [("result", num 0)])
  /\ fst (callMcpTool (js "generate_embedding") (obj [("text", str "hola")])
            (world_of (always (Responded 200 [] (js "null"))))
            initial)
     = Throw (Error (js "Error conectando con MCP: Cannot read properties of null (reading 'result')")).
Proof. split; vm_compute; reflexivity. Qed.

(** The case the comment in [callMcpTool] has in mind. *)
Example truthy_result_unwrapped :
  fst (callMcpTool (js "get_fiscal_advice") (obj [("request", obj [])])
         (world_of (always (Responded 200 []
                              (jsq "{`result`:{`advice`:`x`}}"))))
         initial)
  = Return (obj [("advice", str "x")]).
Proof. vm_compute. reflexivity. Qed.

(** C6: when the reply to the JSON-RPC request is not HTTP 200 and its body
    is a JSON-RPC error object with code -32600, exactly one more request is
    made, a POST of the bare tool arguments to
    [<base>/tools/<toolName>/call]; its body is returned when it has HTTP
    200, and the call fails otherwise.  Any other non-200 reply fails at
    once, with no further request, and the error message carries the
    serialized body (after the two prefixes the code puts before it; for the
    body [null] the message is that of the failed property read, which
    names [null] too). *)
Theorem C6_invalid_request_retry :
  forall toolName (toolArgs : object) w st status hs data,
    let rq1 := primary_request w (clock w (ticks st)) toolName
                               (VObj toolArgs) in
    let rq2 := alternate_request w toolName toolArgs in
    let b := parsing_policy (content_type hs) data in
    let st1 := {| trace := trace st ++ [rq1]; ticks := S (ticks st) |} in
    let st2 := {| trace := trace st ++ [rq1; rq2];
                  ticks := S (ticks st) |} in
    transport w (List.length (trace st)) rq1 = Responded status hs data ->
    status <> 200%Z ->
    (invalid_request_error b = true ->
     callMcpTool toolName (VObj toolArgs) w st =
     match transport w (S (List.length (trace st))) rq2 with
     | Responded status2 hs2 data2 =>
       let b2 := parsing_policy (content_type hs2) data2 in
       if (status2 =? 200)%Z then (Return b2, st2)
       else (Throw (Error (js "Error conectando con MCP: "
                           ++ js "Error en método alternativo: "
                           ++ stringify_text b2)), st2)
     | Rejected e =>
       (Throw (Error (js "Error conectando con MCP: " ++ message e)), st2)
     end)
    /\ (invalid_request_error b = false ->
        exists e,
          callMcpTool toolName (VObj toolArgs) w st = (Throw e, st1)
          /\ includes (message e) (stringify_text b) = true
          /\ (b <> VNull ->
              e = Error (js "Error conectando con MCP: " ++ js "Error MCP: "
                         ++ stringify_text b))).
Proof.
  intros toolName toolArgs w st status hs data rq1 rq2 b st1 st2 Hnet Hst.
  rewrite callMcpTool_run. fold rq1. rewrite Hnet. fold b.
  assert (Hdef : b <> VUndefined) by apply parsing_policy_defined.
  clearbody b. unfold interpret. apply Z.eqb_neq in Hst. rewrite Hst.
  split; intros Hb.
  - destruct b as [| |x|n|s|l|o]; try discriminate Hb.
    cbn [get]. rewrite Hb. unfold alternative. fold rq2.
    destruct (transport w (S (List.length (trace st))) rq2)
      as [e|status2 hs2 data2]; [reflexivity|].
    now destruct (status2 =? 200)%Z.
  - rewrite Hb.
    destruct (get b "error") as [e|x] eqn:Hget.
    + exists (wrap e). split; [reflexivity|].
      destruct b; try discriminate Hget.
      * now contradiction Hdef.
      * inversion Hget; subst e. split; [vm_compute; reflexivity|].
        intros H. exfalso. now apply H.
    + exists (wrap (Error (js "Error MCP: " ++ stringify_text b))).
      split; [reflexivity|]. split; [|reflexivity].
      cbn [wrap message Error].
      generalize (stringify_text b) (js "Error conectando con MCP: ")
                 (js "Error MCP: ").
      intros s p1 p2.
      replace (p1 ++ p2 ++ s) with ((p1 ++ p2) ++ s ++ [])
        by now rewrite app_nil_r, app_assoc.
      apply includes_app.
Qed.

(** A backend that refuses the JSON-RPC request with code -32600 and then
    answers the alternate request. *)
Lemma C6_witness :
  let w := world_of (in_turn
             [Responded 400 []
                (jsq "{`jsonrpc`:`2.0`,`error`:{`code`:-32600,`message`:`Invalid Request`},`id`:null}");
              Responded 200 [] (jsq "{`embedding`:[0.5,0.25]}")]) in
  let toolArgs := [(js "text", str "hola")] in
  callMcpTool (js "generate_embedding") (VObj toolArgs) w initial
  = (Return (obj [("embedding",
                   VArr [VNum (num_of_decimal false 5 (-1));
                         VNum (num_of_decimal false 25 (-2))])]),
     {| trace := [primary_request w 1762041600000
                    (js "generate_embedding") (VObj toolArgs);
                  alternate_request w (js "generate_embedding") toolArgs];
        ticks := 1 |}).
Proof.
  intros w toolArgs.
  refine (eq_trans
    (proj1 (C6_invalid_request_retry (js "generate_embedding") toolArgs w
              initial (status := 400) (hs := [])
              (data := jsq "{`jsonrpc`:`2.0`,`error`:{`code`:-32600,`message`:`Invalid Request`},`id`:null}")
              eq_refl _) _) _).
  - discriminate.
  - vm_compute. reflexivity.
  - vm_compute. reflexivity.
Defined.

(** Any other refusal is final: one request, and the body in the message. *)
Example other_error_fails_directly :
  let w := world_of (always (Responded 500 []
             (jsq "{`error`:{`code`:-32601,`message`:`Method not found`}}"))) in
  callMcpTool (js "generate_embedding") (obj [("text", str "hola")]) w initial
  = (Throw (Error (js "Error conectando con MCP: Error MCP: "
                   ++ jsq "{`error`:{`code`:-32601,`message`:`Method not found`}}")),
     {| trace := [primary_request w 1762041600000
                    (js "generate_embedding") (obj [("text", str "hola")])];
        ticks := 1 |}).
Proof. vm_compute. reflexivity. Qed.

End Interpretation.

(* ================================================================== *)
(** * The twelve operations, seen as one *)
(* ================================================================== *)

Module Adapter.

Import Bridge JSON StringFacts Transport ToolCall.

Local Open Scope string_scope.
Local Open Scope list_scope.

(** ** What differs from one operation to the next *)

(** The backend tool an operation calls. *)
Definition tool_name (op : operation) : jsstring :=
  match op with
  | FiscalAdvice => js "get_fiscal_advice"
  | GenerateEmbedding => js "generate_embedding"
  | StoreDocument => js "store_document"
  | SearchSimilarDocuments => js "search_similar_documents"
  | StoreDocumentChunk => js "store_document_chunk"
  | SearchSimilarChunks => js "search_similar_chunks"
  | ChatWithClassroom => js "chat_with_classroom_assistant"
  | GetClassroomInfo => js "get_classroom_info"
  | CreateEmbedding => js "create_embedding"
  | ProfessorAssistant => js "professor_assistant"
  | GenerateResources => js "generate_resources"
  | AnalyzeUserContext => js "analyze_and_update_user_context"
  end.

(** The required parameters, as the 400 bodies list them. *)
Definition required (op : operation) : list string :=
  match op with
  | FiscalAdvice => ["actividad"]
  | GenerateEmbedding => ["text"]
  | StoreDocument => ["text"]
  | SearchSimilarDocuments => ["query_text"]
  | StoreDocumentChunk => ["classroom_document_id"; "chunk_index"; "content"]
  | SearchSimilarChunks => ["query_text"; "classroom_id"]
  | ChatWithClassroom => ["message"; "classroom_id"]
  | GetClassroomInfo => ["classroom_id"]
  | CreateEmbedding => ["text"; "classroom_id"]
  | ProfessorAssistant => ["question"; "classroom_id"]
  | GenerateResources => ["classroom_id"; "resource_type"; "user_id"]
  | AnalyzeUserContext => ["user_id"; "session_id"]
  end.

(** Those of them that are strings ([chunk_index] is a number). *)
Definition required_strings (op : operation) : list string :=
  match op with
  | StoreDocumentChunk => ["classroom_document_id"; "content"]
  | _ => required op
  end.

(** The hint of the 500 body. *)
Definition failure_hint (op : operation) : option string :=
  match op with
  | FiscalAdvice => None
  | GenerateEmbedding =>
    Some "Verifica que el servidor MCP esté funcionando y que la API de Gemini esté configurada correctamente"
  | StoreDocument =>
    Some "Verifica que el servidor MCP esté funcionando y que Supabase esté configurado correctamente"
  | SearchSimilarDocuments =>
    Some "Verifica que el servidor MCP esté funcionando y que las funciones de Supabase estén configuradas"
  | StoreDocumentChunk =>
    Some "Verifica que el documento exista y que Supabase esté configurado correctamente"
  | SearchSimilarChunks =>
    Some "Verifica que el classroom exista y que la función RPC match_classroom_chunks esté creada"
  | ChatWithClassroom =>
    Some "Verifica que el classroom exista y tenga documentos cargados"
  | GetClassroomInfo => Some "Verifica que el classroom exista"
  | CreateEmbedding => Some "Verifica la configuración de Gemini y Supabase"
  | ProfessorAssistant =>
    Some "Verifica que el classroom tenga documentos cargados"
  | GenerateResources =>
    Some "Verifica que el classroom tenga documentos cargados y que las dependencias de generación estén instaladas"
  | AnalyzeUserContext => Some "Verifica que el usuario y la sesión existan"
  end.

(** The operations that put their arguments under a [request] key. *)
Definition nests (op : operation) : bool :=
  match op with
  | FiscalAdvice | ChatWithClassroom => true
  | _ => false
  end.

(** ** Validation, as a verdict *)

(** A value that fails [!v || !v.trim()]: falsy, or a string that is empty
    once trimmed. *)
Definition blank_value (v : value) : bool :=
  negb (truthy v)
  || match v with
     | VStr s => negb (truthy (VStr (trim s)))
     | _ => false
     end.

(** A value on which [v.trim()] throws: truthy and not a string. *)
Definition ill_typed (v : value) : bool := truthy v && negb (is_string v).

Inductive failure :=
| Missing (f : string)
| BadLimit
| BadThreshold
| BadResourceType.

(** Validation ends in a 400, in the TypeError of [x.trim] on the variable
    [x], in the TypeError of a [limit] or a [threshold] that [parseInt] or
    [parseFloat] cannot convert to a string, or well. *)
Inductive verdict :=
| Invalid (c : failure)
| Crash (x : string)
| Unreadable
| Valid.

Definition require (v : value) (f : string) (next : verdict) : verdict :=
  if blank_value v then Invalid (Missing f)
  else if ill_typed v then Crash f
  else next.

(** The two range tests of search-similar-documents. *)
Definition limit_out_of_range (parsedLimit : number) : bool :=
  isNaN parsedLimit || num_lt parsedLimit (num_of_Z 1)
  || num_gt parsedLimit (num_of_Z 50).

Definition threshold_out_of_range (parsedThreshold : number) : bool :=
  isNaN parsedThreshold || num_lt parsedThreshold (num_of_Z 0)
  || num_gt parsedThreshold (num_of_Z 1).

(** A [limit] (5 when there is none) that is read and found out of range;
    a [threshold] that is given, read and found out of range. *)
Definition bad_limit (params : object) : bool :=
  match parseInt (field_default params "limit" (num 5)) with
  | inr parsedLimit => limit_out_of_range parsedLimit
  | inl _ => false
  end.

Definition bad_threshold (params : object) : bool :=
  let threshold := field params "threshold" in
  negb (strict_eq threshold VUndefined)
  && match parseFloat threshold with
     | inr parsedThreshold => threshold_out_of_range parsedThreshold
     | inl _ => false
     end.

(** A value that converts to a string. *)
Definition convertible (v : value) : bool :=
  match ToString v with
  | inr _ => true
  | inl _ => false
  end.

Definition validate (op : operation) (params : object) : verdict :=
  let p := field params in
  match op with
  | FiscalAdvice =>
    if negb (truthy (p "actividad")) then Invalid (Missing "actividad")
    else Valid
  | GenerateEmbedding | StoreDocument => require (p "text") "text" Valid
  | SearchSimilarDocuments =>
    require (p "query_text") "query_text"
      (match parseInt (field_default params "limit" (num 5)) with
       | inl _ => Unreadable
       | inr parsedLimit =>
         if limit_out_of_range parsedLimit then Invalid BadLimit
         else if strict_eq (p "threshold") VUndefined then Valid
         else match parseFloat (p "threshold") with
              | inl _ => Unreadable
              | inr parsedThreshold =>
                if threshold_out_of_range parsedThreshold
                then Invalid BadThreshold
                else Valid
              end
       end)
  | StoreDocumentChunk =>
    require (p "classroom_document_id") "classroom_document_id"
      (if is_nullish (p "chunk_index") then Invalid (Missing "chunk_index")
       else require (p "content") "content" Valid)
  | SearchSimilarChunks =>
    require (p "query_text") "query_text"
      (require (p "classroom_id") "classroom_id" Valid)
  | ChatWithClassroom =>
    require (p "message") "message"
      (require (p "classroom_id") "classroom_id" Valid)
  | GetClassroomInfo => require (p "classroom_id") "classroom_id" Valid
  | CreateEmbedding =>
    require (p "text") "text"
      (require (p "classroom_id") "classroom_id" Valid)
  | ProfessorAssistant =>
    require (p "question") "question"
      (require (p "classroom_id") "classroom_id" Valid)
  | GenerateResources =>
    require (p "classroom_id") "classroom_id"
      (require (p "resource_type") "resource_type"
         (if negb (is_pdf_or_ppt (lower (p "resource_type")))
          then Invalid BadResourceType
          else require (p "user_id") "user_id" Valid))
  | AnalyzeUserContext =>
    require (p "user_id") "user_id"
      (require (p "session_id") "session_id" Valid)
  end.

(** ** Between validation and the tool call *)

Definition and_then {A B} (r : error + A) (k : A -> error + B) : error + B :=
  match r with
  | inl e => inl e
  | inr a => k a
  end.

(** The log lines of a [try] block, each given by the values it
    interpolates, then what follows them. *)
Fixpoint logging {A} (lines : list (list value)) (k : error + A)
  : error + A :=
  match lines with
  | [] => k
  | line :: lines' =>
    match interpolate line with
    | inl e => inl e
    | inr _ => logging lines' k
    end
  end.

Definition props (l : list (string * value)) : object :=
  map (fun kv => (js (fst kv), snd kv)) l.

(** What the [try] block of a handler does before it calls its tool: it
    logs the parameters, then builds the arguments of the call
    (search-similar-documents with the limit as its validation has parsed
    it).  The result is the argument object, or the TypeError of a
    parameter that does not convert to a string. *)
Definition prepare (op : operation) (params : object) : error + object :=
  let p := field params in
  match op with
  | FiscalAdvice =>
    inr (props [("request", obj
           [("actividad", p "actividad");
            ("ingresos_anuales", p "ingresos_anuales");
            ("estado", p "estado");
            ("regimen_actual", p "regimen_actual");
            ("tiene_rfc", p "tiene_rfc");
            ("contexto_adicional", p "contexto_adicional")])])
  | GenerateEmbedding =>
    logging [[length_of (p "text")]; [preview 50 (p "text")]]
      (inr (props [("text", p "text")]))
  | StoreDocument =>
    logging [[length_of (p "text")];
             [or_else (p "classroom_id") (str "None (global)")];
             [preview 50 (p "text")]]
      (inr (props [("text", p "text");
                   ("classroom_id", or_else (p "classroom_id") VNull)]))
  | SearchSimilarDocuments =>
    and_then (parseInt (field_default params "limit" (num 5)))
      (fun parsedLimit =>
         logging [[preview 50 (p "query_text")];
                  [or_else (p "classroom_id") (str "None (búsqueda global)")];
                  [VNum parsedLimit];
                  [or_else (p "threshold") (str "default")]]
           (let mcpParams := props [("query_text", p "query_text");
                                    ("limit", VNum parsedLimit)] in
            let mcpParams :=
              if truthy (p "classroom_id")
              then obj_set mcpParams (js "classroom_id") (p "classroom_id")
              else mcpParams in
            if negb (strict_eq (p "threshold") VUndefined) then
              and_then (parseFloat (p "threshold"))
                (fun parsedThreshold =>
                   inr (obj_set mcpParams (js "threshold")
                                (VNum parsedThreshold)))
            else inr mcpParams))
  | StoreDocumentChunk =>
    logging [[p "classroom_document_id"];
             [p "chunk_index"];
             [length_of (p "content")];
             [or_else (p "token_count") (str "auto")]]
      (and_then (parseInt (p "chunk_index"))
         (fun index =>
            and_then (if truthy (p "token_count")
                      then and_then (parseInt (p "token_count"))
                             (fun count => inr (VNum count))
                      else inr VUndefined)
              (fun tokens =>
                 inr (props
                   [("classroom_document_id", p "classroom_document_id");
                    ("chunk_index", VNum index);
                    ("content", p "content");
                    ("token_count", tokens)]))))
  | SearchSimilarChunks =>
    logging [[p "classroom_id"];
             [preview 50 (p "query_text")];
             [field_default params "limit" (num 5)];
             [or_else (p "threshold") (str "default")]]
      (and_then (parseInt (field_default params "limit" (num 5)))
         (fun parsedLimit =>
            and_then (if truthy (p "threshold")
                      then and_then (parseFloat (p "threshold"))
                             (fun t => inr (VNum t))
                      else inr VUndefined)
              (fun parsedThreshold =>
                 inr (props [("query_text", p "query_text");
                             ("classroom_id", p "classroom_id");
                             ("limit", VNum parsedLimit);
                             ("threshold", parsedThreshold)]))))
  | ChatWithClassroom =>
    logging [[preview 50 (p "message")];
             [p "classroom_id"];
             [or_else (p "user_id") (str "Anonymous")];
             [or_else (p "session_id") (str "N/A")]]
      (inr (props [("request", obj
              [("message", p "message");
               ("classroom_id", p "classroom_id");
               ("user_id", or_else (p "user_id") VNull);
               ("session_id", or_else (p "session_id") VNull)])]))
  | GetClassroomInfo =>
    logging [[p "classroom_id"]]
      (inr (props [("classroom_id", p "classroom_id")]))
  | CreateEmbedding =>
    logging [[length_of (p "text")]; [p "classroom_id"]]
      (inr (props [("text", p "text");
                   ("classroom_id", p "classroom_id")]))
  | ProfessorAssistant =>
    logging [[preview 60 (p "question")]; [p "classroom_id"]]
      (inr (props [("question", p "question");
                   ("classroom_id", p "classroom_id")]))
  | GenerateResources =>
    logging [[upper (p "resource_type")];
             [p "classroom_id"];
             [p "user_id"];
             [or_else (p "topic") (str "General")]]
      (and_then (if truthy (p "source_document_ids")
                 then get (p "source_document_ids") "length"
                 else inr (str "all"))
         (fun documents =>
            logging [[documents]]
              (let mcpParams :=
                 props [("classroom_id", p "classroom_id");
                        ("resource_type", lower (p "resource_type"));
                        ("user_id", p "user_id")] in
               let mcpParams :=
                 if truthy (p "topic")
                 then obj_set mcpParams (js "topic") (p "topic")
                 else mcpParams in
               inr (if truthy (p "source_document_ids")
                       && isArray (p "source_document_ids")
                    then obj_set mcpParams (js "source_document_ids")
                                 (p "source_document_ids")
                    else mcpParams))))
  | AnalyzeUserContext =>
    logging [[p "user_id"]; [p "session_id"]]
      (inr (props [("user_id", p "user_id");
                   ("session_id", p "session_id")]))
  end.

(** ** What the handlers do with a verdict *)

(** The body of a 400, by the check that failed. *)
Definition rejection (op : operation) (params : object) (c : failure)
           (b : object) : Prop :=
  obj_get b (js "timestamp") = VUndefined
  /\ match c with
     | Missing f =>
       In f (required op)
       /\ blank_value (field params f) = true
       /\ (exists msg, obj_get b (js "error") = VStr msg
                       /\ includes msg (quoted f) = true)
       /\ obj_get b (js "required") = strs (required op)
       /\ (op <> FiscalAdvice -> exists h, obj_get b (js "hint") = VStr h)
     | BadLimit =>
       obj_get b (js "received") = field_default params "limit" (num 5)
       /\ exists h, obj_get b (js "hint") = VStr h
     | BadThreshold =>
       obj_get b (js "received") = field params "threshold"
       /\ exists h, obj_get b (js "hint") = VStr h
     | BadResourceType =>
       obj_get b (js "received") = field params "resource_type"
       /\ obj_get b (js "allowed") = strs ["pdf"; "ppt"]
       /\ exists h, obj_get b (js "hint") = VStr h
     end.

(** The argument object of a tool call: under [request] or flat. *)
Definition arguments_shape (op : operation) (args : object) : Prop :=
  if nests op then exists inner, args = [(js "request", VObj inner)]
  else obj_get args (js "request") = VUndefined.

(** The 500 body. *)
Definition failure_body (op : operation) (e : error) (timestamp : value)
  : value :=
  obj ([("error", VStr (message e));
        ("timestamp", timestamp)]
       ++ match failure_hint op with
          | Some h => [("hint", str h)]
          | None => []
          end).

(** After the tool call [x], the handler's [y]: one more reading of the
    clock, and a 200 around the payload or a 500 around the error. *)
Definition concluded (op : operation) (w : world)
           (x : outcome value * state) (y : outcome result * state) : Prop :=
  let st1 := snd x in
  let timestamp := VStr (toISOString (clock w (ticks st1))) in
  snd y = {| trace := trace st1; ticks := S (ticks st1) |}
  /\ match fst x with
     | Return v =>
       exists b,
         fst y = Return (ok (VObj b))
         /\ obj_get b (js "success") = VBool true
         /\ obj_get b (js "data") = v
         /\ obj_get b (js "source") = str "mcp_server"
         /\ obj_get b (js "timestamp") = timestamp
     | Throw e => fst y = Return (failed (failure_body op e timestamp))
     end.

(** A parameter that passed [!v || !v.trim()] is a string. *)
Lemma checked_string (v : value) :
  blank_value v = false -> ill_typed v = false -> exists s, v = VStr s.
Proof.
  unfold blank_value, ill_typed.
  destruct v as [| |[]|[]|s|l|o]; cbn [truthy negb orb andb is_string];
    try discriminate; intros _ _; now eexists.
Qed.

(** The three ways [blank] can go, and what [require] makes of each. *)
Lemma blank_cases (v : value) (x : string) :
  (blank v x = ret true /\ blank_value v = true)
  \/ (blank v x = ret false /\ blank_value v = false /\ ill_typed v = false)
  \/ (blank v x = throw (TypeError (js x ++ js ".trim is not a function"))
      /\ blank_value v = false /\ ill_typed v = true).
Proof.
  unfold blank, blank_value, ill_typed.
  destruct v as [| |[]|[]|[|c s]|l|o]; cbn [truthy negb orb andb is_string];
    auto.
  destruct (trim (c :: s)); cbn [truthy negb]; auto.
Qed.

End Adapter.

(* ================================================================== *)
(** * Every handler validates, calls its tool, and concludes *)
(* ================================================================== *)

Module Shape.

Import Bridge JSON StringFacts Transport ToolCall Adapter.

Local Open Scope string_scope.
Local Open Scope list_scope.

Lemma bind_ret {A B} (a : A) (k : A -> M B) w st :
  bind (ret a) k w st = k a w st.
Proof. reflexivity. Qed.

Lemma bind_throw {A B} (e : error) (k : A -> M B) w st :
  bind (throw e) k w st = (Throw e, st).
Proof. reflexivity. Qed.

(** What [validate] says of an operation is what its handler does. *)
Definition shape (op : operation) (params : object) (w : world) (st : state)
  : Prop :=
  match validate op params with
  | Invalid c =>
    exists b, exports op params w st = (Return (bad_request (VObj b)), st)
              /\ rejection op params c b
  | Crash x =>
    exports op params w st
    = (Throw (TypeError (js x ++ js ".trim is not a function")), st)
    /\ In x (required_strings op)
    /\ ill_typed (field params x) = true
  | Unreadable => exports op params w st = (Throw conversion_error, st)
  | Valid =>
    match prepare op params with
    | inl e =>
      exports op params w st
      = (Return (failed (failure_body op e
                           (VStr (toISOString (clock w (ticks st)))))),
         {| trace := trace st; ticks := S (ticks st) |})
    | inr args =>
      arguments_shape op args
      /\ concluded op w (callMcpTool (tool_name op) (VObj args) w st)
                   (exports op params w st)
    end
  end.

(** Whatever fails to convert throws the same error. *)
Lemma ToString_error v e : ToString v = inl e -> e = conversion_error.
Proof.
  revert e. induction v as [| |b|n|s|l IH|o IH'] using value_ind; intros e;
    cbn [ToString]; try discriminate.
  - destruct b; discriminate.
  - match goal with
    | |- match ?F l with _ => _ end = _ -> _ =>
      assert (H : forall e0, F l = inl e0 -> e0 = conversion_error);
        [|destruct (F l) as [e1|ss];
          [intros H0; injection H0 as <-; now apply H|discriminate]]
    end.
    induction IH as [|x l' Hx Hl IHl]; intros e0; [discriminate|].
    match goal with
    | |- match ?X with _ => _ end = _ -> _ =>
      assert (Hx' : forall e1, X = inl e1 -> e1 = conversion_error)
        by (destruct x; try discriminate; exact Hx);
        destruct X as [e1|s1];
        [intros H0; injection H0 as <-; now apply Hx'|]
    end.
    match goal with
    | |- match ?Y with _ => _ end = _ -> _ =>
      destruct Y as [e2|ss] eqn:E;
        [intros H0; injection H0 as <-; now apply IHl|discriminate]
    end.
  - destruct (obj_has o (js "toString")); [|discriminate].
    intros H. now injection H as <-.
Qed.

(** One [blank] test of a handler, against the matching [require] of
    [validate]; a parameter that passes is a string from then on. *)
Ltac step_blank :=
  match goal with
  | |- context [blank ?v ?x] =>
    let Hb := fresh "Hb" in
    let Hv := fresh "Hv" in
    let Hi := fresh "Hi" in
    let s := fresh "s" in
    let Hs := fresh "Hs" in
    destruct (blank_cases v x) as [[Hb Hv]|[[Hb [Hv Hi]]|[Hb [Hv Hi]]]];
    unfold require at 1; rewrite Hv, ?Hi; rewrite Hb;
    [rewrite bind_ret
    |rewrite bind_ret; destruct (checked_string v Hv Hi) as [s Hs];
     rewrite !Hs
    |rewrite bind_throw];
    cbv iota beta
  end.

(** A 400: the body is the one returned, and it is as [rejection] says. *)
Ltac solve_rejection :=
  eexists; split; [reflexivity|];
  unfold rejection; split; [vm_compute; reflexivity|];
  repeat match goal with
         | |- _ /\ _ => split
         | |- In _ _ => cbn; tauto
         | |- blank_value _ = true => assumption
         | |- exists _, _ /\ _ =>
           eexists; split; [reflexivity|vm_compute; reflexivity]
         | |- exists _, _ = VStr _ => eexists; reflexivity
         | |- _ -> exists _, _ = VStr _ => intros _; eexists; reflexivity
         | |- _ = _ => first [reflexivity|eassumption|symmetry; eassumption]
         end.

(** A TypeError from [trim]. *)
Ltac solve_crash :=
  split; [reflexivity|]; split; [cbn; tauto|first [assumption|reflexivity]].

(** The log lines and the conversions of a [try] block, against those of
    [prepare]: every conversion succeeds or fails on both sides. *)
Ltac run_logs :=
  unfold console_log, parseInt, parseFloat;
  cbn [interpolate ToString preview length_of upper lower num logging];
  cbv beta iota delta [try_catch bind lift ret throw and_then];
  repeat match goal with
         | |- context [match ToString ?v with _ => _ end] =>
           destruct (ToString v) eqn:?; cbv beta iota
         end.

(** The tool call and what follows it. *)
Ltac solve_call :=
  match goal with
  | |- arguments_shape _ ?args
       /\ concluded _ _ (callMcpTool ?n (VObj ?args) ?w ?st) ?run =>
    split;
    [unfold arguments_shape; cbv iota beta delta [nests];
     first [eexists; reflexivity | vm_compute; reflexivity]
    |unfold concluded; cbv iota beta delta [tool_name];
     match run with
     | context [callMcpTool ?n' ?a w st] =>
       change (callMcpTool n' a w st)
         with (callMcpTool n' (VObj args) w st)
     end;
     let v := fresh "v" in
     let e := fresh "e" in
     let st1 := fresh "st1" in
     destruct (callMcpTool _ (VObj args) w st) as [[v|e] st1];
     (split; [reflexivity|]); cbv iota beta delta [fst];
     [eexists; split; [reflexivity|]; repeat split; reflexivity
     |reflexivity]]
  end.

(** After validation: the logs, then the call or the 500 of a failed
    conversion. *)
Ltac solve_try := run_logs; first [reflexivity|solve_call].

Ltac start H :=
  unfold shape;
  cbv beta iota delta [validate exports H prepare]; cbv zeta.

Lemma shape_FiscalAdvice params w st : shape FiscalAdvice params w st.
Proof.
  start handleMcpFiscalAdvice.
  destruct (truthy (field params "actividad")) eqn:Ha;
    cbv iota beta delta [negb].
  - solve_try.
  - eexists; split; [reflexivity|].
    unfold rejection; split; [vm_compute; reflexivity|].
    split; [cbn; tauto|]. split; [unfold blank_value; now rewrite Ha|].
    split; [eexists; split; [reflexivity|vm_compute; reflexivity]|].
    split; [reflexivity|]. intros H; now contradiction H.
Qed.

Lemma shape_GenerateEmbedding params w st :
  shape GenerateEmbedding params w st.
Proof.
  start handleMcpGenerateEmbedding. step_blank.
  - solve_rejection.
  - solve_try.
  - solve_crash.
Qed.

Lemma shape_StoreDocument params w st : shape StoreDocument params w st.
Proof.
  start handleMcpStoreDocument. step_blank.
  - solve_rejection.
  - solve_try.
  - solve_crash.
Qed.

Lemma shape_SearchSimilarDocuments params w st :
  shape SearchSimilarDocuments params w st.
Proof.
  start handleMcpSearchSimilarDocuments. step_blank.
  - solve_rejection.
  - unfold parseInt, parseFloat.
    cbv beta iota delta [bind lift ret throw and_then].
    destruct (ToString (field_default params "limit" (num 5))) as [e|l]
      eqn:El; cbv beta iota;
      [now rewrite (ToString_error _ El)|].
    destruct (limit_out_of_range (parseInt_string l)) eqn:Hl;
      unfold limit_out_of_range in Hl; rewrite Hl.
    + solve_rejection.
    + destruct (strict_eq (field params "threshold") VUndefined);
        cbv iota beta delta [negb andb].
      * destruct (truthy (field params "classroom_id")); solve_try.
      * destruct (ToString (field params "threshold")) as [e|t] eqn:Et;
          cbv beta iota; [now rewrite (ToString_error _ Et)|].
        destruct (threshold_out_of_range (parseFloat_string t)) eqn:Ht;
          unfold threshold_out_of_range in Ht; rewrite Ht.
        -- solve_rejection.
        -- destruct (truthy (field params "classroom_id")); solve_try.
  - solve_crash.
Qed.

Lemma shape_StoreDocumentChunk params w st :
  shape StoreDocumentChunk params w st.
Proof.
  start handleMcpStoreDocumentChunk. step_blank.
  - solve_rejection.
  - destruct (is_nullish (field params "chunk_index")) eqn:Hn.
    + eexists; split; [reflexivity|].
      unfold rejection; split; [vm_compute; reflexivity|].
      split; [cbn; tauto|]. split.
      { unfold is_nullish in Hn. unfold blank_value.
        destruct (field params "chunk_index"); try discriminate Hn;
          reflexivity. }
      split; [eexists; split; [reflexivity|vm_compute; reflexivity]|].
      split; [reflexivity|]. intros _. eexists; reflexivity.
    + step_blank.
      * solve_rejection.
      * destruct (truthy (field params "token_count")); solve_try.
      * solve_crash.
  - solve_crash.
Qed.

Lemma shape_SearchSimilarChunks params w st :
  shape SearchSimilarChunks params w st.
Proof.
  start handleMcpSearchSimilarChunks. step_blank.
  - solve_rejection.
  - step_blank.
    + solve_rejection.
    + destruct (truthy (field params "threshold")); solve_try.
    + solve_crash.
  - solve_crash.
Qed.

Lemma shape_ChatWithClassroom params w st :
  shape ChatWithClassroom params w st.
Proof.
  start handleMcpChatWithClassroom. step_blank.
  - solve_rejection.
  - step_blank.
    + solve_rejection.
    + solve_try.
    + solve_crash.
  - solve_crash.
Qed.

Lemma shape_GetClassroomInfo params w st :
  shape GetClassroomInfo params w st.
Proof.
  start handleMcpGetClassroomInfo. step_blank.
  - solve_rejection.
  - solve_try.
  - solve_crash.
Qed.

Lemma shape_CreateEmbedding params w st : shape CreateEmbedding params w st.
Proof.
  start handleMcpCreateEmbedding. step_blank.
  - solve_rejection.
  - step_blank.
    + solve_rejection.
    + solve_try.
    + solve_crash.
  - solve_crash.
Qed.

Lemma shape_ProfessorAssistant params w st :
  shape ProfessorAssistant params w st.
Proof.
  start handleMcpProfessorAssistant. step_blank.
  - solve_rejection.
  - step_blank.
    + solve_rejection.
    + solve_try.
    + solve_crash.
  - solve_crash.
Qed.

Lemma shape_GenerateResources params w st :
  shape GenerateResources params w st.
Proof.
  start handleMcpGenerateResources. step_blank.
  - solve_rejection.
  - step_blank.
    + solve_rejection.
    + cbn [lower].
      destruct (is_pdf_or_ppt (VStr (toLowerCase s0)));
        cbv iota beta delta [negb].
      * step_blank.
        -- solve_rejection.
        -- destruct (truthy (field params "topic"));
             destruct (truthy (field params "source_document_ids"));
             cbv iota beta delta [andb];
             try destruct (isArray (field params "source_document_ids"));
             try destruct (get (field params "source_document_ids") "length");
             solve_try.
        -- solve_crash.
      * solve_rejection.
    + solve_crash.
  - solve_crash.
Qed.

Lemma shape_AnalyzeUserContext params w st :
  shape AnalyzeUserContext params w st.
Proof.
  start handleMcpAnalyzeUserContext. step_blank.
  - solve_rejection.
  - step_blank.
    + solve_rejection.
    + solve_try.
    + solve_crash.
  - solve_crash.
Qed.

(** The twelve handlers follow one scheme: validation as [validate] reads
    it, then the tool call, then the 200 or the 500. *)
Lemma exports_shape op params w st : shape op params w st.
Proof.
  destruct op;
    [apply shape_FiscalAdvice | apply shape_GenerateEmbedding
    |apply shape_StoreDocument | apply shape_SearchSimilarDocuments
    |apply shape_StoreDocumentChunk | apply shape_SearchSimilarChunks
    |apply shape_ChatWithClassroom | apply shape_GetClassroomInfo
    |apply shape_CreateEmbedding | apply shape_ProfessorAssistant
    |apply shape_GenerateResources | apply shape_AnalyzeUserContext].
Qed.

(** ** What fails between validation and the call *)

Lemma interpolate_error vs e : interpolate vs = inl e -> e = conversion_error.
Proof.
  revert e. induction vs as [|v vs IH]; intros e; cbn [interpolate];
    [discriminate|].
  destruct (ToString v) as [e1|s] eqn:E.
  - intros H. injection H as <-. exact (ToString_error _ E).
  - destruct (interpolate vs) as [e2|ss]; [|discriminate].
    intros H. injection H as <-. now apply IH.
Qed.

(** Only a conversion to a string fails there. *)
Lemma prepare_error op params e :
  prepare op params = inl e -> e = conversion_error.
Proof.
  destruct op; cbv beta iota delta [prepare]; cbv zeta;
    unfold parseInt, parseFloat;
    try (destruct (field params "source_document_ids") as [| |[]|[]|[]|l|o];
         cbn [truthy get isArray andb]);
    cbn [logging]; unfold and_then;
    repeat match goal with
           | |- context [match interpolate ?l with _ => _ end] =>
             let E := fresh "E" in
             destruct (interpolate l) eqn:E;
             [apply interpolate_error in E|]
           | |- context [match ToString ?v with _ => _ end] =>
             let E := fresh "E" in
             destruct (ToString v) eqn:E;
             [apply ToString_error in E|]
           | |- context [if ?b then _ else _] => destruct b
           end;
    intros H; first [discriminate H | injection H as <-; assumption].
Qed.

End Shape.

(* ================================================================== *)
(** * The adapter operations: validation, envelope, failures *)
(* ================================================================== *)

Module Operations.

Import Bridge JSON StringFacts Transport ToolCall Adapter Shape Scenario.

Local Open Scope string_scope.
Local Open Scope list_scope.

(** ** Validation alone *)

(** With no ill-typed required string, no call of [trim] throws. *)
Lemma validate_well_typed op params :
  (forall f, In f (required_strings op) ->
             ill_typed (field params f) = false) ->
  forall x, validate op params <> Crash x.
Proof.
  intros H x.
  destruct op; cbv beta iota delta [validate]; cbv zeta; unfold require;
    repeat match goal with
           | |- context [ill_typed (field params ?f)] =>
             rewrite (H f) by (cbn; tauto)
           end;
    repeat match goal with
           | |- context [if ?b then _ else _] => destruct b
           | |- context [match ?r with inl _ => _ | inr _ => _ end] =>
             destruct r
           end;
    discriminate.
Qed.

(** Only search-similar-documents converts a parameter while it
    validates, and with a [limit] and a [threshold] that convert it does
    not throw there. *)
Lemma validate_readable op params :
  (op = SearchSimilarDocuments ->
   convertible (field_default params "limit" (num 5)) = true
   /\ convertible (field params "threshold") = true) ->
  validate op params <> Unreadable.
Proof.
  intros H.
  destruct op; cbv beta iota delta [validate]; cbv zeta; unfold require;
    try (destruct (H eq_refl) as [Hl Ht]; unfold convertible in Hl, Ht;
         unfold parseInt, parseFloat;
         destruct (ToString (field_default params "limit" (num 5)));
         [discriminate Hl|];
         destruct (ToString (field params "threshold"));
         [discriminate Ht|]);
    repeat match goal with
           | |- context [if ?b then _ else _] => destruct b
           end;
    discriminate.
Qed.


(** ** The envelope *)

(** What the handlers do after validation, in one statement. *)
Lemma exports_valid op params w st :
  validate op params = Valid ->
  match prepare op params with
  | inl e =>
    exports op params w st
    = (Return (failed (failure_body op e
                         (VStr (toISOString (clock w (ticks st)))))),
       {| trace := trace st; ticks := S (ticks st) |})
  | inr args =>
    arguments_shape op args
    /\ concluded op w (callMcpTool (tool_name op) (VObj args) w st)
                 (exports op params w st)
  end.
Proof.
  intros Hv. pose proof (exports_shape op params w st) as Hs.
  unfold shape in Hs. now rewrite Hv in Hs.
Qed.

(** C8, as the code has it: when an operation passes validation and the
    parameters it logs convert to strings (its preparation yields the
    argument object [args]), its answer is the one concluded from the call
    of its tool with [args]; when the transport responds to the first
    request of that call, that request is the POST to [<base>/mcp] of a
    JSON-RPC envelope with method [tools/call], an id [call-<timestamp>]
    made of the clock reading, and [params = {name, arguments}] with the
    operation's tool name and [args]; and [args] is [{request: {...}}] for
    fiscal advice and chat-with-classroom, and an object with no [request]
    key for every other operation. *)
Theorem C8_call_envelope :
  forall op params w st args,
    validate op params = Valid ->
    prepare op params = inr args ->
    let rq :=
      {| rq_url := MCP_SERVER_URL w ++ js "/mcp";
         rq_method := str "POST";
         rq_headers :=
           [(js "Content-Type", str "application/json");
            (js "Accept", str "application/json, text/event-stream");
            (js "User-Agent", str "FiscAI-Lambda-Bridge")];
         rq_body :=
           Some (JSON.stringify_text
             (obj [("jsonrpc", str "2.0");
                   ("id", VStr (js "call-"
                                ++ string_of_Z (clock w (ticks st))));
                   ("method", str "tools/call");
                   ("params", obj [("name", VStr (tool_name op));
                                   ("arguments", VObj args)])])) |} in
    concluded op w (callMcpTool (tool_name op) (VObj args) w st)
              (exports op params w st)
    /\ (forall status hs data,
           transport w (List.length (trace st)) rq
           = Responded status hs data ->
           exists rest,
             trace (snd (exports op params w st)) = trace st ++ rq :: rest)
    /\ ((op = FiscalAdvice \/ op = ChatWithClassroom) ->
        exists inner, args = [(js "request", VObj inner)])
    /\ (op <> FiscalAdvice -> op <> ChatWithClassroom ->
        obj_get args (js "request") = VUndefined).
Proof.
  intros op params w st args Hv Hp rq.
  pose proof (exports_valid op params w st Hv) as Hs. rewrite Hp in Hs.
  destruct Hs as [Hargs Hc]. split; [exact Hc|]. split; [|split].
  - intros status hs data _.
    destruct (callMcpTool_trace (tool_name op) args w st)
      as [rest [Htrace _]].
    exists rest. destruct Hc as [Hst _]. cbn [snd] in Hst.
    rewrite Hst. cbn [trace]. exact Htrace.
  - unfold arguments_shape in Hargs. intros [-> | ->]; exact Hargs.
  - unfold arguments_shape in Hargs.
    intros H1 H2. destruct op; try exact Hargs; now contradiction.
Qed.

(** An operation calls its tool with the arguments [args]: its answer is
    the one concluded from that call, and when the transport responds to
    the JSON-RPC request of the call, that request has been made. *)
Definition calls (op : operation) (params : object) (w : world) (st : state)
           (args : object) : Prop :=
  concluded op w (callMcpTool (tool_name op) (VObj args) w st)
            (exports op params w st)
  /\ (forall status hs data,
         transport w (List.length (trace st))
           (primary_request w (clock w (ticks st)) (tool_name op) (VObj args))
         = Responded status hs data ->
         exists rest,
           trace (snd (exports op params w st))
           = trace st
             ++ primary_request w (clock w (ticks st)) (tool_name op)
                  (VObj args)
             :: rest).

Lemma exports_calls op params w st args :
  validate op params = Valid ->
  prepare op params = inr args ->
  calls op params w st args.
Proof.
  intros Hv Hp. pose proof (exports_valid op params w st Hv) as Hs.
  rewrite Hp in Hs. destruct Hs as [_ Hc]. split; [exact Hc|].
  intros status hs data _.
  destruct (callMcpTool_trace (tool_name op) args w st)
    as [rest [Htrace _]].
  exists rest. destruct Hc as [Hst _]. cbn [snd] in Hst.
  rewrite Hst. cbn [trace]. exact Htrace.
Qed.

(** A run that returns [r]. *)
Lemma run_returns {A} (x : outcome A * state) (r : A) :
  fst x = Return r -> x = (Return r, snd x).
Proof. destruct x as [o st']. cbn. now intros ->. Qed.

Lemma C8_witness :
  let w := world_of (always (Responded 200 [] (jsq "{`result`:{`ok`:1}}"))) in
  let params := [(js "message", str "hola"); (js "classroom_id", str "c1")] in
  let args := [(js "request", obj [("message", str "hola");
                                   ("classroom_id", str "c1");
                                   ("user_id", VNull);
                                   ("session_id", VNull)])] in
  let rq :=
    {| rq_url := js "https://mcp.example/mcp";
       rq_method := str "POST";
       rq_headers :=
         [(js "Content-Type", str "application/json");
          (js "Accept", str "application/json, text/event-stream");
          (js "User-Agent", str "FiscAI-Lambda-Bridge")];
       rq_body :=
         Some (JSON.stringify_text
           (obj [("jsonrpc", str "2.0");
                 ("id", VStr (js "call-"
                              ++ string_of_Z (clock w (ticks initial))));
                 ("method", str "tools/call");
                 ("params",
                  obj [("name", VStr (tool_name ChatWithClassroom));
                       ("arguments", VObj args)])])) |} in
  exists rest,
    trace (snd (exports ChatWithClassroom params w initial))
    = trace initial ++ rq :: rest.
Proof.
  intros w params args rq.
  exact (proj1 (proj2 (C8_call_envelope ChatWithClassroom params w initial
                         (args := args) eq_refl eq_refl))
               200%Z [] (jsq "{`result`:{`ok`:1}}") eq_refl).
Defined.

(** Against C8 as it is worded: validation succeeds and no envelope is
    built.  With a [user_id] that does not convert to a string, the log
    line that prints it throws inside the [try] block, before the tool is
    called: the answer is a 500 and nothing has been asked of the
    transport. *)
Lemma C8_counterexample :
  let w := world_of (always (Responded 200 [] (jsq "{`result`:{`ok`:1}}"))) in
  let params := [(js "message", str "hola"); (js "classroom_id", str "c1");
                 (js "user_id", obj [("toString", VNull)])] in
  validate ChatWithClassroom params = Valid
  /\ exports ChatWithClassroom params w initial
     = (Return {| statusCode := 500;
                  body := obj
                    [("error", str "Cannot convert object to primitive value");
                     ("timestamp", str "2025-11-02T00:00:00.000Z");
                     ("hint", str "Verifica que el classroom exista y tenga documentos cargados")] |},
        {| trace := []; ticks := 1 |}).
Proof. split; vm_compute; reflexivity. Qed.

End Operations.

(* ================================================================== *)
(** * The adapter operations: what they return *)
(* ================================================================== *)

Module Returns.

Import Bridge JSON StringFacts Transport ToolCall Adapter Shape Scenario
       Operations.

Local Open Scope string_scope.
Local Open Scope list_scope.

Lemma failure_body_fields op e timestamp :
  get (failure_body op e timestamp) "error" = inr (VStr (message e))
  /\ get (failure_body op e timestamp) "timestamp" = inr timestamp
  /\ get (failure_body op e timestamp) "hint"
     = inr match failure_hint op with
           | Some h => str h
           | None => VUndefined
           end.
Proof. destruct op; repeat split; reflexivity. Qed.

(** The hint tells the operations apart, and only fiscal advice has none. *)
Lemma failure_hint_specific op op' :
  failure_hint op = failure_hint op' -> op = op'.
Proof.
  destruct op, op'; intros H; try reflexivity; vm_compute in H;
    discriminate H.
Qed.

(** C1, as the code has it: on a Parameter Bag none of whose required
    string parameters is ill-typed (a truthy value that is not a string)
    and, for search-similar-documents, whose [limit] and [threshold]
    convert to strings, every operation returns a [{statusCode, body}] pair
    and throws nothing.  The pair is a 400 made before any request; or a
    500 made when a parameter that is logged does not convert to a string,
    before the tool is called; or it follows the tool call: a 200 around
    the payload, or, for every failure of the call, a 500.  The body of
    every 500 holds the error message, a timestamp and the
    operation-specific hint, which every operation but fiscal advice
    has. *)
Theorem C1_failures_rendered :
  forall op params w st,
    (forall f, In f (required_strings op) ->
               ill_typed (field params f) = false) ->
    (op = SearchSimilarDocuments ->
     convertible (field_default params "limit" (num 5)) = true
     /\ convertible (field params "threshold") = true) ->
    exists r st',
      exports op params w st = (Return r, st')
      /\ ((statusCode r = 400%Z /\ st' = st)
          \/ (exists e,
                prepare op params = inl e
                /\ statusCode r = 500%Z
                /\ st' = {| trace := trace st; ticks := S (ticks st) |}
                /\ get (body r) "error" = inr (VStr (message e))
                /\ get (body r) "timestamp"
                   = inr (VStr (toISOString (clock w (ticks st))))
                /\ get (body r) "hint"
                   = inr match failure_hint op with
                         | Some h => str h
                         | None => VUndefined
                         end)
          \/ exists args,
               prepare op params = inr args
               /\ match callMcpTool (tool_name op) (VObj args) w st with
                  | (Return v, st1) =>
                    statusCode r = 200%Z
                    /\ get (body r) "data" = inr v
                  | (Throw e, st1) =>
                    statusCode r = 500%Z
                    /\ get (body r) "error" = inr (VStr (message e))
                    /\ get (body r) "timestamp"
                       = inr (VStr (toISOString (clock w (ticks st1))))
                    /\ get (body r) "hint"
                       = inr match failure_hint op with
                             | Some h => str h
                             | None => VUndefined
                             end
                  end)
      /\ (failure_hint op = None <-> op = FiscalAdvice).
Proof.
  intros op params w st Htyped Hconv.
  pose proof (exports_shape op params w st) as Hshape.
  pose proof (validate_well_typed op params Htyped) as Hcrash.
  pose proof (@validate_readable op params Hconv) as Hread.
  unfold shape in Hshape.
  assert (Hhint : failure_hint op = None <-> op = FiscalAdvice).
  { split; [|now intros ->]. now destruct op. }
  destruct (validate op params) as [c|x| |].
  - destruct Hshape as [b [Hb _]].
    exists (bad_request (VObj b)), st. split; [exact Hb|].
    split; [left; now split|exact Hhint].
  - now contradiction (Hcrash x).
  - now contradiction Hread.
  - destruct (prepare op params) as [e|args].
    + eexists. eexists. split; [exact Hshape|]. split; [|exact Hhint].
      right. left. exists e. split; [reflexivity|]. split; [reflexivity|].
      split; [reflexivity|]. apply failure_body_fields.
    + destruct Hshape as [_ [Hst Hres]].
      destruct (exports op params w st) as [o st'].
      cbn [fst snd] in Hst, Hres.
      destruct (callMcpTool (tool_name op) (VObj args) w st)
        as [[v|e] st1] eqn:Hcall; cbn [fst snd] in Hst, Hres.
      * destruct Hres as [b [-> [_ [Hdata _]]]].
        exists (ok (VObj b)), st'. split; [reflexivity|].
        split; [|exact Hhint]. right. right. exists args.
        split; [reflexivity|]. rewrite Hcall.
        split; [reflexivity|]. cbn [body ok get]. now rewrite Hdata.
      * subst o. exists (failed (failure_body op e
                          (VStr (toISOString (clock w (ticks st1)))))), st'.
        split; [reflexivity|]. split; [|exact Hhint].
        right. right. exists args. split; [reflexivity|]. rewrite Hcall.
        split; [reflexivity|]. apply failure_body_fields.
Qed.

Lemma C1_witness :
  let w := world_of down in
  let params := [(js "query_text", str "redes"); (js "limit", str "10")] in
  (forall f, In f (required_strings SearchSimilarDocuments) ->
             ill_typed (field params f) = false)
  /\ convertible (field_default params "limit" (num 5)) = true
  /\ convertible (field params "threshold") = true
  /\ exists r st',
       exports SearchSimilarDocuments params w initial = (Return r, st')
       /\ ((statusCode r = 400%Z /\ st' = initial)
           \/ (exists e,
                 prepare SearchSimilarDocuments params = inl e
                 /\ statusCode r = 500%Z
                 /\ st' = {| trace := trace initial;
                             ticks := S (ticks initial) |}
                 /\ get (body r) "error" = inr (VStr (message e))
                 /\ get (body r) "timestamp"
                    = inr (VStr (toISOString (clock w (ticks initial))))
                 /\ get (body r) "hint"
                    = inr match failure_hint SearchSimilarDocuments with
                          | Some h => str h
                          | None => VUndefined
                          end)
           \/ exists args,
                prepare SearchSimilarDocuments params = inr args
                /\ match callMcpTool (tool_name SearchSimilarDocuments)
                                     (VObj args) w initial with
                   | (Return v, st1) =>
                     statusCode r = 200%Z
                     /\ get (body r) "data" = inr v
                   | (Throw e, st1) =>
                     statusCode r = 500%Z
                     /\ get (body r) "error" = inr (VStr (message e))
                     /\ get (body r) "timestamp"
                        = inr (VStr (toISOString (clock w (ticks st1))))
                     /\ get (body r) "hint"
                        = inr match failure_hint SearchSimilarDocuments with
                              | Some h => str h
                              | None => VUndefined
                              end
                   end)
       /\ (failure_hint SearchSimilarDocuments = None
           <-> SearchSimilarDocuments = FiscalAdvice).
Proof.
  intros w params.
  assert (Htyped : forall f, In f (required_strings SearchSimilarDocuments) ->
                             ill_typed (field params f) = false).
  { intros f [<-|[]]. reflexivity. }
  split; [exact Htyped|]. split; [reflexivity|]. split; [reflexivity|].
  refine (@C1_failures_rendered SearchSimilarDocuments params w initial
            Htyped _).
  intros _. split; reflexivity.
Defined.

(** C1 as stated fails three times.  A number where the text is expected
    makes [trim] throw before the [try] block, and a [limit] that does not
    convert to a string makes [parseInt] throw there: the TypeError leaves
    the operation.  And the 500 of fiscal advice has an error message and a
    timestamp, but no hint. *)
Lemma C1_counterexample :
  exports GenerateEmbedding [(js "text", num 5)] (world_of down) initial
  = (Throw (TypeError (js "text.trim is not a function")), initial)
  /\ exports SearchSimilarDocuments
       [(js "query_text", str "redes");
        (js "limit", obj [("toString", num 1)])] (world_of down) initial
     = (Throw (TypeError (js "Cannot convert object to primitive value")),
        initial)
  /\ fst (exports FiscalAdvice [(js "actividad", str "venta de tacos")]
            (world_of down) initial)
     = Return {| statusCode := 500;
                 body := obj
                   [("error", str "Error conectando con MCP: connect ECONNREFUSED");
                    ("timestamp", str "2025-11-02T00:00:00.001Z")] |}.
Proof. repeat split; vm_compute; reflexivity. Qed.




(** ** The numeric parameters of the two searches *)

(** search-similar-documents checks [limit] and [threshold]: a [limit] that
    [parseInt] does not read as a number from 1 to 50, or a [threshold]
    that [parseFloat] does not read as a number from 0 to 1, is answered
    with a 400 that echoes the value received, before any request. *)
Lemma search_documents_checks_numbers params w st :
  blank_value (field params "query_text") = false ->
  ill_typed (field params "query_text") = false ->
  convertible (field_default params "limit" (num 5)) = true ->
  bad_limit params || bad_threshold params = true ->
  exists b,
    exports SearchSimilarDocuments params w st
    = (Return {| statusCode := 400; body := VObj b |}, st)
    /\ obj_get b (js "received")
       = (if bad_limit params then field_default params "limit" (num 5)
          else field params "threshold").
Proof.
  intros Hblank Htyped Hconv Hbad.
  pose proof (exports_shape SearchSimilarDocuments params w st) as Hshape.
  unfold shape in Hshape. cbv beta iota delta [validate] in Hshape.
  cbv zeta in Hshape. unfold require in Hshape.
  rewrite Hblank, Htyped in Hshape.
  unfold bad_limit, bad_threshold in *. unfold convertible in Hconv.
  unfold parseInt, parseFloat in *.
  destruct (ToString (field_default params "limit" (num 5))) as [e|l];
    [discriminate Hconv|].
  destruct (limit_out_of_range (parseInt_string l)).
  - destruct Hshape as [b [Hb [_ [Hrec _]]]]. now exists b.
  - cbn [orb] in Hbad. apply andb_true_iff in Hbad as [Hu Hbad].
    apply negb_true_iff in Hu. rewrite Hu in Hshape.
    destruct (ToString (field params "threshold")) as [e|t];
      [discriminate Hbad|].
    rewrite Hbad in Hshape.
    destruct Hshape as [b [Hb [_ [Hrec _]]]]. now exists b.
Qed.

(** Where the values of the specification fall. *)
Example limits_and_thresholds :
  let bag limit threshold :=
      [(js "query_text", str "embeddings"); (js "limit", limit);
       (js "threshold", threshold)] in
  map (fun limit => bad_limit (bag limit VUndefined))
      [num 0; num 51; str "abc"; num 1; num 50; str "50"; VUndefined]
  = [true; true; true; false; false; false; false]
  /\ map (fun threshold => bad_threshold (bag (num 5) threshold))
         [VNum (num_of_decimal true 1 (-1)); VNum (num_of_decimal false 11 (-1));
          str "-0.1"; str "1.1"; num 0; num 1; str "0"; str "1"; VUndefined]
     = [true; true; true; true; false; false; false; false; false].
Proof. split; vm_compute; reflexivity. Qed.

Example search_documents_rejects_limit_0 :
  fst (exports SearchSimilarDocuments
         [(js "query_text", str "embeddings"); (js "limit", num 0)]
         (world_of down) initial)
  = Return {| statusCode := 400;
              body := obj
                [("error", VStr (js "El parámetro " ++ quoted "limit"
                                 ++ js " debe ser un número entre 1 y 50"));
                 ("received", num 0);
                 ("hint", str "Usa un valor numérico válido para limitar los resultados")] |}.
Proof. vm_compute. reflexivity. Qed.

(** A value that is not an object: what JSON calls a scalar, and
    [undefined]. *)
Definition primitive (v : value) : bool :=
  match v with
  | VArr _ | VObj _ => false
  | _ => true
  end.

Lemma primitive_convertible v :
  primitive v = true -> exists s, ToString v = inr s.
Proof.
  destruct v as [| |[]|n|s|l|o]; try discriminate; intros _; now eexists.
Qed.

(** What search-chunks prepares, when its [limit] and what it prints of its
    [threshold] convert to the strings [l] and [t]. *)
Lemma prepare_search_chunks params q c l t :
  field params "query_text" = VStr q ->
  field params "classroom_id" = VStr c ->
  ToString (field_default params "limit" (num 5)) = inr l ->
  ToString (or_else (field params "threshold") (str "default")) = inr t ->
  prepare SearchSimilarChunks params
  = inr [(js "query_text", VStr q);
         (js "classroom_id", VStr c);
         (js "limit", VNum (parseInt_string l));
         (js "threshold",
          if truthy (field params "threshold")
          then VNum (parseFloat_string t) else VUndefined)].
Proof.
  intros Hq Hc Hl Ht.
  cbv beta iota delta [prepare]. cbv zeta. unfold parseInt, parseFloat.
  rewrite Hq, Hc. cbn [logging interpolate ToString preview].
  rewrite Hl, Ht. unfold and_then. unfold or_else in Ht.
  destruct (truthy (field params "threshold")); [rewrite Ht|]; reflexivity.
Qed.

(** C4, where it fails: search-chunks, the search the dispatcher routes to,
    checks neither [limit] nor [threshold].  Whatever primitive values the
    two are (so for [limit] 0, 51 or "abc", and for [threshold] -0.1 or
    1.1), with a query text and a classroom id the operation calls its tool
    and answers 200 or 500, never 400: its answer is the one concluded from
    the call, whose arguments hold the limit as [parseInt] read it; and
    when the transport responds to the first request of the call, that
    request has been made. *)
Theorem C4_search_chunks_unvalidated :
  forall limit threshold w st,
    primitive limit = true ->
    primitive threshold = true ->
    let params := [(js "query_text", str "embeddings");
                   (js "classroom_id", str "c1");
                   (js "limit", limit);
                   (js "threshold", threshold)] in
    exists r st' args parsedLimit,
      exports SearchSimilarChunks params w st = (Return r, st')
      /\ (statusCode r = 200%Z \/ statusCode r = 500%Z)
      /\ parseInt (field_default params "limit" (num 5)) = inr parsedLimit
      /\ obj_get args (js "limit") = VNum parsedLimit
      /\ concluded SearchSimilarChunks w
           (callMcpTool (js "search_similar_chunks") (VObj args) w st)
           (exports SearchSimilarChunks params w st)
      /\ (forall status hs data,
             transport w (List.length (trace st))
               (primary_request w (clock w (ticks st))
                  (js "search_similar_chunks") (VObj args))
             = Responded status hs data ->
             exists rest,
               trace st'
               = trace st
                 ++ primary_request w (clock w (ticks st))
                      (js "search_similar_chunks") (VObj args)
                 :: rest).
Proof.
  intros limit threshold w st Hl Ht params.
  assert (Hd : exists l, ToString (field_default params "limit" (num 5))
                         = inr l).
  { unfold field_default. change (field params "limit") with limit.
    destruct limit as [| |[]|n|s|l|o]; try discriminate Hl; now eexists. }
  destruct Hd as [l Hd].
  assert (Hor : exists t,
             ToString (or_else (field params "threshold") (str "default"))
             = inr t).
  { change (field params "threshold") with threshold.
    unfold or_else. destruct (truthy threshold); [|now eexists].
    now apply primitive_convertible. }
  destruct Hor as [t Hor].
  pose proof (@prepare_search_chunks params _ _ l t eq_refl eq_refl Hd Hor)
    as Hp.
  pose proof (@exports_valid SearchSimilarChunks params w st eq_refl) as Hs.
  rewrite Hp in Hs. destruct Hs as [_ Hc].
  match type of Hp with _ = inr ?a => set (args := a) in * end.
  assert (Hpl : parseInt (field_default params "limit" (num 5))
                = inr (parseInt_string l))
    by (unfold parseInt; now rewrite Hd).
  assert (Hargs : obj_get args (js "limit") = VNum (parseInt_string l))
    by reflexivity.
  assert (Hc' := Hc). destruct Hc' as [Hst Hres].
  destruct (callMcpTool_trace (tool_name SearchSimilarChunks) args w st)
    as [rest [Htrace _]].
  destruct (exports SearchSimilarChunks params w st) as [o st'] eqn:Hrun.
  cbn [fst snd] in Hst, Hres.
  assert (Hst' : trace st'
                 = trace st
                   ++ primary_request w (clock w (ticks st))
                        (js "search_similar_chunks") (VObj args)
                   :: rest)
    by (rewrite Hst; exact Htrace).
  destruct (fst (callMcpTool (tool_name SearchSimilarChunks) (VObj args)
                             w st)) as [v|e].
  - destruct Hres as [b [-> _]].
    exists (ok (VObj b)), st', args, (parseInt_string l).
    split; [reflexivity|]. split; [now left|]. split; [exact Hpl|].
    split; [exact Hargs|]. split; [exact Hc|].
    intros status hs data _. now exists rest.
  - subst o. eexists. exists st', args, (parseInt_string l).
    split; [reflexivity|]. split; [now right|]. split; [exact Hpl|].
    split; [exact Hargs|]. split; [exact Hc|].
    intros status hs data _. now exists rest.
Qed.

Lemma C4_witness :
  let w := world_of (always (Responded 200 [] (jsq "{`result`:[]}"))) in
  let params := [(js "query_text", str "embeddings");
                 (js "classroom_id", str "c1");
                 (js "limit", num 0);
                 (js "threshold", VNum (num_of_decimal false 11 (-1)))] in
  exists r st' args parsedLimit,
    exports SearchSimilarChunks params w initial = (Return r, st')
    /\ (statusCode r = 200%Z \/ statusCode r = 500%Z)
    /\ parseInt (field_default params "limit" (num 5)) = inr parsedLimit
    /\ obj_get args (js "limit") = VNum parsedLimit
    /\ concluded SearchSimilarChunks w
         (callMcpTool (js "search_similar_chunks") (VObj args) w initial)
         (exports SearchSimilarChunks params w initial)
    /\ (forall status hs data,
           transport w (List.length (trace initial))
             (primary_request w (clock w (ticks initial))
                (js "search_similar_chunks") (VObj args))
           = Responded status hs data ->
           exists rest,
             trace st'
             = trace initial
               ++ primary_request w (clock w (ticks initial))
                    (js "search_similar_chunks") (VObj args)
               :: rest).
Proof.
  intros w params.
  exact (C4_search_chunks_unvalidated (num 0)
           (VNum (num_of_decimal false 11 (-1))) w initial
           eq_refl eq_refl).
Defined.

(** With a [threshold] that is an object and does not convert to a string,
    the log line that prints it throws inside the [try] block: the answer
    is a 500, still not a 400, and nothing is asked of the transport. *)
Example search_chunks_unconvertible_threshold :
  exports SearchSimilarChunks
    [(js "query_text", str "embeddings"); (js "classroom_id", str "c1");
     (js "threshold", obj [("toString", num 1)])]
    (world_of (always (Responded 200 [] (jsq "{`result`:[]}")))) initial
  = (Return {| statusCode := 500;
               body := obj
                 [("error", str "Cannot convert object to primitive value");
                  ("timestamp", str "2025-11-02T00:00:00.000Z");
                  ("hint", str "Verifica que el classroom exista y que la función RPC match_classroom_chunks esté creada")] |},
     {| trace := []; ticks := 1 |}).
Proof. vm_compute. reflexivity. Qed.

(** The request search-chunks sends for [limit = 0]. *)
Example search_chunks_sends_limit_0 :
  let w := world_of (always (Responded 200 [] (jsq "{`result`:[]}"))) in
  let run := exports SearchSimilarChunks
               [(js "query_text", str "embeddings");
                (js "classroom_id", str "c1"); (js "limit", num 0)]
               w initial in
  status_of run = Some 200%Z
  /\ map rq_body (trace (snd run))
     = [Some (jsq "{`jsonrpc`:`2.0`,`id`:`call-1762041600000`,`method`:`tools/call`,`params`:{`name`:`search_similar_chunks`,`arguments`:{`query_text`:`embeddings`,`classroom_id`:`c1`,`limit`:0}}}")].
Proof. split; vm_compute; reflexivity. Qed.

End Returns.

(* ================================================================== *)
(** * What JSON.stringify writes, JSON.parse reads *)
(* ================================================================== *)

Module JSONValid.

Import JSON StringFacts.

Local Open Scope N_scope.

Unset Implicit Arguments.

(** ** Digits *)

Lemma is_digit_tests (c : code_unit) :
  is_digit c = true ->
  (c =? 45) = false /\ (c =? 46) = false /\ (c =? 43) = false
  /\ (c =? 101) = false /\ (c =? 69) = false /\ (c =? 34) = false.
Proof.
  unfold is_digit. intros H. apply andb_true_iff in H as [H1 H2].
  apply N.leb_le in H1, H2.
  repeat split; apply N.eqb_neq; lia.
Qed.

Lemma digits_fuel_digits (fuel : nat) (n : N) (acc : jsstring) :
  forallb is_digit acc = true ->
  forallb is_digit (digits_fuel fuel n acc) = true.
Proof.
  revert n acc; induction fuel as [|f IH]; intros n acc Hacc;
    [exact Hacc|].
  cbn [digits_fuel].
  assert (H : forallb is_digit ((48 + n mod 10) :: acc) = true)
    by (cbn [forallb]; now rewrite is_digit_mod, Hacc).
  destruct (n <? 10); [exact H|now apply IH].
Qed.

Lemma digits_of_N_digits (n : N) : forallb is_digit (digits_of_N n) = true.
Proof. now apply digits_fuel_digits. Qed.

(** The decimal form of a positive number does not start with a zero. *)
Lemma digits_fuel_nonzero (fuel : nat) (n : N) (acc : jsstring) :
  0 < n -> n < 2 ^ N.of_nat (S fuel) ->
  exists d r, digits_fuel (S fuel) n acc = d :: r /\ (d =? 48) = false.
Proof.
  revert n acc; induction fuel as [|f IH]; intros n acc Hpos Hlt.
  - change (2 ^ N.of_nat 1) with 2 in Hlt.
    assert (n = 1) by lia. subst n.
    exists 49, acc. split; reflexivity.
  - change (digits_fuel (S (S f)) n acc)
      with (if n <? 10 then (48 + n mod 10) :: acc
            else digits_fuel (S f) (n / 10) ((48 + n mod 10) :: acc)).
    destruct (n <? 10) eqn:Hn.
    + apply N.ltb_lt in Hn. exists (48 + n mod 10), acc.
      split; [reflexivity|]. rewrite N.mod_small by exact Hn.
      apply N.eqb_neq. lia.
    + apply N.ltb_ge in Hn. apply IH.
      * apply N.div_str_pos. lia.
      * apply N.Div0.div_lt_upper_bound.
        assert (E : 2 ^ N.of_nat (S (S f)) = 2 * 2 ^ N.of_nat (S f))
          by (rewrite (Nat2N.inj_succ (S f)); apply N.pow_succ_r').
        rewrite E in Hlt. revert Hlt.
        generalize (2 ^ N.of_nat (S f)). intros X Hlt. lia.
Qed.

Lemma digits_of_N_nonzero (n : N) :
  0 < n -> exists d r, digits_of_N n = d :: r /\ (d =? 48) = false.
Proof.
  intros Hpos. apply digits_fuel_nonzero; [exact Hpos|].
  rewrite Nat2N.inj_succ, N2Nat.id.
  apply N.log2_lt_pow2; [exact Hpos|]. lia.
Qed.

(** ** Reading back a run of digits *)

(** What follows a run of digits: nothing, or something that is no
    digit. *)
Definition no_digit_first (r : jsstring) : Prop :=
  match r with
  | [] => True
  | c :: _ => is_digit c = false
  end.

Lemma take_digits_app (ds r : jsstring) :
  forallb is_digit ds = true -> no_digit_first r ->
  take_digits (ds ++ r) = (ds, r).
Proof.
  intros Hds Hr. induction ds as [|d ds IH].
  - destruct r as [|c r]; [reflexivity|]. cbn in Hr |- *. now rewrite Hr.
  - cbn [forallb] in Hds. apply andb_true_iff in Hds as [Hd Hds].
    cbn [app take_digits]. now rewrite Hd, (IH Hds).
Qed.

(** ** Number literals *)

(** A decimal literal: sign, integer part, fraction ([[]] for none),
    exponent (its sign and its digits, [None] for none). *)
Definition decimal_literal (neg : bool) (ip fp : jsstring)
           (ex : option (bool * jsstring)) : jsstring :=
  (if neg then [45] else [])
  ++ ip
  ++ match fp with [] => [] | _ => 46 :: fp end
  ++ match ex with
     | None => []
     | Some (eneg, ds) => 101 :: (if eneg then 45 else 43) :: ds
     end.

(** An integer part: digits, and no leading zero before another digit. *)
Definition int_part_ok (ip : jsstring) : Prop :=
  forallb is_digit ip = true
  /\ exists d r, ip = d :: r /\ (r = [] \/ (d =? 48) = false).

Definition exponent_ok (ex : option (bool * jsstring)) : Prop :=
  match ex with
  | None => True
  | Some (_, ds) => forallb is_digit ds = true /\ ds <> []
  end.

Lemma literal_accepted neg ip fp ex :
  int_part_ok ip -> forallb is_digit fp = true -> exponent_ok ex ->
  exists x, number_of_literal (decimal_literal neg ip fp ex) = Some x.
Proof.
  intros [Hip [d [r [Hipe Hlead]]]] Hfp Hex.
  unfold decimal_literal.
  set (E := match ex with
            | None => []
            | Some (eneg, ds) => 101 :: (if eneg then 45 else 43) :: ds
            end).
  set (F := match fp with [] => [] | _ => 46 :: fp end).
  assert (HE : exists e, take_exponent_part E = (e, true, [])
                         /\ no_digit_first E
                         /\ match E with
                            | [] => True
                            | c :: _ => (c =? 46) = false
                            end).
  { subst E. destruct ex as [[eneg ds]|].
    - destruct Hex as [Hds Hne].
      assert (Htd : take_digits ds = (ds, [])).
      { rewrite <- (app_nil_r ds) at 1. now apply take_digits_app. }
      assert (Hlen : negb (Nat.eqb (List.length ds) 0) = true)
        by (destruct ds; [now contradiction Hne|reflexivity]).
      destruct eneg; eexists; cbn [take_exponent_part N.eqb Pos.eqb orb
                                   take_sign];
        rewrite Htd, Hlen; repeat split; reflexivity.
    - exists 0%Z. repeat split; reflexivity. }
  destruct HE as [e [HE [HEd HEdot]]].
  assert (HF : take_fraction (F ++ E) = (fp, true, E)
               /\ no_digit_first (F ++ E)).
  { subst F. destruct fp as [|c fp'].
    - cbn [app]. split; [|exact HEd].
      destruct E as [|c0 E']; [reflexivity|].
      cbn [take_fraction]. now rewrite HEdot.
    - set (fp0 := c :: fp') in *.
      change ((46 :: fp0) ++ E) with (46 :: (fp0 ++ E)).
      cbn [take_fraction]. change (46 =? 46) with true. cbv iota.
      rewrite (@take_digits_app _ _ Hfp HEd). split; reflexivity. }
  destruct HF as [HF HFd].
  assert (Hint : match ip with
                 | [] => false
                 | [_] => true
                 | d :: _ => negb (d =? 48)
                 end = true).
  { rewrite Hipe. destruct r; [reflexivity|].
    destruct Hlead as [Hr|Hd]; [discriminate Hr|now rewrite Hd]. }
  unfold number_of_literal.
  destruct neg.
  - cbn [app N.eqb Pos.eqb].
    rewrite (@take_digits_app _ _ Hip HFd), HF, HE, Hint.
    eexists; reflexivity.
  - cbn [app].
    assert (Hd : is_digit d = true).
    { rewrite Hipe in Hip. cbn [forallb] in Hip.
      now apply andb_true_iff in Hip as [Hd _]. }
    destruct (is_digit_tests d Hd) as [H45 _].
    rewrite Hipe. cbn [app]. rewrite H45.
    change (d :: r ++ F ++ E) with ((d :: r) ++ F ++ E). rewrite <- Hipe.
    rewrite (@take_digits_app _ _ Hip HFd), HF, HE, Hint.
    eexists; reflexivity.
Qed.

(** ** Number::toString writes a number literal *)

Lemma strip_zeros_split (l : jsstring) :
  exists z, l = z ++ strip_zeros l
            /\ forallb (fun d => d =? 48) z = true.
Proof.
  induction l as [|d l [z [Hl Hz]]]; [now exists []|].
  cbn [strip_zeros]. destruct (d =? 48) eqn:Hd.
  - exists (d :: z). cbn [app forallb]. rewrite Hd, Hz.
    split; [now f_equal|reflexivity].
  - now exists [].
Qed.

(** Dropping the trailing zeros of digits that start with no zero leaves
    digits that start the same. *)
Lemma drop_trailing_zeros (all : jsstring) d r :
  all = d :: r -> (d =? 48) = false -> forallb is_digit all = true ->
  exists r', rev (strip_zeros (rev all)) = d :: r'
             /\ forallb is_digit (d :: r') = true.
Proof.
  intros Hall Hd Hdigits.
  destruct (strip_zeros_split (rev all)) as [z [Hz Hzeros]].
  assert (Hsplit : all = rev (strip_zeros (rev all)) ++ rev z).
  { rewrite <- rev_app_distr, <- Hz. now rewrite rev_involutive. }
  destruct (rev (strip_zeros (rev all))) as [|d' r'] eqn:Hds.
  - exfalso. cbn [app] in Hsplit.
    assert (Hin : In d z).
    { apply in_rev. rewrite <- Hsplit, Hall. now left. }
    rewrite forallb_forall in Hzeros. specialize (Hzeros d Hin).
    now rewrite Hd in Hzeros.
  - rewrite Hall in Hsplit. cbn [app] in Hsplit.
    inversion Hsplit; subst d'. exists r'. split; [reflexivity|].
    rewrite Hall, H1 in Hdigits.
    change (d :: r' ++ rev z) with ((d :: r') ++ rev z) in Hdigits.
    rewrite forallb_app in Hdigits.
    now apply andb_true_iff in Hdigits as [H _].
Qed.

Lemma shortest_at_positive m e p q n k c e10 :
  shortest_at (S754_finite false m e) p q n k = Some (c, e10) -> 0 < c.
Proof.
  unfold shortest_at.
  destruct (match (k - n)%Z with
            | Z0 => (p, q)
            | Zpos j => ((p * 10 ^ j)%positive, q)
            | Zneg j => (p, (q * 10 ^ j)%positive)
            end) as [tn td].
  generalize (N.pos tn / N.pos td). intros lo.
  assert (Hlo : num_eq (num_of_decimal false lo (n - k))
                       (S754_finite false m e) = true -> 0 < lo).
  { destruct lo as [|pl]; [intros H; discriminate H|reflexivity]. }
  assert (Hhi : 0 < lo + 1) by lia.
  match goal with
  | |- context [if ?b then lo + 1 else lo] => generalize b; intros prefer_hi
  end.
  destruct (num_eq (num_of_decimal false lo (n - k)) _) eqn:Hok;
    destruct (num_eq (num_of_decimal false (lo + 1) (n - k)) _);
    intros H; inversion H; subst;
    try (now apply Hlo); try exact Hhi.
  destruct prefer_hi; [exact Hhi|now apply Hlo].
Qed.

Lemma shortest_from_positive fuel m e p q n k :
  0 < fst (shortest_from fuel (S754_finite false m e) p q n k).
Proof.
  revert k; induction fuel as [|f IH]; intros k; cbn [shortest_from].
  - cbn [fst]. lia.
  - destruct (shortest_at _ p q n k) as [[c e10]|] eqn:H; [|apply IH].
    cbn [fst]. eapply shortest_at_positive; eassumption.
Qed.

Lemma forallb_firstn {A} (f : A -> bool) n l :
  forallb f l = true -> forallb f (firstn n l) = true.
Proof.
  revert l; induction n as [|n IH]; intros [|x l] H; try reflexivity.
  cbn [firstn forallb] in *. apply andb_true_iff in H as [Hx Hl].
  now rewrite Hx, IH.
Qed.

Lemma forallb_skipn {A} (f : A -> bool) n l :
  forallb f l = true -> forallb f (skipn n l) = true.
Proof.
  revert l; induction n as [|n IH]; intros [|x l] H; try reflexivity;
    [exact H|].
  cbn [skipn forallb] in *. apply andb_true_iff in H as [_ Hl]. now apply IH.
Qed.

Lemma forallb_repeat {A} (f : A -> bool) x n :
  f x = true -> forallb f (repeat x n) = true.
Proof. intros H. induction n; cbn; [reflexivity|now rewrite H]. Qed.

(** The digits and the exponent, formatted. *)
Lemma format_number_literal (d : code_unit) (r : jsstring) (n : Z) :
  forallb is_digit (d :: r) = true -> (d =? 48) = false ->
  exists ip fp ex,
    format_number (d :: r) n = decimal_literal false ip fp ex
    /\ int_part_ok ip /\ forallb is_digit fp = true /\ exponent_ok ex.
Proof.
  intros Hds Hd. unfold format_number.
  set (ds := d :: r) in *.
  set (k := Z.of_nat (List.length ds)).
  assert (Hk : (k = Z.of_nat (S (List.length r)))%Z) by reflexivity.
  destruct ((k <=? n)%Z && (n <=? 21)%Z) eqn:H1.
  { (* digits, then zeros *)
    exists (ds ++ repeat 48 (Z.to_nat (n - k))), [], None.
    split; [unfold decimal_literal; cbn [app]; now rewrite !app_nil_r|].
    split; [|split; [reflexivity|exact I]].
    split.
    - rewrite forallb_app, Hds. now rewrite forallb_repeat.
    - exists d, (r ++ repeat 48 (Z.to_nat (n - k))). split; [reflexivity|].
      now right. }
  destruct ((0 <? n)%Z && (n <=? 21)%Z) eqn:H2.
  { (* a point inside the digits *)
    apply andb_true_iff in H2 as [Hpos H21].
    rewrite H21, andb_true_r in H1.
    apply Z.ltb_lt in Hpos. apply Z.leb_gt in H1.
    assert (Hn : exists n', Z.to_nat n = S n' /\ (n' < List.length r)%nat).
    { exists (Nat.pred (Z.to_nat n)). split; lia. }
    destruct Hn as [n' [Hn Hn']].
    exists (firstn (Z.to_nat n) ds), (skipn (Z.to_nat n) ds), None.
    split.
    - unfold decimal_literal. cbn [app]. rewrite app_nil_r.
      destruct (skipn (Z.to_nat n) ds) eqn:Hskip; [|reflexivity].
      exfalso. apply (f_equal (@List.length _)) in Hskip.
      rewrite length_skipn, Hn in Hskip. subst ds. cbn [List.length] in Hskip.
      lia.
    - split; [|split; [now apply forallb_skipn|exact I]].
      split; [now apply forallb_firstn|].
      rewrite Hn. subst ds. cbn [firstn]. exists d, (firstn n' r).
      split; [reflexivity|now right]. }
  destruct ((-6 <? n)%Z && (n <=? 0)%Z) eqn:H3.
  { (* zero, a point, zeros, the digits *)
    exists [48], (repeat 48 (Z.to_nat (- n)) ++ ds), None.
    split.
    - unfold decimal_literal. cbn [app]. rewrite app_nil_r.
      destruct (repeat 48 (Z.to_nat (- n)) ++ ds) eqn:Happ; [|reflexivity].
      exfalso. apply app_eq_nil in Happ as [_ Hnil]. discriminate Hnil.
    - split; [|split; [|exact I]].
      + split; [reflexivity|]. exists 48, []. split; [reflexivity|now left].
      + rewrite forallb_app. apply andb_true_iff.
        split; [now apply forallb_repeat|exact Hds]. }
  (* an exponent *)
  set (e := (n - 1)%Z).
  set (eneg := (e <? 0)%Z).
  set (eds := digits_of_N (Z.to_N (Z.abs e))).
  assert (Hex : exponent_ok (Some (eneg, eds))).
  { split; [apply digits_of_N_digits|].
    destruct (digits_of_N_head (Z.to_N (Z.abs e))) as [d0 [r0 [Heq _]]].
    subst eds. rewrite Heq. discriminate. }
  assert (Hip : int_part_ok [d]).
  { subst ds. cbn [forallb] in Hds. apply andb_true_iff in Hds as [Hdd _].
    split; [cbn [forallb]; now rewrite Hdd|].
    exists d, []. split; [reflexivity|now left]. }
  assert (Hr : forallb is_digit r = true).
  { subst ds. cbn [forallb] in Hds. now apply andb_true_iff in Hds as [_ H]. }
  subst ds. destruct r as [|c r'].
  - exists [d], [], (Some (eneg, eds)).
    split; [unfold decimal_literal; destruct eneg; reflexivity|].
    split; [exact Hip|]. split; [reflexivity|exact Hex].
  - exists [d], (c :: r'), (Some (eneg, eds)).
    split; [unfold decimal_literal; destruct eneg; reflexivity|].
    split; [exact Hip|]. split; [exact Hr|exact Hex].
Qed.

Lemma Number_toString_literal (x : number) :
  is_finite x = true ->
  exists neg ip fp ex,
    Number_toString x = decimal_literal neg ip fp ex
    /\ int_part_ok ip /\ forallb is_digit fp = true /\ exponent_ok ex.
Proof.
  destruct x as [s|s| |s m e]; try discriminate; intros _.
  - exists false, [48], [], None. split; [reflexivity|].
    split; [|split; [reflexivity|exact I]].
    split; [reflexivity|]. exists 48, []. split; [reflexivity|now left].
  - unfold Number_toString. destruct (ratio_of m e) as [p q].
    pose proof (shortest_from_positive 17 m e p q (exp10_of p q) 1) as Hc.
    destruct (shortest_from 17 (S754_finite false m e) p q
                            (exp10_of p q) 1) as [c e10].
    cbn [fst] in Hc.
    destruct (digits_of_N_nonzero c Hc) as [d [r [Hall Hd]]].
    destruct (@drop_trailing_zeros _ d r Hall Hd (digits_of_N_digits c))
      as [r' [Hds Hdigits]].
    rewrite Hds.
    destruct (@format_number_literal d r'
                (Z.of_nat (List.length (digits_of_N c)) + e10)%Z Hdigits Hd)
      as [ip [fp [ex [Hfmt Hok]]]].
    exists s, ip, fp, ex. split; [|exact Hok].
    rewrite Hfmt. unfold decimal_literal. now destruct s.
Qed.

(** ** Lexing what was written *)

(** What may follow a value: nothing, or a code unit that ends a pending
    number. *)
Definition delimited (rest : jsstring) : Prop :=
  match rest with
  | [] => True
  | c :: _ => is_number_unit c = false
  end.

(** The text [s] lexes to the tokens [ts], whatever follows. *)
Definition lexes (s : jsstring) (ts : list token) : Prop :=
  forall rest ts',
    delimited rest -> lex_from LDefault rest = Some ts' ->
    lex_from LDefault (s ++ rest) = Some (ts ++ ts').

Lemma lex_from_silent st c st' s :
  lex_step st c = Some (st', []) -> lex_from st (c :: s) = lex_from st' s.
Proof.
  intros H. cbn [lex_from]. rewrite H. now destruct (lex_from st' s).
Qed.

Lemma lexes_app s1 ts1 s2 ts2 :
  lexes s1 ts1 -> lexes s2 ts2 ->
  (forall rest, delimited (s2 ++ rest)) ->
  lexes (s1 ++ s2) (ts1 ++ ts2).
Proof.
  intros H1 H2 Hd rest ts' Hrest Hlex.
  rewrite <- !app_assoc. apply H1; [apply Hd|]. now apply H2.
Qed.

(** One punctuation mark. *)
Lemma lexes_mark c t :
  lex_default c = Some (LDefault, [t]) -> lexes [c] [t].
Proof.
  intros H rest ts' _ Hlex. cbn [app lex_from lex_step].
  now rewrite H, Hlex.
Qed.

Lemma lexes_null : lexes (js "null") [TNull].
Proof. intros rest ts' _ Hlex. cbn. now rewrite Hlex. Qed.

Lemma lexes_true : lexes (js "true") [TTrue].
Proof. intros rest ts' _ Hlex. cbn. now rewrite Hlex. Qed.

Lemma lexes_false : lexes (js "false") [TFalse].
Proof. intros rest ts' _ Hlex. cbn. now rewrite Hlex. Qed.

(** *** Numbers *)

Lemma lex_number_units acc cs rest :
  forallb is_number_unit cs = true ->
  lex_from (LNumber acc) (cs ++ rest) = lex_from (LNumber (rev cs ++ acc)) rest.
Proof.
  revert acc; induction cs as [|c cs IH]; intros acc H; [reflexivity|].
  cbn [forallb] in H. apply andb_true_iff in H as [Hc Hcs].
  cbn [app]. rewrite (@lex_from_silent _ c (LNumber (c :: acc))).
  - rewrite (IH _ Hcs). cbn [rev]. now rewrite <- app_assoc.
  - cbn [lex_step]. now rewrite Hc.
Qed.

Lemma lex_number_end acc x rest ts' :
  number_of_literal (rev acc) = Some x ->
  delimited rest -> lex_from LDefault rest = Some ts' ->
  lex_from (LNumber acc) rest = Some (TNumber x :: ts').
Proof.
  intros Hx Hd Hlex. destruct rest as [|c r].
  - cbn in Hlex |- *. rewrite Hx. now inversion Hlex.
  - cbn [delimited] in Hd. cbn [lex_from lex_step] in Hlex |- *.
    rewrite Hd, Hx.
    destruct (lex_default c) as [[st' ts]|]; [|discriminate].
    destruct (lex_from st' r); [|discriminate].
    now inversion Hlex.
Qed.

Lemma lex_default_number c :
  (c =? 45) || is_digit c = true ->
  lex_default c = Some (LNumber [c], []).
Proof.
  intros H. unfold lex_default.
  assert (Hc : c = 45 \/ (48 <= c /\ c <= 57)).
  { apply orb_true_iff in H as [H|H]; [left; now apply N.eqb_eq|right].
    unfold is_digit in H. apply andb_true_iff in H as [H1 H2].
    split; now apply N.leb_le. }
  assert (Hne : forall k, k < 45 \/ 57 < k -> (c =? k) = false).
  { intros k Hk. apply N.eqb_neq. lia. }
  unfold is_json_space.
  rewrite !Hne by lia. cbn [orb]. now rewrite H.
Qed.

Lemma lexes_number s x :
  number_of_literal s = Some x ->
  forallb is_number_unit s = true ->
  (exists c r, s = c :: r /\ (c =? 45) || is_digit c = true) ->
  lexes s [TNumber x].
Proof.
  intros Hx Hunits [c [r [-> Hc]]] rest ts' Hd Hlex.
  cbn [forallb] in Hunits. apply andb_true_iff in Hunits as [_ Hr].
  cbn [app].
  rewrite (@lex_from_silent _ c (LNumber [c]))
    by (cbn [lex_step]; now apply lex_default_number).
  rewrite (lex_number_units _ _ _ Hr).
  apply lex_number_end; [|assumption|assumption].
  rewrite rev_app_distr, rev_involutive. exact Hx.
Qed.

Lemma is_digit_number_unit c : is_digit c = true -> is_number_unit c = true.
Proof. intros H. unfold is_number_unit. now rewrite H. Qed.

Lemma digits_number_units ds :
  forallb is_digit ds = true -> forallb is_number_unit ds = true.
Proof.
  induction ds as [|d ds IH]; [reflexivity|]. cbn [forallb]. intros H.
  apply andb_true_iff in H as [Hd Hds].
  now rewrite (is_digit_number_unit _ Hd), IH.
Qed.

Lemma literal_units neg ip fp ex :
  int_part_ok ip -> forallb is_digit fp = true -> exponent_ok ex ->
  forallb is_number_unit (decimal_literal neg ip fp ex) = true
  /\ exists c r, decimal_literal neg ip fp ex = c :: r
                 /\ (c =? 45) || is_digit c = true.
Proof.
  intros [Hip [d [r [Hipe _]]]] Hfp Hex. split.
  - unfold decimal_literal. rewrite !forallb_app.
    rewrite (digits_number_units _ Hip).
    assert (H1 : forallb is_number_unit (if neg then [45] else []) = true)
      by now destruct neg.
    assert (H2 : forallb is_number_unit
                   match fp with [] => [] | _ => 46 :: fp end = true).
    { destruct fp; [reflexivity|].
      change (forallb is_number_unit (46 :: c :: fp))
        with (forallb is_number_unit (c :: fp)).
      now apply digits_number_units. }
    assert (H3 : forallb is_number_unit
                   match ex with
                   | None => []
                   | Some (eneg, ds) => 101 :: (if eneg then 45 else 43) :: ds
                   end = true).
    { destruct ex as [[eneg ds]|]; [|reflexivity].
      destruct Hex as [Hds _]. apply digits_number_units in Hds.
      destruct eneg; cbn [forallb]; now rewrite Hds. }
    repeat (apply andb_true_iff; split); [exact H1|reflexivity|exact H2|exact H3].
  - unfold decimal_literal. destruct neg.
    + eexists; eexists. split; reflexivity.
    + rewrite Hipe in Hip |- *. cbn [forallb] in Hip.
      apply andb_true_iff in Hip as [Hd _].
      exists d. eexists. split; [reflexivity|]. rewrite Hd.
      apply orb_true_r.
Qed.

(** A finite Number is written as a number literal. *)
Lemma lexes_Number (x : number) :
  is_finite x = true -> exists y, lexes (Number_toString x) [TNumber y].
Proof.
  intros Hx.
  destruct (Number_toString_literal x Hx)
    as [neg [ip [fp [ex [-> [Hip [Hfp Hex]]]]]]].
  destruct (literal_accepted neg _ _ _ Hip Hfp Hex) as [y Hy].
  destruct (literal_units neg _ _ _ Hip Hfp Hex) as [Hunits Hhead].
  exists y. now apply lexes_number.
Qed.

(** *** Strings *)

Lemma hex_value_digit d : d < 16 -> hex_value (hex_digit d) = Some d.
Proof.
  intros H. destruct d as [|p]; [reflexivity|].
  do 4 (destruct p as [p|p|]; try reflexivity); exfalso; lia.
Qed.

Lemma lex_string_raw acc c rest :
  (c =? 34) = false -> (c =? 92) = false -> (c <? 32) = false ->
  lex_from (LString acc) (c :: rest) = lex_from (LString (c :: acc)) rest.
Proof.
  intros H1 H2 H3. apply lex_from_silent. cbn [lex_step].
  now rewrite H1, H2, H3.
Qed.

Lemma lex_string_escape acc e x rest :
  lex_step (LEscape acc) e = Some (LString (x :: acc), []) ->
  lex_from (LString acc) (92 :: e :: rest) = lex_from (LString (x :: acc)) rest.
Proof.
  intros H.
  rewrite (lex_from_silent (LString acc) 92 (LEscape acc)) by reflexivity.
  now apply lex_from_silent.
Qed.

Lemma lex_unicode_step acc h d :
  d < 16 ->
  lex_step (LUnicode acc h) (hex_digit d)
  = Some (if Nat.eqb (List.length h) 3
          then LString (hex4 (h ++ [d]) :: acc)
          else LUnicode acc (h ++ [d]), []).
Proof.
  intros H. cbn [lex_step]. rewrite (hex_value_digit d H).
  now destruct (Nat.eqb (List.length h) 3).
Qed.

Lemma lex_string_unicode acc c :
  exists x, forall rest,
    lex_from (LString acc) (unicode_escape c ++ rest)
    = lex_from (LString (x :: acc)) rest.
Proof.
  assert (Hm : forall d, d mod 16 < 16)
    by (intros d; apply N.mod_upper_bound; discriminate).
  unfold unicode_escape.
  generalize (Hm (c / 4096)) (Hm (c / 256)) (Hm (c / 16)) (Hm c).
  generalize (c / 4096 mod 16) (c / 256 mod 16) (c / 16 mod 16) (c mod 16).
  intros d1 d2 d3 d4 H1 H2 H3 H4.
  exists (hex4 [d1; d2; d3; d4]). intros rest. cbn [app].
  rewrite (lex_from_silent (LString acc) 92 (LEscape acc)) by reflexivity.
  rewrite (lex_from_silent (LEscape acc) 117 (LUnicode acc [])) by reflexivity.
  rewrite (lex_from_silent _ _ _ _ (lex_unicode_step acc [] d1 H1)).
  cbn [List.length Nat.eqb app].
  rewrite (lex_from_silent _ _ _ _ (lex_unicode_step acc [d1] d2 H2)).
  cbn [List.length Nat.eqb app].
  rewrite (lex_from_silent _ _ _ _ (lex_unicode_step acc [d1; d2] d3 H3)).
  cbn [List.length Nat.eqb app].
  rewrite (lex_from_silent _ _ _ _ (lex_unicode_step acc [d1; d2; d3] d4 H4)).
  reflexivity.
Qed.

Lemma lex_quote_unit acc c :
  exists x, forall rest,
    lex_from (LString acc) (quote_unit c ++ rest)
    = lex_from (LString (x :: acc)) rest.
Proof.
  unfold quote_unit.
  destruct (c =? 8);
    [exists 8; intros rest; now apply lex_string_escape|].
  destruct (c =? 9);
    [exists 9; intros rest; now apply lex_string_escape|].
  destruct (c =? 10);
    [exists 10; intros rest; now apply lex_string_escape|].
  destruct (c =? 12);
    [exists 12; intros rest; now apply lex_string_escape|].
  destruct (c =? 13);
    [exists 13; intros rest; now apply lex_string_escape|].
  destruct (c =? 34) eqn:E34;
    [exists 34; intros rest; now apply lex_string_escape|].
  destruct (c =? 92) eqn:E92;
    [exists 92; intros rest; now apply lex_string_escape|].
  destruct (c <? 32) eqn:E32; [apply lex_string_unicode|].
  exists c. intros rest. now apply lex_string_raw.
Qed.

Lemma surrogate_raw c :
  is_high_surrogate c || is_low_surrogate c = true ->
  (c =? 34) = false /\ (c =? 92) = false /\ (c <? 32) = false.
Proof.
  intros H.
  assert (Hc : 55296 <= c).
  { unfold is_high_surrogate, is_low_surrogate in H.
    apply orb_true_iff in H as [H|H]; apply andb_true_iff in H as [H _];
      apply N.leb_le in H; lia. }
  repeat split; [apply N.eqb_neq; lia|apply N.eqb_neq; lia|apply N.ltb_ge; lia].
Qed.

(** The body of a quoted string is read back as the body of a string. *)
Lemma lex_quote_units n :
  forall s, (List.length s <= n)%nat ->
  forall acc, exists acc', forall rest,
    lex_from (LString acc) (quote_units s ++ rest)
    = lex_from (LString acc') rest.
Proof.
  induction n as [|n IH]; intros s Hn acc.
  - destruct s; [|cbn [List.length] in Hn; lia]. now exists acc.
  - destruct s as [|c s']; [now exists acc|].
    cbn [List.length] in Hn. cbn [quote_units].
    destruct (is_high_surrogate c) eqn:Hh.
    + destruct s' as [|d s''].
      * destruct (lex_string_unicode acc c) as [x Hx]. now exists (x :: acc).
      * destruct (is_low_surrogate d) eqn:Hl.
        -- destruct (surrogate_raw c) as [C1 [C2 C3]]; [now rewrite Hh|].
           destruct (surrogate_raw d) as [D1 [D2 D3]];
             [rewrite Hl; apply orb_true_r|].
           destruct (IH s'') with (acc := d :: c :: acc) as [acc' Hacc].
           { cbn [List.length] in Hn. lia. }
           exists acc'. intros rest. cbn [app].
           rewrite (lex_string_raw acc c _ C1 C2 C3).
           rewrite (lex_string_raw (c :: acc) d _ D1 D2 D3).
           apply Hacc.
        -- destruct (lex_string_unicode acc c) as [x Hx].
           destruct (IH (d :: s'')) with (acc := x :: acc) as [acc' Hacc];
             [lia|].
           exists acc'. intros rest. rewrite <- app_assoc, Hx. apply Hacc.
    + assert (Hone : exists x, forall rest,
                 lex_from (LString acc)
                   ((if is_low_surrogate c then unicode_escape c
                     else quote_unit c) ++ rest)
                 = lex_from (LString (x :: acc)) rest).
      { destruct (is_low_surrogate c);
          [apply lex_string_unicode|apply lex_quote_unit]. }
      destruct Hone as [x Hx].
      destruct (IH s') with (acc := x :: acc) as [acc' Hacc]; [lia|].
      exists acc'. intros rest.
      specialize (Hx (quote_units s' ++ rest)).
      destruct (is_low_surrogate c); rewrite <- app_assoc, Hx; apply Hacc.
Qed.

Lemma lexes_quote s : exists s', lexes (quote s) [TString s'].
Proof.
  destruct (lex_quote_units (List.length s) s (le_n _) []) as [acc Hacc].
  exists (rev acc). intros rest ts' _ Hlex.
  unfold quote, dq. rewrite <- !app_assoc. cbn [app].
  rewrite (lex_from_silent LDefault 34 (LString [])) by reflexivity.
  rewrite Hacc. cbn [lex_from lex_step].
  change (34 =? 34) with true. cbv iota. now rewrite Hlex.
Qed.

(** ** Parsing what was lexed *)

(** The tokens [ts] are one value, whatever follows, with fuel for each. *)
Definition parsed (ts : list token) : Prop :=
  forall rest fuel,
    (List.length ts <= fuel)%nat ->
    exists v, parse_value fuel (ts ++ rest) = Some (v, rest).

(** A text that [JSON.parse] takes as one value. *)
Definition accepted (s : jsstring) : Prop :=
  exists ts, lexes s ts /\ parsed ts.

Definition opens (ts : list token) : Prop :=
  match ts with
  | [] | TRBracket :: _ | TRBrace :: _ => False
  | _ => True
  end.

Definition atom (t : token) : Prop :=
  match t with
  | TNull | TTrue | TFalse | TNumber _ | TString _ => True
  | _ => False
  end.

Lemma parsed_atom t : atom t -> parsed [t].
Proof.
  intros Ht rest [|f] H; [cbn [List.length] in H; lia|].
  destruct t; try elim Ht; eexists; reflexivity.
Qed.

Lemma parsed_opens ts : parsed ts -> opens ts.
Proof.
  intros H. destruct (H [] (List.length ts) (le_n _)) as [v Hv].
  destruct ts as [|t r]; [discriminate|].
  destruct t; try exact I; discriminate.
Qed.

(** Token lists with a comma between them. *)
Fixpoint separated (tss : list (list token)) : list token :=
  match tss with
  | [] => []
  | [ts] => ts
  | ts :: tss' => ts ++ TComma :: separated tss'
  end.

Lemma parse_elements_ok tss :
  Forall parsed tss -> tss <> [] ->
  forall rest fuel acc,
    (List.length (separated tss) < fuel)%nat ->
    exists v,
      parse_elements fuel (separated tss ++ TRBracket :: rest) acc
      = Some (v, rest).
Proof.
  induction 1 as [|ts tss' Hts Htss IH]; [congruence|]. intros _ rest fuel acc.
  destruct fuel as [|f]; [lia|].
  destruct tss' as [|ts2 tss''].
  - cbn [separated]. intros Hf.
    destruct (Hts (TRBracket :: rest) f) as [v Hv]; [lia|].
    cbn [parse_elements]. rewrite Hv. eexists; reflexivity.
  - change (separated (ts :: ts2 :: tss''))
      with (ts ++ TComma :: separated (ts2 :: tss'')).
    rewrite length_app. cbn [List.length]. intros Hf.
    rewrite <- app_assoc. cbn [app].
    destruct (Hts (TComma :: separated (ts2 :: tss'') ++ TRBracket :: rest) f)
      as [v Hv]; [lia|].
    cbn [parse_elements]. rewrite Hv.
    apply IH; [discriminate|lia].
Qed.

(** One member of an object: a name, a colon and a value. *)
Definition member (ts : list token) : Prop :=
  exists k vs, ts = TString k :: TColon :: vs /\ parsed vs.

Lemma parse_members_ok tss :
  Forall member tss -> tss <> [] ->
  forall rest fuel acc,
    (List.length (separated tss) < fuel)%nat ->
    exists v,
      parse_members fuel (separated tss ++ TRBrace :: rest) acc
      = Some (v, rest).
Proof.
  induction 1 as [|ts tss' Hts Htss IH]; [congruence|]. intros _ rest fuel acc.
  destruct Hts as [k [vs [-> Hvs]]].
  destruct fuel as [|f]; [lia|].
  destruct tss' as [|ts2 tss''].
  - cbn [separated List.length]. intros Hf.
    destruct (Hvs (TRBrace :: rest) f) as [v Hv]; [lia|].
    cbn [parse_members app]. rewrite Hv. eexists; reflexivity.
  - change (separated ((TString k :: TColon :: vs) :: ts2 :: tss''))
      with (TString k :: TColon
            :: vs ++ TComma :: separated (ts2 :: tss'')).
    cbn [List.length]. rewrite length_app. cbn [List.length]. intros Hf.
    cbn [app]. rewrite <- app_assoc. cbn [app].
    destruct (Hvs (TComma :: separated (ts2 :: tss'') ++ TRBrace :: rest) f)
      as [v Hv]; [lia|].
    cbn [parse_members]. rewrite Hv.
    apply IH; [discriminate|lia].
Qed.

Lemma separated_head ts tss :
  exists r, forall rest,
    separated (ts :: tss) ++ rest = ts ++ r ++ rest.
Proof.
  destruct tss as [|ts2 tss'].
  - exists []. reflexivity.
  - exists (TComma :: separated (ts2 :: tss')). intros rest.
    change (separated (ts :: ts2 :: tss'))
      with (ts ++ TComma :: separated (ts2 :: tss')).
    now rewrite <- app_assoc.
Qed.

Lemma parsed_array tss :
  Forall parsed tss -> tss <> [] ->
  parsed (TLBracket :: separated tss ++ [TRBracket]).
Proof.
  intros Htss Hne rest fuel Hf.
  cbn [List.length] in Hf. rewrite length_app in Hf. cbn [List.length] in Hf.
  destruct fuel as [|f]; [lia|].
  cbn [app]. rewrite <- app_assoc. cbn [app].
  destruct (parse_elements_ok tss Htss Hne rest f []) as [v Hv]; [lia|].
  exists v. rewrite <- Hv.
  destruct tss as [|ts tss']; [congruence|].
  destruct (separated_head ts tss') as [r Hr]. rewrite Hr.
  apply Forall_inv in Htss. apply parsed_opens in Htss.
  destruct ts as [|t ts']; [elim Htss|].
  destruct t; try reflexivity; elim Htss.
Qed.

Lemma parsed_object tss :
  Forall member tss -> tss <> [] ->
  parsed (TLBrace :: separated tss ++ [TRBrace]).
Proof.
  intros Htss Hne rest fuel Hf.
  cbn [List.length] in Hf. rewrite length_app in Hf. cbn [List.length] in Hf.
  destruct fuel as [|f]; [lia|].
  cbn [app]. rewrite <- app_assoc. cbn [app].
  destruct (parse_members_ok tss Htss Hne rest f []) as [v Hv]; [lia|].
  exists v. rewrite <- Hv.
  destruct tss as [|ts tss']; [congruence|].
  destruct (separated_head ts tss') as [r Hr]. rewrite Hr.
  apply Forall_inv in Htss. destruct Htss as [k [vs [-> _]]].
  reflexivity.
Qed.

Lemma parsed_empty t1 t2 :
  (t1 = TLBracket /\ t2 = TRBracket) \/ (t1 = TLBrace /\ t2 = TRBrace) ->
  parsed [t1; t2].
Proof.
  intros H rest [|f] Hf; [cbn [List.length] in Hf; lia|].
  destruct H as [[-> ->]|[-> ->]]; eexists; reflexivity.
Qed.

(** ** Lexing arrays and objects *)

Lemma lexes_after_mark c t s ts :
  lex_default c = Some (LDefault, [t]) -> lexes s ts ->
  lexes (c :: s) (t :: ts).
Proof.
  intros Hc Hs rest ts' Hd Hlex. cbn [app lex_from lex_step].
  now rewrite Hc, (Hs rest ts' Hd Hlex).
Qed.

Lemma lex_from_mark c t s ts :
  lex_default c = Some (LDefault, [t]) -> lex_from LDefault s = Some ts ->
  lex_from LDefault (c :: s) = Some (t :: ts).
Proof. intros Hc Hs. cbn [lex_from lex_step]. now rewrite Hc, Hs. Qed.

(** Texts joined by commas and closed by a mark. *)
Lemma lex_join texts tss :
  Forall2 lexes texts tss -> texts <> [] ->
  forall c t rest ts',
    lex_default c = Some (LDefault, [t]) -> is_number_unit c = false ->
    lex_from LDefault rest = Some ts' ->
    lex_from LDefault (join [44] texts ++ c :: rest)
    = Some (separated tss ++ t :: ts').
Proof.
  induction 1 as [|x ts l tss' Hx Hl IH]; [congruence|].
  intros _ c t rest ts' Hc Hunit Hlex.
  assert (Hclose : lex_from LDefault (c :: rest) = Some (t :: ts'))
    by now apply lex_from_mark.
  destruct Hl as [|y ts2 l' tss'' Hy Hl'].
  - cbn [join separated]. now apply Hx.
  - change (join [44] (x :: y :: l'))
      with (x ++ [44] ++ join [44] (y :: l')).
    change (separated (ts :: ts2 :: tss''))
      with (ts ++ TComma :: separated (ts2 :: tss'')).
    rewrite <- !app_assoc. cbn [app].
    apply Hx; [reflexivity|].
    apply lex_from_mark; [reflexivity|].
    now apply IH.
Qed.

Lemma lexes_enclosed texts tss o c topen tclose :
  Forall2 lexes texts tss ->
  lex_default o = Some (LDefault, [topen]) ->
  lex_default c = Some (LDefault, [tclose]) -> is_number_unit c = false ->
  lexes (o :: join [44] texts ++ [c])
        (topen :: separated tss ++ [tclose]).
Proof.
  intros H Ho Hc Hunit rest ts' _ Hlex.
  cbn [app]. rewrite <- !app_assoc. cbn [app lex_from lex_step]. rewrite Ho.
  destruct H as [|x ts l tss' Hx Hl].
  - cbn [join separated app lex_from lex_step]. now rewrite Hc, Hlex.
  - rewrite (lex_join (x :: l) (ts :: tss') (Forall2_cons _ _ Hx Hl)
               ltac:(discriminate) c tclose rest ts' Hc Hunit Hlex).
    reflexivity.
Qed.

Lemma accepted_tokens texts :
  Forall accepted texts ->
  exists tss, Forall2 lexes texts tss /\ Forall parsed tss.
Proof.
  induction 1 as [|x l [ts [Hl Hp]] _ [tss [IH1 IH2]]].
  - exists []. split; constructor.
  - exists (ts :: tss). split; constructor; assumption.
Qed.

Lemma accepted_array texts :
  Forall accepted texts -> accepted (91 :: join [44] texts ++ [93]).
Proof.
  intros H. destruct (accepted_tokens texts H) as [tss [Hl Hp]].
  exists (TLBracket :: separated tss ++ [TRBracket]). split.
  - now apply lexes_enclosed.
  - destruct tss as [|ts tss'].
    + apply parsed_empty. now left.
    + apply parsed_array; [assumption|discriminate].
Qed.

(** ** Everything [JSON.stringify] writes is accepted *)

Definition element_text (x : value) : jsstring :=
  match stringify x with
  | Some t => t
  | None => js "null"
  end.

Fixpoint member_texts (o : object) : list (jsstring * jsstring) :=
  match o with
  | [] => []
  | (k, x) :: o' =>
    match stringify x with
    | Some t => (k, t) :: member_texts o'
    | None => member_texts o'
    end
  end.

Definition member_text (kt : jsstring * jsstring) : jsstring :=
  quote (fst kt) ++ 58 :: snd kt.

Lemma stringify_array l :
  stringify (VArr l) = Some (91 :: join [44] (map element_text l) ++ [93]).
Proof.
  cbn [stringify].
  match goal with
  | |- Some (_ ++ join _ (?f l) ++ _) = _ =>
    assert (E : forall l, f l = map element_text l)
      by (clear; induction l as [|x l IH]; [reflexivity|];
          cbn [map]; now rewrite <- IH);
    rewrite E
  end.
  reflexivity.
Qed.

Lemma stringify_object o :
  stringify (VObj o)
  = Some (123 :: join [44] (map member_text (member_texts o)) ++ [125]).
Proof.
  cbn [stringify].
  match goal with
  | |- Some (_ ++ join _ (?f o) ++ _) = _ =>
    assert (E : forall o, f o = map member_text (member_texts o))
      by (clear; induction o as [|[k x] o IH]; [reflexivity|];
          cbn [member_texts]; destruct (stringify x);
          [cbn [map]; now rewrite <- IH|exact IH]);
    rewrite E
  end.
  reflexivity.
Qed.

Lemma accepted_member k t :
  accepted t -> exists ts, lexes (member_text (k, t)) ts /\ member ts.
Proof.
  intros [vs [Hl Hp]]. destruct (lexes_quote k) as [k' Hk].
  exists ([TString k'] ++ TColon :: vs). split.
  - unfold member_text. cbn [fst snd].
    apply lexes_app; [assumption| |reflexivity].
    now apply lexes_after_mark.
  - now exists k', vs.
Qed.

Lemma accepted_object kts :
  Forall (fun kt => accepted (snd kt)) kts ->
  accepted (123 :: join [44] (map member_text kts) ++ [125]).
Proof.
  intros H.
  assert (Htss : exists tss,
             Forall2 lexes (map member_text kts) tss /\ Forall member tss).
  { induction H as [|[k t] l Ht _ [tss [IH1 IH2]]].
    - exists []. split; constructor.
    - destruct (accepted_member k t Ht) as [ts [Hl Hm]].
      exists (ts :: tss). split; constructor; assumption. }
  destruct Htss as [tss [Hl Hm]].
  exists (TLBrace :: separated tss ++ [TRBrace]). split.
  - now apply lexes_enclosed.
  - destruct tss as [|ts tss'].
    + apply parsed_empty. now right.
    + apply parsed_object; [assumption|discriminate].
Qed.

Lemma accepted_null : accepted (js "null").
Proof.
  exists [TNull]. split; [exact lexes_null|now apply parsed_atom].
Qed.

(** Whatever [JSON.stringify] writes, [JSON.parse] takes. *)
Theorem stringify_accepted v : forall s, stringify v = Some s -> accepted s.
Proof.
  induction v as [| |b|n|s0|l IH|o IH] using value_ind; intros s H.
  - discriminate.
  - injection H as <-. exact accepted_null.
  - destruct b; injection H as <-.
    + exists [TTrue]. split; [exact lexes_true|now apply parsed_atom].
    + exists [TFalse]. split; [exact lexes_false|now apply parsed_atom].
  - cbn [stringify] in H. injection H as <-.
    destruct (is_finite n) eqn:Hn; [|exact accepted_null].
    destruct (lexes_Number n Hn) as [y Hy].
    exists [TNumber y]. split; [exact Hy|now apply parsed_atom].
  - cbn [stringify] in H. injection H as <-.
    destruct (lexes_quote s0) as [s' Hs'].
    exists [TString s']. split; [exact Hs'|now apply parsed_atom].
  - rewrite stringify_array in H. injection H as <-.
    apply accepted_array.
    induction IH as [|x l' Hx _ IH']; constructor; [|exact IH'].
    unfold element_text. destruct (stringify x) as [t|] eqn:E.
    + now apply Hx.
    + exact accepted_null.
  - rewrite stringify_object in H. injection H as <-.
    apply accepted_object.
    induction IH as [|[k x] o' Hx _ IH']; [constructor|].
    cbn [member_texts]. cbn [snd] in Hx.
    destruct (stringify x) as [t|] eqn:E; [|exact IH'].
    constructor; [|exact IH']. now apply Hx.
Qed.

Theorem accepted_parse s : accepted s -> exists v, parse s = Some v.
Proof.
  intros [ts [Hl Hp]]. unfold parse, lex.
  specialize (Hl [] [] I eq_refl). rewrite !app_nil_r in Hl. rewrite Hl.
  destruct (Hp [] (2 * List.length ts + 2)%nat) as [v Hv]; [lia|].
  rewrite app_nil_r in Hv. rewrite Hv. now exists v.
Qed.

(** An object always has a JSON text, and the text parses. *)
Corollary stringify_object_parses (o : object) :
  exists s v, stringify (VObj o) = Some s /\ parse s = Some v.
Proof.
  destruct (stringify (VObj o)) as [s|] eqn:E; [|discriminate].
  destruct (accepted_parse s (stringify_accepted (VObj o) s E)) as [v Hv].
  now exists s, v.
Qed.

Set Implicit Arguments.

End JSONValid.

(* ================================================================== *)
(** * The dispatcher: what is routed, and what comes back *)
(* ================================================================== *)

Module Dispatcher.

Import Bridge JSON StringFacts Transport ToolCall Adapter Shape Scenario
       Operations JSONValid Index.

Local Open Scope string_scope.
Local Open Scope list_scope.

(** ** Running a sequence *)

Lemma run_bind_return {A B} (m : M A) (k : A -> M B) w st a st' :
  m w st = (Return a, st') -> bind m k w st = k a w st'.
Proof. intros H. unfold bind. now rewrite H. Qed.

Lemma run_bind_throw {A B} (m : M A) (k : A -> M B) w st e st' :
  m w st = (Throw e, st') -> bind m k w st = (Throw e, st').
Proof. intros H. unfold bind. now rewrite H. Qed.

Lemma run_pair {A} (x : outcome A * state) : x = (fst x, snd x).
Proof. now destruct x. Qed.

(** A computation that leaves the state as it found it. *)
Definition stateless {A} (m : M A) : Prop :=
  forall w st, snd (m w st) = st.

Lemma stateless_ret {A} (a : A) : stateless (ret a).
Proof. intros w st. reflexivity. Qed.

Lemma stateless_throw {A} (e : error) : stateless (@throw A e).
Proof. intros w st. reflexivity. Qed.

Lemma stateless_lift {A} (r : error + A) : stateless (lift r).
Proof. destruct r; intros w st; reflexivity. Qed.

Lemma stateless_bind {A B} (m : M A) (k : A -> M B) :
  stateless m -> (forall a, stateless (k a)) -> stateless (bind m k).
Proof.
  intros Hm Hk w st. unfold bind. specialize (Hm w st).
  destruct (m w st) as [[a|e] st1]; cbn [snd] in Hm; subst st1.
  - apply Hk.
  - reflexivity.
Qed.

Lemma stateless_or_m a b : stateless a -> stateless b -> stateless (or_m a b).
Proof.
  intros Ha Hb. unfold or_m. apply stateless_bind; [exact Ha|].
  intros x. destruct (truthy x); [apply stateless_ret|exact Hb].
Qed.

Lemma stateless_JSON_parse text : stateless (JSON_parse text).
Proof.
  intros w st. unfold JSON_parse. now destruct (JSON.parse text).
Qed.

Ltac stateless :=
  repeat first
    [ apply stateless_ret
    | apply stateless_throw
    | apply stateless_lift
    | apply stateless_JSON_parse
    | apply stateless_or_m
    | apply stateless_bind; [|intros ?]
    | match goal with
      | |- stateless (if ?b then _ else _) => destruct b
      | |- stateless (match ?v with _ => _ end) => destruct v
      end ].

Lemma getEndpoint_stateless event : stateless (getEndpoint event).
Proof. unfold getEndpoint. stateless. Qed.

Lemma extractParams_stateless event : stateless (extractParams event).
Proof. unfold extractParams. stateless. Qed.

(** ** Reading the event *)

(** On an event that is an object (or anything but [undefined] and
    [null]), a property read does not throw. *)
Lemma get_defined event k :
  is_nullish event = false -> get event k = inr (get_opt event k).
Proof. destruct event; intros H; try discriminate H; reflexivity. Qed.

Lemma getEndpoint_defined event w st endpoint :
  fst (getEndpoint event w st) = Return endpoint -> is_nullish event = false.
Proof. destruct event; intros H; try reflexivity; discriminate H. Qed.

(** The test at the head of [handler]: a CORS preflight. *)
Definition is_preflight (event : value) : bool :=
  strict_eq (get_opt event "httpMethod") (str "OPTIONS")
  || strict_eq (chain (chain (get_opt event "requestContext") "http") "method")
               (str "OPTIONS").

(** The [stack] of the 500 body. *)
Definition stack_value (w : world) (e : error) : value :=
  match env_NODE_ENV w with
  | Some env => if str_eqb env (js "development")
                then VStr (stack_of w e) else VUndefined
  | None => VUndefined
  end.

(** The body of the 500 of [handler]. *)
Definition crash_body (w : world) (e : error) (timestamp : value) : value :=
  obj [("error", VStr (message e));
       ("stack", stack_value w e);
       ("timestamp", timestamp)].

(** The state after one more reading of the clock. *)
Definition tick (st : state) : state :=
  {| trace := trace st; ticks := S (ticks st) |}.

(** The timestamp read in the state [st]. *)
Definition stamp (w : world) (st : state) : value :=
  VStr (toISOString (clock w (ticks st))).

(** [handler], run, whatever the module: the preflight reply, or what the
    [try] block returns, or the 500 made of what it throws. *)
Lemma handler_with_run mcpBridge event w st :
  is_nullish event = false ->
  handler_with mcpBridge event w st
  = if is_preflight event
    then (Return (createResponse 200 (obj [("message", str "OK")])), st)
    else match route_with mcpBridge event w st with
         | (Return r, st') => (Return r, st')
         | (Throw e, st') =>
           (Return (createResponse 500 (crash_body w e (stamp w st'))),
            tick st')
         end.
Proof.
  intros Hev. unfold handler_with, http_method, is_preflight.
  pose proof (fun k => @get_defined event k Hev) as Hget. rewrite !Hget.
  cbv beta iota delta [lift bind ret try_catch ask].
  destruct (strict_eq (get_opt event "httpMethod") (str "OPTIONS")).
  - reflexivity.
  - cbn [orb].
    destruct (strict_eq
                (chain (chain (get_opt event "requestContext") "http")
                       "method") (str "OPTIONS")); [reflexivity|].
    destruct (route_with mcpBridge event w st) as [[r|e] st']; reflexivity.
Qed.

Lemma handler_run event w st :
  is_nullish event = false ->
  handler event w st
  = if is_preflight event
    then (Return (createResponse 200 (obj [("message", str "OK")])), st)
    else match route event w st with
         | (Return r, st') => (Return r, st')
         | (Throw e, st') =>
           (Return (createResponse 500 (crash_body w e (stamp w st'))),
            tick st')
         end.
Proof. apply handler_with_run. Qed.

(** The [path] and the [method] of the 404 body. *)
Definition path_of (event : value) : value :=
  or_else (get_opt event "path")
          (or_else (get_opt event "rawPath") (str "N/A")).

Definition method_of (event : value) : value :=
  or_else (get_opt event "httpMethod")
          (or_else (chain (chain (get_opt event "requestContext") "http")
                          "method")
                   (str "N/A")).

(** The [default] branch of the switch. *)
Lemma not_found_run event endpoint w st :
  is_nullish event = false ->
  (path <- or_m (lift (get event "path"))
             (or_m (lift (get event "rawPath")) (ret (str "N/A"))) ;;
   method <- or_m (lift (get event "httpMethod"))
               (or_m (http_method event) (ret (str "N/A"))) ;;
   timestamp <- now_iso ;;
   ret (createResponse 404 (not_found_body endpoint path method timestamp)))
    w st
  = (Return (createResponse 404
               (not_found_body endpoint (path_of event) (method_of event)
                               (stamp w st))),
     tick st).
Proof.
  intros Hev. unfold http_method, path_of, method_of, or_else.
  pose proof (fun k => @get_defined event k Hev) as Hget. rewrite !Hget.
  cbv beta iota delta [lift bind ret or_m now_iso Date_now].
  destruct (truthy (get_opt event "path"));
    destruct (truthy (get_opt event "rawPath"));
    destruct (truthy (get_opt event "httpMethod"));
    destruct (truthy (chain (chain (get_opt event "requestContext") "http")
                            "method"));
    reflexivity.
Qed.

(** ** What [route] returns *)

(** A response made by [createResponse] of an object, with one of the four
    statuses, and a timestamp unless it is a 400. *)
Definition stamped (r : response) : Prop :=
  exists sc b,
    r = createResponse sc (VObj b)
    /\ In sc [200; 400; 404; 500]%Z
    /\ (sc = 400%Z \/ exists t, obj_get b (js "timestamp") = VStr t).

Lemma exports_stamped op params w st res st' :
  exports op params w st = (Return res, st') ->
  stamped (createResponse (Bridge.statusCode res) (Bridge.body res)).
Proof.
  intros Hrun. pose proof (exports_shape op params w st) as Hs.
  unfold shape in Hs. rewrite Hrun in Hs.
  destruct (validate op params) as [c|x| |].
  - destruct Hs as [b [Hb _]]. injection Hb as -> _.
    exists 400%Z, b. split; [reflexivity|]. split; [cbn [In]; auto|now left].
  - destruct Hs as [Hx _]. discriminate Hx.
  - discriminate Hs.
  - destruct (prepare op params) as [e0|args].
    { injection Hs as -> _.
      exists 500%Z. eexists. split; [reflexivity|].
      split; [cbn [In]; auto 6|]. right. eexists. reflexivity. }
    destruct Hs as [_ Hc]. unfold concluded in Hc. cbv zeta in Hc.
    destruct Hc as [_ Hc]. cbn [fst] in Hc.
    destruct (fst (callMcpTool (tool_name op) (VObj args) w st)) as [v|e].
    + destruct Hc as [b [Hb [_ [_ [_ Ht]]]]]. injection Hb as ->.
      exists 200%Z, b. split; [reflexivity|]. split; [cbn [In]; auto|].
      right. eexists. exact Ht.
    + injection Hc as ->.
      exists 500%Z. eexists. split; [reflexivity|].
      split; [cbn [In]; auto 6|]. right. eexists. reflexivity.
Qed.

Lemma route_returns event w st r st' :
  is_nullish event = false ->
  route event w st = (Return r, st') -> stamped r.
Proof.
  intros Hev. unfold route, route_with.
  destruct (getEndpoint event w st) as [[endpoint|e] st1] eqn:E1;
    [rewrite (@run_bind_return _ _ _ _ _ _ _ _ E1)
    |rewrite (@run_bind_throw _ _ _ _ _ _ _ _ E1); discriminate].
  destruct (extractParams event w st1) as [[params|e] st2] eqn:E2;
    [rewrite (@run_bind_return _ _ _ _ _ _ _ _ E2)
    |rewrite (@run_bind_throw _ _ _ _ _ _ _ _ E2); discriminate].
  destruct (dispatch endpoint) as [op|].
  - destruct (exports op params w st2) as [[res|e] st3] eqn:E3;
      [rewrite (@run_bind_return _ _ _ _ _ _ _ _ E3)
      |rewrite (@run_bind_throw _ _ _ _ _ _ _ _ E3); discriminate].
    intros H. injection H as <- _. exact (exports_stamped _ _ _ _ E3).
  - destruct (str_eqb endpoint (js "health")).
    { intros H. injection H as <- _.
      exists 200%Z. eexists. split; [reflexivity|].
      split; [cbn [In]; auto|]. right. eexists. reflexivity. }
    destruct (str_eqb endpoint (js "info")).
    { intros H. injection H as <- _.
      exists 200%Z. eexists. split; [reflexivity|].
      split; [cbn [In]; auto|]. right. eexists. reflexivity. }
    rewrite (@not_found_run event endpoint w st2 Hev).
    intros H. injection H as <- _.
    exists 404%Z. eexists. split; [reflexivity|].
    split; [cbn [In]; auto 6|]. right. eexists. reflexivity.
Qed.

(** A stamped response holds a JSON text. *)
Lemma stamped_json r :
  stamped r ->
  exists b s v,
    body r = Some s
    /\ JSON.stringify (VObj b) = Some s
    /\ JSON.parse s = Some v
    /\ In (statusCode r) [200; 400; 404; 500]%Z
    /\ (statusCode r = 400%Z
        \/ exists t, obj_get b (js "timestamp") = VStr t).
Proof.
  intros [sc [b [-> [Hsc Ht]]]].
  destruct (stringify_object_parses b) as [s [v [Hs Hv]]].
  exists b, s, v. repeat split; assumption.
Qed.

(** ** The routes *)

(** The operation the switch of [handler] selects for an event, if any. *)
Definition routed (event : value) (w : world) (st : state)
  : option operation :=
  match fst (getEndpoint event w st) with
  | Return endpoint => dispatch endpoint
  | Throw _ => None
  end.

(** [route] calls the operation that is selected, and no other. *)
Lemma route_calls event w st op :
  routed event w st = Some op ->
  route event w st
  = (params <- extractParams event ;;
     result <- exports op params ;;
     ret (createResponse (Bridge.statusCode result) (Bridge.body result)))
      w st.
Proof.
  unfold routed. intros H.
  pose proof (getEndpoint_stateless event w st) as Hst.
  destruct (getEndpoint event w st) as [[endpoint|e] st1] eqn:E1;
    cbn [fst snd] in H, Hst; [subst st1|discriminate H].
  unfold route, route_with. rewrite (@run_bind_return _ _ _ _ _ _ _ _ E1).
  unfold bind. destruct (extractParams event w st) as [[params|e] st2];
    [|reflexivity].
  now rewrite H.
Qed.

Lemma lookup_route_in rs endpoint op :
  lookup_route rs endpoint = Some op -> In op (map snd rs).
Proof.
  induction rs as [|[label op'] rs IH]; [discriminate|].
  cbn [lookup_route map snd In].
  destruct (str_eqb endpoint (js label)).
  - intros H. injection H as ->. now left.
  - intros H. right. now apply IH.
Qed.

Lemma dispatch_ten endpoint :
  dispatch endpoint <> Some StoreDocument
  /\ dispatch endpoint <> Some SearchSimilarDocuments.
Proof.
  split; intros H; apply lookup_route_in in H; cbn in H;
    repeat destruct H as [H|H]; try discriminate H; exact H.
Qed.

(** The [try] block calls the module on a routed operation, or not at
    all. *)
Lemma route_with_ten mcpBridge mcpBridge' event w st :
  (forall op, In op (map snd routes) -> mcpBridge op = mcpBridge' op) ->
  route_with mcpBridge event w st = route_with mcpBridge' event w st.
Proof.
  intros H. unfold route_with, bind.
  destruct (getEndpoint event w st) as [[endpoint|e] st1]; [|reflexivity].
  destruct (extractParams event w st1) as [[params|e] st2]; [|reflexivity].
  destruct (dispatch endpoint) as [op|] eqn:D; [|reflexivity].
  now rewrite (H op (lookup_route_in _ _ D)).
Qed.

Lemma handler_with_ten mcpBridge mcpBridge' event w st :
  (forall op, In op (map snd routes) -> mcpBridge op = mcpBridge' op) ->
  handler_with mcpBridge event w st = handler_with mcpBridge' event w st.
Proof.
  intros H. unfold handler_with, bind, try_catch.
  destruct (lift (get event "httpMethod") w st) as [[m|e] st1];
    [|reflexivity].
  destruct (if strict_eq m (str "OPTIONS") then ret true
            else fun w0 st0 =>
                   match http_method event w0 st0 with
                   | (Return a, st') =>
                     ret (strict_eq a (str "OPTIONS")) w0 st'
                   | (Throw e, st') => (Throw e, st')
                   end) as [[[]|e] st2]; try reflexivity.
  now rewrite (route_with_ten mcpBridge mcpBridge' event w st2 H).
Qed.

(** The parameters of an event that has a path and a body that is an
    object. *)
Lemma extractParams_object_body path params w st :
  extractParams (obj [("path", VStr path); ("body", VObj params)]) w st
  = (Return (spread_into [] (VObj params)), st).
Proof. reflexivity. Qed.

(** An event with the path of a route and a body goes to the operation of
    the route. *)
Lemma handler_reaches label op params w st :
  routed (obj [("path", VStr (js ("/" ++ label))); ("body", VObj params)])
         w st = Some op ->
  handler (obj [("path", VStr (js ("/" ++ label))); ("body", VObj params)])
          w st
  = match exports op (spread_into [] (VObj params)) w st with
    | (Return result, st') =>
      (Return (createResponse (Bridge.statusCode result)
                              (Bridge.body result)), st')
    | (Throw e, st') =>
      (Return (createResponse 500 (crash_body w e (stamp w st'))), tick st')
    end.
Proof.
  intros Hr. rewrite handler_run by reflexivity.
  change (is_preflight _) with false. cbv iota.
  rewrite (route_calls _ _ _ Hr). unfold bind.
  rewrite extractParams_object_body.
  now destruct (exports op (spread_into [] (VObj params)) w st)
    as [[result|e] st'].
Qed.

(** C10: only ten of the twelve exported operations are reachable through
    the dispatcher.  The twelve exports include store-document and
    search-similar-documents; the switch of [handler] has ten labels that
    call the bridge, each its own operation; [handler] never calls the
    handlers of store-document and search-similar-documents: whatever
    stands in their place in the module, it returns the same response and
    leaves the same state, for every event; and each of the ten others is
    reached: for the path made of a slash and its label, with an object for
    a body, the response of [handler] is made of what that operation
    returns on the parameters of the body (or is the 500 made of what it
    throws). *)
Theorem C10_ten_of_twelve_routed :
  (List.length operations = 12%nat
   /\ In StoreDocument operations /\ In SearchSimilarDocuments operations)
  /\ map snd routes
     = [FiscalAdvice; GenerateEmbedding; StoreDocumentChunk;
        SearchSimilarChunks; ChatWithClassroom; GetClassroomInfo;
        CreateEmbedding; ProfessorAssistant; GenerateResources;
        AnalyzeUserContext]
  /\ (forall mcpBridge : operation -> object -> M result,
        (forall op, op <> StoreDocument -> op <> SearchSimilarDocuments ->
                    mcpBridge op = exports op) ->
        forall event w st,
          handler_with mcpBridge event w st = handler event w st)
  /\ Forall (fun lo =>
               forall params w st,
                 handler (obj [("path", VStr (js ("/" ++ fst lo)));
                               ("body", VObj params)]) w st
                 = match exports (snd lo) (spread_into [] (VObj params))
                                 w st with
                   | (Return result, st') =>
                     (Return (createResponse (Bridge.statusCode result)
                                             (Bridge.body result)), st')
                   | (Throw e, st') =>
                     (Return (createResponse 500
                                (crash_body w e (stamp w st'))), tick st')
                   end) routes.
Proof.
  split; [|split; [|split]].
  - split; [reflexivity|]. split; cbn; tauto.
  - reflexivity.
  - intros mcpBridge H event w st. unfold handler.
    apply handler_with_ten. intros op Hop. apply H; intros ->; cbn in Hop;
      repeat destruct Hop as [Hop|Hop]; try discriminate Hop; exact Hop.
  - repeat (apply Forall_cons; [intros params w st;
                                apply handler_reaches; reflexivity|]).
    apply Forall_nil.
Qed.

(** The same on an example: with the two handlers replaced by ones that
    throw, a request for a routed operation is answered as before. *)
Example handler_without_the_two :
  let mcpBridge op :=
      match op with
      | StoreDocument | SearchSimilarDocuments =>
        fun _ => throw (Error (js "not reachable"))
      | _ => exports op
      end in
  let event := obj [("path", str "/classroom-info");
                    ("body", obj [("classroom_id", str "c1")])] in
  handler_with mcpBridge event (world_of down) initial
  = handler event (world_of down) initial.
Proof. vm_compute. reflexivity. Qed.

(** ** Unknown paths *)

(** Every entry of the list of the 404 body is [/health] or starts with
    the path of one of the ten routes. *)
Lemma available_endpoints_routes :
  forallb (fun e =>
             String.eqb e "/health"
             || existsb (fun lo => startsWith (js e) (js ("/" ++ fst lo)))
                        routes)
          available_endpoints = true
  /\ List.length available_endpoints = 11%nat.
Proof. split; [vm_compute|]; reflexivity. Qed.

(** C9, as the code has it: for an event that is not a preflight, whose
    path is none of the known ones ([getEndpoint] returns [unknown]) and
    whose parameters are extracted without an error, the dispatcher returns
    a 404 whose body names the endpoint, carries a timestamp, and lists
    eleven available endpoints: [/health] and the ten routed operations
    (fiscal advice as legacy).  The two operations that have no route are
    not listed. *)
Theorem C9_unknown_endpoint :
  forall event w st params,
    is_preflight event = false ->
    fst (getEndpoint event w st) = Return (js "unknown") ->
    fst (extractParams event w st) = Return params ->
    exists r b,
      fst (handler event w st) = Return r
      /\ statusCode r = 404%Z
      /\ body r = JSON.stringify (VObj b)
      /\ obj_get b (js "error") = str "Endpoint no encontrado"
      /\ obj_get b (js "endpoint_requested") = str "unknown"
      /\ obj_get b (js "available_endpoints")
         = strs ["/health";
                 "/generate-embedding";
                 "/create-embedding";
                 "/store-document-chunk";
                 "/search-chunks";
                 "/chat-classroom";
                 "/classroom-info";
                 "/professor-assistant";
                 "/generate-resources";
                 "/analyze-user-context";
                 "/fiscal-advice (legacy)"]
      /\ obj_get b (js "timestamp") = stamp w st.
Proof.
  intros event w st params Hpre Hend Hpar.
  pose proof (getEndpoint_defined event w st Hend) as Hev.
  pose proof (getEndpoint_stateless event w st) as S1.
  pose proof (extractParams_stateless event w st) as S2.
  assert (E1 : getEndpoint event w st = (Return (js "unknown"), st))
    by (rewrite (run_pair (getEndpoint event w st)); now rewrite Hend, S1).
  assert (E2 : extractParams event w st = (Return params, st))
    by (rewrite (run_pair (extractParams event w st)); now rewrite Hpar, S2).
  assert (Hroute : route event w st
                   = (Return (createResponse 404
                                (not_found_body (js "unknown") (path_of event)
                                   (method_of event) (stamp w st))),
                      tick st)).
  { unfold route, route_with.
    rewrite (@run_bind_return _ _ _ _ _ _ _ _ E1).
    rewrite (@run_bind_return _ _ _ _ _ _ _ _ E2).
    replace (dispatch (js "unknown")) with (@None operation)
      by (vm_compute; reflexivity).
    replace (str_eqb (js "unknown") (js "health")) with false
      by (vm_compute; reflexivity).
    replace (str_eqb (js "unknown") (js "info")) with false
      by (vm_compute; reflexivity).
    exact (@not_found_run event (js "unknown") w st Hev). }
  rewrite (@handler_run event w st Hev), Hpre, Hroute. cbn [fst].
  eexists. eexists. split; [reflexivity|].
  split; [reflexivity|]. split; [reflexivity|].
  repeat split; reflexivity.
Qed.

Lemma C9_witness :
  let event := obj [("path", str "/nope"); ("httpMethod", str "GET")] in
  let w := world_of down in
  is_preflight event = false
  /\ fst (getEndpoint event w initial) = Return (js "unknown")
  /\ fst (extractParams event w initial) = Return []
  /\ exists r b,
       fst (handler event w initial) = Return r
       /\ statusCode r = 404%Z
       /\ body r = JSON.stringify (VObj b)
       /\ obj_get b (js "error") = str "Endpoint no encontrado"
       /\ obj_get b (js "endpoint_requested") = str "unknown"
       /\ obj_get b (js "available_endpoints")
          = strs ["/health";
                  "/generate-embedding";
                  "/create-embedding";
                  "/store-document-chunk";
                  "/search-chunks";
                  "/chat-classroom";
                  "/classroom-info";
                  "/professor-assistant";
                  "/generate-resources";
                  "/analyze-user-context";
                  "/fiscal-advice (legacy)"]
       /\ obj_get b (js "timestamp") = stamp w initial.
Proof.
  intros event w.
  assert (H1 : is_preflight event = false) by (vm_compute; reflexivity).
  assert (H2 : fst (getEndpoint event w initial) = Return (js "unknown"))
    by (vm_compute; reflexivity).
  assert (H3 : fst (extractParams event w initial) = Return [])
    by (vm_compute; reflexivity).
  split; [exact H1|]. split; [exact H2|]. split; [exact H3|].
  exact (C9_unknown_endpoint event w initial H1 H2 H3).
Defined.

Lemma unknown_path_example :
  handler (obj [("path", str "/nope"); ("httpMethod", str "GET")])
          (world_of down) initial
  = (Return (createResponse 404
               (not_found_body (js "unknown") (str "/nope") (str "GET")
                               (stamp (world_of down) initial))),
     tick initial).
Proof. vm_compute. reflexivity. Qed.

(** Against C9 as it is worded: on an unknown path the list of the 404 has
    eleven entries, [/health] and ten routes, not the twelve operations;
    and an unknown path does not always give a 404: with a body that is not
    JSON the reply is a 500. *)
Lemma C9_counterexample :
  let w := world_of down in
  (exists r b l,
     fst (handler (obj [("path", str "/nope"); ("httpMethod", str "GET")])
                  w initial) = Return r
     /\ statusCode r = 404%Z
     /\ body r = JSON.stringify (VObj b)
     /\ obj_get b (js "available_endpoints") = strs l
     /\ List.length l = 11%nat
     /\ existsb (fun e => includes (js e) (js "similar")) l = false
     /\ existsb (fun e => includes (js e) (js "store-document")
                          && negb (includes (js e) (js "chunk"))) l = false)
  /\ (exists r,
        fst (getEndpoint (obj [("path", str "/nope");
                               ("httpMethod", str "POST");
                               ("body", str "{")]) w initial)
        = Return (js "unknown")
        /\ fst (handler (obj [("path", str "/nope");
                              ("httpMethod", str "POST");
                              ("body", str "{")]) w initial) = Return r
        /\ statusCode r = 500%Z).
Proof.
  intros w. subst w. split.
  - rewrite unknown_path_example. cbn [fst].
    eexists. eexists. exists available_endpoints.
    split; [reflexivity|]. split; [reflexivity|]. split; [reflexivity|].
    split; [reflexivity|]. repeat split; vm_compute; reflexivity.
  - vm_compute. eexists. repeat split; reflexivity.
Qed.

(** ** Every response *)

(** C2, as the code has it: for every event (an object, or anything but
    [undefined] and [null]) the dispatcher returns a response and throws
    nothing; the status is 200, 400, 404 or 500; the body is the JSON text
    of an object, which [JSON.parse] accepts; and that object carries a
    timestamp, except in the 400 of a failed validation and in the 200
    that answers a preflight. *)
Theorem C2_responses_are_json :
  forall event w st,
    is_nullish event = false ->
    exists r st' b s v,
      handler event w st = (Return r, st')
      /\ body r = Some s
      /\ JSON.stringify (VObj b) = Some s
      /\ JSON.parse s = Some v
      /\ In (statusCode r) [200; 400; 404; 500]%Z
      /\ (is_preflight event = true
          \/ statusCode r = 400%Z
          \/ exists t, obj_get b (js "timestamp") = VStr t).
Proof.
  intros event w st Hev. rewrite (@handler_run event w st Hev).
  destruct (is_preflight event).
  - destruct (stringify_object_parses [(js "message", str "OK")])
      as [s [v [Hs Hv]]].
    exists (createResponse 200 (obj [("message", str "OK")])), st,
           [(js "message", str "OK")], s, v.
    split; [reflexivity|]. split; [exact Hs|]. split; [exact Hs|].
    split; [exact Hv|]. split; [cbn [In createResponse statusCode]; auto|].
    now left.
  - assert (Hr : exists r st', 
               match route event w st with
               | (Return r, st') => (Return r, st')
               | (Throw e, st') =>
                 (Return (createResponse 500 (crash_body w e (stamp w st'))),
                  tick st')
               end = (Return r, st') /\ stamped r).
    { destruct (route event w st) as [[r|e] st'] eqn:E.
      - exists r, st'. split; [reflexivity|].
        exact (@route_returns event w st r st' Hev E).
      - eexists. eexists. split; [reflexivity|].
        exists 500%Z. eexists. split; [reflexivity|].
        split; [cbn [In]; auto 6|]. right. eexists. reflexivity. }
    destruct Hr as [r [st' [Hrun Hst]]].
    destruct (stamped_json Hst) as [b [s [v [H1 [H2 [H3 [H4 H5]]]]]]].
    exists r, st', b, s, v. rewrite Hrun.
    split; [reflexivity|]. split; [exact H1|]. split; [exact H2|].
    split; [exact H3|]. split; [exact H4|]. right. exact H5.
Qed.

Lemma C2_witness :
  let event := obj [("path", str "/chat-classroom");
                    ("httpMethod", str "POST");
                    ("body", VStr (jsq "{`message`:`hola`,`classroom_id`:`c1`}"))] in
  let w := world_of down in
  is_nullish event = false
  /\ exists r st' b s v,
       handler event w initial = (Return r, st')
       /\ body r = Some s
       /\ JSON.stringify (VObj b) = Some s
       /\ JSON.parse s = Some v
       /\ In (statusCode r) [200; 400; 404; 500]%Z
       /\ (is_preflight event = true
           \/ statusCode r = 400%Z
           \/ exists t, obj_get b (js "timestamp") = VStr t).
Proof.
  intros event w.
  assert (H : is_nullish event = false) by reflexivity.
  split; [exact H|].
  exact (C2_responses_are_json event w initial H).
Defined.

(** Against C2 as it is worded: the 400 of a failed validation, as the
    dispatcher returns it, is a JSON text with no timestamp in it; and so
    is the reply to a preflight. *)
Lemma C2_counterexample :
  let w := world_of down in
  (exists r s v,
     fst (handler (obj [("path", str "/generate-embedding");
                        ("httpMethod", str "POST");
                        ("body", str "{}")]) w initial) = Return r
     /\ statusCode r = 400%Z
     /\ body r = Some s
     /\ JSON.parse s = Some v
     /\ get v "timestamp" = inr VUndefined
     /\ includes s (js "timestamp") = false)
  /\ (exists r,
        fst (handler (obj [("httpMethod", str "OPTIONS")]) w initial)
        = Return r
        /\ statusCode r = 200%Z
        /\ body r = Some (jsq "{`message`:`OK`}")).
Proof.
  intros w. subst w. split.
  - match goal with
    | |- exists r s v, ?run = _ /\ _ =>
      pose (r0 := match run with
                  | Return r => r
                  | Throw _ => createResponse 0 VNull
                  end)
    end.
    pose (s0 := match body r0 with Some s => s | None => [] end).
    pose (v0 := match JSON.parse s0 with Some v => v | None => VNull end).
    exists r0, s0, v0. subst v0 s0 r0.
    repeat split; vm_compute; reflexivity.
  - vm_compute. eexists. repeat split; reflexivity.
Qed.

End Dispatcher.

(* ================================================================== *)
(** * Objects: reading after writing *)
(* ================================================================== *)

Module ObjectFacts.

Import StringFacts.

(** The property names of an object are distinct, as they are in every
    JavaScript object. *)
Fixpoint distinct_keys (o : object) : bool :=
  match o with
  | [] => true
  | (k, _) :: o' => negb (obj_has o' k) && distinct_keys o'
  end.

(** Two names are the same or they are not. *)
Lemma str_eqb_cases (a b : jsstring) :
  (a = b /\ str_eqb a b = true) \/ (a <> b /\ str_eqb a b = false).
Proof.
  destruct (str_eqb a b) eqn:E.
  - left. split; [now apply str_eqb_eq|reflexivity].
  - right. split; [|reflexivity]. intros ->.
    now rewrite str_eqb_refl in E.
Qed.

Lemma str_eqb_neq (a b : jsstring) : a <> b -> str_eqb a b = false.
Proof. intros H. now destruct (str_eqb_cases a b) as [[E _]|[_ E]]. Qed.

Lemma obj_get_absent (o : object) (k : jsstring) :
  obj_has o k = false -> obj_get o k = VUndefined.
Proof.
  induction o as [|[k1 v1] o IH]; [reflexivity|]. cbn [obj_has obj_get].
  destruct (str_eqb k1 k); [discriminate|exact IH].
Qed.

(** ** The three ways [obj_set] writes *)

Lemma obj_get_replace (o : object) (k : jsstring) (v : value) (k' : jsstring) :
  obj_has o k = true ->
  obj_get (obj_replace o k v) k' = if str_eqb k k' then v else obj_get o k'.
Proof.
  induction o as [|[k1 v1] o IH]; [discriminate|].
  cbn [obj_has obj_replace]. intros H.
  destruct (str_eqb_cases k1 k) as [[-> E]|[N E]]; rewrite E in *.
  - cbn [obj_get]. now destruct (str_eqb k k').
  - cbn [orb] in H. cbn [obj_get]. rewrite (IH H).
    destruct (str_eqb_cases k1 k') as [[-> E']|[N' E']]; rewrite E';
      [|reflexivity].
    rewrite (str_eqb_neq (fun H' => N (eq_sym H'))). reflexivity.
Qed.

Lemma obj_has_replace (o : object) (k : jsstring) (v : value) (k' : jsstring) :
  obj_has (obj_replace o k v) k' = obj_has o k'.
Proof.
  induction o as [|[k1 v1] o IH]; [reflexivity|]. cbn [obj_replace].
  destruct (str_eqb k1 k); cbn [obj_has]; [reflexivity|now rewrite IH].
Qed.

Lemma obj_get_insert_index (o : object) (i : N) (k : jsstring) (v : value)
      (k' : jsstring) :
  obj_has o k = false ->
  obj_get (obj_insert_index o i k v) k'
  = if str_eqb k k' then v else obj_get o k'.
Proof.
  induction o as [|[k1 v1] o IH]; [reflexivity|].
  cbn [obj_has obj_insert_index]. intros H.
  apply orb_false_iff in H as [H1 H2].
  destruct (array_index k1) as [j|]; [|reflexivity].
  destruct (j <? i)%N; [|reflexivity].
  cbn [obj_get]. rewrite (IH H2).
  destruct (str_eqb_cases k1 k') as [[-> E']|[N' E']]; rewrite E';
    [|reflexivity].
  destruct (str_eqb_cases k k') as [[-> E]|[N E]]; rewrite E; [|reflexivity].
  now rewrite str_eqb_refl in H1.
Qed.

Lemma obj_has_insert_index (o : object) (i : N) (k : jsstring) (v : value)
      (k' : jsstring) :
  obj_has (obj_insert_index o i k v) k' = str_eqb k k' || obj_has o k'.
Proof.
  induction o as [|[k1 v1] o IH]; [reflexivity|].
  cbn [obj_insert_index].
  destruct (array_index k1) as [j|]; [|reflexivity].
  destruct (j <? i)%N; [|reflexivity].
  cbn [obj_has]. rewrite IH.
  now destruct (str_eqb k1 k'), (str_eqb k k').
Qed.

Lemma obj_get_app (o : object) (k : jsstring) (v : value) (k' : jsstring) :
  obj_has o k = false ->
  obj_get (o ++ [(k, v)]) k' = if str_eqb k k' then v else obj_get o k'.
Proof.
  induction o as [|[k1 v1] o IH]; [reflexivity|].
  cbn [obj_has app obj_get]. intros H.
  apply orb_false_iff in H as [H1 H2]. rewrite (IH H2).
  destruct (str_eqb_cases k1 k') as [[-> E']|[N' E']]; rewrite E';
    [|reflexivity].
  destruct (str_eqb_cases k k') as [[-> E]|[N E]]; rewrite E; [|reflexivity].
  now rewrite str_eqb_refl in H1.
Qed.

Lemma obj_has_app (o : object) (k : jsstring) (v : value) (k' : jsstring) :
  obj_has (o ++ [(k, v)]) k' = str_eqb k k' || obj_has o k'.
Proof.
  induction o as [|[k1 v1] o IH]; [cbn; now rewrite orb_false_r|].
  cbn [app obj_has]. rewrite IH.
  now destruct (str_eqb k1 k'), (str_eqb k k').
Qed.

(** ** Reading after [obj_set] *)

(** A property just written reads as written; the others read as before. *)
Lemma obj_get_set (o : object) (k : jsstring) (v : value) (k' : jsstring) :
  obj_get (obj_set o k v) k' = if str_eqb k k' then v else obj_get o k'.
Proof.
  unfold obj_set. destruct (obj_has o k) eqn:H.
  - now apply obj_get_replace.
  - destruct (array_index k);
      [now apply obj_get_insert_index|now apply obj_get_app].
Qed.

Lemma obj_has_set (o : object) (k : jsstring) (v : value) (k' : jsstring) :
  obj_has (obj_set o k v) k' = str_eqb k k' || obj_has o k'.
Proof.
  unfold obj_set. destruct (obj_has o k) eqn:H.
  - rewrite obj_has_replace.
    destruct (str_eqb_cases k k') as [[-> E]|[N E]]; rewrite E;
      [now rewrite H|reflexivity].
  - destruct (array_index k);
      [apply obj_has_insert_index|apply obj_has_app].
Qed.

(** ** Names stay distinct *)

Lemma distinct_replace (o : object) (k : jsstring) (v : value) :
  distinct_keys o = true -> distinct_keys (obj_replace o k v) = true.
Proof.
  induction o as [|[k1 v1] o IH]; [reflexivity|].
  cbn [distinct_keys obj_replace]. intros H.
  apply andb_true_iff in H as [H1 H2].
  destruct (str_eqb k1 k); cbn [distinct_keys];
    apply andb_true_iff; split; try assumption.
  - now rewrite obj_has_replace.
  - now apply IH.
Qed.

Lemma distinct_insert_index (o : object) (i : N) (k : jsstring) (v : value) :
  obj_has o k = false -> distinct_keys o = true ->
  distinct_keys (obj_insert_index o i k v) = true.
Proof.
  induction o as [|[k1 v1] o IH]; [reflexivity|].
  cbn [obj_has distinct_keys obj_insert_index]. intros Hk H.
  apply orb_false_iff in Hk as [Hk1 Hk2].
  apply andb_true_iff in H as [H1 H2].
  assert (Hwhole : distinct_keys ((k, v) :: (k1, v1) :: o) = true).
  { cbn [distinct_keys obj_has].
    destruct (str_eqb_cases k1 k) as [[-> E]|[N E]];
      [now rewrite str_eqb_refl in Hk1|].
    rewrite E, Hk2. cbn [orb negb andb].
    apply andb_true_iff. now split. }
  destruct (array_index k1) as [j|]; [|exact Hwhole].
  destruct (j <? i)%N; [|exact Hwhole].
  cbn [distinct_keys]. rewrite obj_has_insert_index, (IH Hk2 H2).
  destruct (str_eqb_cases k k1) as [[-> E]|[N E]];
    [now rewrite str_eqb_refl in Hk1|].
  rewrite E. cbn [orb]. now rewrite andb_true_r.
Qed.

Lemma distinct_app (o : object) (k : jsstring) (v : value) :
  obj_has o k = false -> distinct_keys o = true ->
  distinct_keys (o ++ [(k, v)]) = true.
Proof.
  induction o as [|[k1 v1] o IH]; [reflexivity|].
  cbn [obj_has distinct_keys app]. intros Hk H.
  apply orb_false_iff in Hk as [Hk1 Hk2].
  apply andb_true_iff in H as [H1 H2].
  rewrite obj_has_app, (IH Hk2 H2).
  destruct (str_eqb_cases k k1) as [[-> E]|[N E]];
    [now rewrite str_eqb_refl in Hk1|].
  rewrite E. cbn [orb]. now rewrite andb_true_r.
Qed.

Lemma distinct_set (o : object) (k : jsstring) (v : value) :
  distinct_keys o = true -> distinct_keys (obj_set o k v) = true.
Proof.
  intros H. unfold obj_set. destruct (obj_has o k) eqn:Hk.
  - now apply distinct_replace.
  - destruct (array_index k);
      [now apply distinct_insert_index|now apply distinct_app].
Qed.

(** ** Spreading one object over another: [{...o, ...p}] *)

Definition write (o : object) (kv : jsstring * value) : object :=
  obj_set o (fst kv) (snd kv).

Lemma spread_into_object (o p : object) :
  spread_into o (VObj p) = fold_left write p o.
Proof. reflexivity. Qed.

Lemma distinct_fold (p o : object) :
  distinct_keys o = true -> distinct_keys (fold_left write p o) = true.
Proof.
  revert o; induction p as [|[k v] p IH]; intros o H; [exact H|].
  cbn [fold_left]. apply IH. now apply distinct_set.
Qed.

Lemma obj_has_fold (p o : object) (k : jsstring) :
  obj_has (fold_left write p o) k = obj_has p k || obj_has o k.
Proof.
  revert o; induction p as [|[k1 v1] p IH]; intros o; [reflexivity|].
  cbn [fold_left obj_has]. rewrite IH. unfold write. cbn [fst snd].
  rewrite obj_has_set.
  now destruct (obj_has p k), (str_eqb k1 k), (obj_has o k).
Qed.

(** The properties of [p] win over those of [o]. *)
Lemma obj_get_fold (p o : object) (k : jsstring) :
  distinct_keys p = true ->
  obj_get (fold_left write p o) k
  = if obj_has p k then obj_get p k else obj_get o k.
Proof.
  revert o; induction p as [|[k1 v1] p IH]; intros o H; [reflexivity|].
  cbn [distinct_keys] in H. apply andb_true_iff in H as [H1 H2].
  apply negb_true_iff in H1.
  cbn [fold_left obj_has obj_get]. rewrite (IH _ H2).
  unfold write. cbn [fst snd]. rewrite obj_get_set.
  destruct (str_eqb_cases k1 k) as [[-> E]|[N E]]; rewrite E.
  - now rewrite H1.
  - reflexivity.
Qed.

(** A copy [{...p}] reads as [p] does. *)
Lemma obj_get_copy (p : object) (k : jsstring) :
  distinct_keys p = true ->
  obj_get (spread_into [] (VObj p)) k = obj_get p k.
Proof.
  intros H. rewrite spread_into_object, obj_get_fold by exact H.
  destruct (obj_has p k) eqn:E; [reflexivity|].
  cbn [obj_get]. symmetry. now apply obj_get_absent.
Qed.

Lemma obj_has_copy (p : object) (k : jsstring) :
  obj_has (spread_into [] (VObj p)) k = obj_has p k.
Proof.
  rewrite spread_into_object, obj_has_fold. cbn [obj_has].
  apply orb_false_r.
Qed.

Lemma distinct_copy (p : object) :
  distinct_keys (spread_into [] (VObj p)) = true.
Proof. rewrite spread_into_object. now apply distinct_fold. Qed.

End ObjectFacts.

(* ================================================================== *)
(** * extractParams: where the parameters come from *)
(* ================================================================== *)

Module Parameters.

Import Bridge JSON StringFacts JSONFacts Scenario ObjectFacts Index
       Dispatcher.

Local Open Scope string_scope.
Local Open Scope list_scope.

(** An event one of whose properties has a value is not [undefined] or
    [null]. *)
Lemma defined_of_property event k v :
  get_opt event k = v -> v <> VUndefined -> is_nullish event = false.
Proof.
  intros H Hv. destruct event; try reflexivity; now contradiction Hv.
Qed.

(** X1: the parameters of an event that has a body are the query-string
    parameters overridden by the members of the body.  The body is an
    object, or a string that [JSON.parse] reads as an object; the query
    string is an object or is absent (falsy). *)
Theorem extractParams_body_over_query :
  forall event q b w st,
    (get_opt event "queryStringParameters" = VObj q
     \/ (truthy (get_opt event "queryStringParameters") = false /\ q = [])) ->
    (get_opt event "body" = VObj b
     \/ exists text, get_opt event "body" = VStr text
                     /\ JSON.parse text = Some (VObj b)) ->
    distinct_keys q = true ->
    distinct_keys b = true ->
    exists params,
      extractParams event w st = (Return params, st)
      /\ forall k,
           obj_get params k
           = if obj_has b k then obj_get b k else obj_get q k.
Proof.
  intros event q b w st Hq Hb Dq Db.
  assert (Hev : is_nullish event = false).
  { destruct Hb as [Hb|[text [Hb _]]];
      apply (defined_of_property _ _ Hb); discriminate. }
  pose proof (fun k => @get_defined event k Hev) as Hget.
  unfold extractParams. rewrite !Hget.
  set (qv := get_opt event "queryStringParameters") in *.
  set (q0 := if truthy qv then spread_into [] qv else []).
  assert (Hq0 : distinct_keys q0 = true /\ forall k, obj_get q0 k = obj_get q k).
  { subst q0. destruct Hq as [->|[-> ->]].
    - split; [apply distinct_copy|]. intros k. now apply obj_get_copy.
    - split; reflexivity. }
  destruct Hq0 as [Dq0 Gq0].
  exists (spread_into (spread_into [] (VObj q0)) (VObj b)). split.
  - destruct Hb as [Eb|[text [Eb Hp]]]; rewrite Eb.
    + cbv beta iota zeta delta [lift bind ret is_string truthy].
      fold (truthy qv). fold q0.
      cbn [negb andb]. now rewrite andb_false_r.
    + destruct text as [|c text]; [now rewrite parse_empty in Hp|].
      cbv beta iota zeta delta [lift bind ret is_string ToString JSON_parse
                                truthy].
      rewrite Hp. fold (truthy qv). fold q0.
      cbn [negb andb]. now rewrite andb_false_r.
  - intros k. rewrite (spread_into_object _ b), obj_get_fold by exact Db.
    destruct (obj_has b k); [reflexivity|].
    rewrite obj_get_copy by exact Dq0. apply Gq0.
Qed.

Lemma extractParams_body_over_query_witness :
  let event :=
      obj [("httpMethod", str "POST");
           ("queryStringParameters",
            obj [("classroom_id", str "c1"); ("limit", str "5")]);
           ("body", VStr (jsq "{`limit`:10,`query_text`:`redes`}"))] in
  let q := [(js "classroom_id", str "c1"); (js "limit", str "5")] in
  let b := [(js "limit", num 10); (js "query_text", str "redes")] in
  exists params,
    extractParams event (world_of down) initial = (Return params, initial)
    /\ forall k,
         obj_get params k
         = if obj_has b k then obj_get b k else obj_get q k.
Proof.
  intros event q b.
  refine (@extractParams_body_over_query event q b (world_of down) initial
            (or_introl eq_refl) (or_intror _) eq_refl eq_refl).
  exists (jsq "{`limit`:10,`query_text`:`redes`}").
  split; [reflexivity|vm_compute; reflexivity].
Defined.

(** X2: an event with no query string, no body and no HTTP method (a direct
    invocation) is its own parameter bag: every property of the event,
    the path it is routed by included, reads the same in the
    parameters. *)
Theorem extractParams_direct_invocation :
  forall o w st,
    truthy (obj_get o (js "queryStringParameters")) = false ->
    truthy (obj_get o (js "body")) = false ->
    truthy (obj_get o (js "httpMethod")) = false ->
    distinct_keys o = true ->
    exists params,
      extractParams (VObj o) w st = (Return params, st)
      /\ forall k, obj_get params k = obj_get o k.
Proof.
  intros o w st Hq Hb Hm Do.
  exists (spread_into [] (VObj o)). split.
  - unfold extractParams. cbn [get]. cbv beta iota delta [lift bind ret].
    now rewrite Hq, Hb, Hm.
  - intros k. now apply obj_get_copy.
Qed.

Lemma extractParams_direct_invocation_witness :
  let o := [(js "path", str "/generate-embedding"); (js "text", str "hola")] in
  truthy (obj_get o (js "queryStringParameters")) = false
  /\ exists params,
       extractParams (VObj o) (world_of down) initial
       = (Return params, initial)
       /\ forall k, obj_get params k = obj_get o k.
Proof.
  intros o. split; [reflexivity|].
  exact (@extractParams_direct_invocation o (world_of down) initial
           eq_refl eq_refl eq_refl eq_refl).
Defined.

End Parameters.

(* ================================================================== *)
(** * The entry point: paths and bodies that go wrong *)
(* ================================================================== *)

Module Entry.

Import Bridge JSON StringFacts JSONFacts Scenario ObjectFacts Index
       Dispatcher.

Local Open Scope string_scope.
Local Open Scope list_scope.

(** ** The path *)

(** [event.path || event.rawPath || event.requestContext?.resourcePath
    || ''] *)
Definition requested_path (event : value) : value :=
  or_else (get_opt event "path")
    (or_else (get_opt event "rawPath")
       (or_else (chain (get_opt event "requestContext") "resourcePath")
          (str ""))).

(** [getEndpoint], run: the label of the normalized path, or the TypeError
    of [replace] on a path that is not a string. *)
Lemma getEndpoint_run event w st :
  is_nullish event = false ->
  getEndpoint event w st
  = (match requested_path event with
     | VStr p => Return (endpoint_of_path (strip_trailing_slash p))
     | _ => Throw (TypeError (js "path.replace is not a function"))
     end, st).
Proof.
  intros Hev. pose proof (fun k => @get_defined event k Hev) as Hget.
  unfold getEndpoint, requested_path, or_else. rewrite !Hget.
  cbv beta iota delta [lift bind ret or_m].
  destruct (truthy (get_opt event "path")).
  { now destruct (get_opt event "path"). }
  destruct (truthy (get_opt event "rawPath")).
  { now destruct (get_opt event "rawPath"). }
  destruct (truthy (chain (get_opt event "requestContext") "resourcePath")).
  { now destruct (chain (get_opt event "requestContext") "resourcePath"). }
  reflexivity.
Qed.

Lemma strip_slash (s : jsstring) : strip_trailing_slash (s ++ [47%N]) = s.
Proof.
  unfold strip_trailing_slash. rewrite rev_app_distr. cbn [rev app].
  apply rev_involutive.
Qed.

Lemma strip_other (s : jsstring) (c : code_unit) :
  c <> 47%N -> strip_trailing_slash (s ++ [c]) = s ++ [c].
Proof.
  intros Hc. unfold strip_trailing_slash. rewrite rev_app_distr.
  cbn [rev app]. destruct c as [|p]; [reflexivity|].
  do 6 (destruct p as [p|p|]; try reflexivity).
  now contradiction Hc.
Qed.

(** X3: one trailing slash does not change the route.  For a path that
    does not itself end in a slash, the event with the path followed by a
    slash gets the endpoint of the event with the path alone. *)
Theorem getEndpoint_trailing_slash :
  forall (path : jsstring) (c : code_unit) (o : object) w st,
    c <> 47%N ->
    getEndpoint (VObj ((js "path", VStr ((path ++ [c]) ++ js "/")) :: o)) w st
    = getEndpoint (VObj ((js "path", VStr (path ++ [c])) :: o)) w st.
Proof.
  intros path c o w st Hc.
  rewrite !getEndpoint_run by reflexivity.
  unfold requested_path, or_else.
  change (get_opt (VObj ((js "path", VStr ((path ++ [c]) ++ js "/")) :: o))
                  "path")
    with (VStr ((path ++ [c]) ++ js "/")).
  change (get_opt (VObj ((js "path", VStr (path ++ [c])) :: o)) "path")
    with (VStr (path ++ [c])).
  assert (T1 : truthy (VStr ((path ++ [c]) ++ js "/")) = true)
    by now destruct path.
  assert (T2 : truthy (VStr (path ++ [c])) = true) by now destruct path.
  rewrite T1, T2.
  change (js "/") with [47%N].
  now rewrite strip_slash, (strip_other path Hc).
Qed.

Lemma getEndpoint_trailing_slash_witness :
  getEndpoint (VObj [(js "path", VStr ((js "/healt" ++ [104%N]) ++ js "/"));
                     (js "httpMethod", str "GET")])
              (world_of down) initial
  = getEndpoint (VObj [(js "path", VStr (js "/healt" ++ [104%N]));
                       (js "httpMethod", str "GET")])
                (world_of down) initial.
Proof.
  apply (@getEndpoint_trailing_slash (js "/healt") 104%N
           [(js "httpMethod", str "GET")] (world_of down) initial).
  discriminate.
Defined.

(** X4: a path that is there but is not a string (a number, an object)
    makes [replace] throw inside the [try] block: the dispatcher answers
    500 with the message of the TypeError, and makes no request. *)
Theorem handler_path_not_a_string :
  forall event w st,
    is_nullish event = false ->
    is_preflight event = false ->
    is_string (requested_path event) = false ->
    handler event w st
    = (Return (createResponse 500
                 (crash_body w (TypeError (js "path.replace is not a function"))
                             (stamp w st))),
       tick st).
Proof.
  intros event w st Hev Hpre Hpath.
  rewrite (@handler_run event w st Hev), Hpre.
  unfold route, route_with.
  rewrite (@run_bind_throw _ _ (getEndpoint event) _ w st
             (TypeError (js "path.replace is not a function")) st);
    [reflexivity|].
  rewrite (@getEndpoint_run event w st Hev).
  now destruct (requested_path event).
Qed.

Lemma handler_path_not_a_string_witness :
  let event := obj [("path", num 5); ("httpMethod", str "GET")] in
  let w := world_of down in
  handler event w initial
  = (Return (createResponse 500
               (crash_body w (TypeError (js "path.replace is not a function"))
                           (stamp w initial))),
     tick initial).
Proof.
  intros event w.
  exact (@handler_path_not_a_string event w initial
           eq_refl eq_refl eq_refl).
Defined.

(** ** The body *)

(** X5: a request whose body is a string that is not JSON is answered 500,
    with the message of the SyntaxError [JSON.parse] throws, whatever its
    path (known or not), and no request is made. *)
Theorem handler_malformed_body :
  forall event text endpoint w st,
    is_preflight event = false ->
    fst (getEndpoint event w st) = Return endpoint ->
    get_opt event "body" = VStr text ->
    text <> [] ->
    JSON.parse text = None ->
    handler event w st
    = (Return (createResponse 500
                 (crash_body w (SyntaxError (syntax_message w text))
                             (stamp w st))),
       tick st).
Proof.
  intros event text endpoint w st Hpre Hend Hbody Htext Hparse.
  pose proof (@getEndpoint_defined event w st endpoint Hend) as Hev.
  pose proof (getEndpoint_stateless event w st) as S1.
  assert (E1 : getEndpoint event w st = (Return endpoint, st))
    by (rewrite (run_pair (getEndpoint event w st)); now rewrite Hend, S1).
  assert (E2 : extractParams event w st
               = (Throw (SyntaxError (syntax_message w text)), st)).
  { pose proof (fun k => @get_defined event k Hev) as Hget.
    unfold extractParams. rewrite !Hget, Hbody.
    destruct text as [|c text]; [now contradiction Htext|].
    cbv beta iota zeta delta [lift bind ret is_string ToString JSON_parse
                              truthy].
    now rewrite Hparse. }
  rewrite (@handler_run event w st Hev), Hpre.
  unfold route, route_with.
  rewrite (@run_bind_return _ _ _ _ _ _ _ _ E1).
  rewrite (@run_bind_throw _ _ _ _ _ _ _ _ E2).
  reflexivity.
Qed.

Lemma handler_malformed_body_witness :
  let event := obj [("path", str "/chat-classroom");
                    ("httpMethod", str "POST");
                    ("body", VStr (jsq "{`message`: "))] in
  let w := world_of down in
  handler event w initial
  = (Return (createResponse 500
               (crash_body w
                  (SyntaxError (syntax_message w (jsq "{`message`: ")))
                  (stamp w initial))),
     tick initial).
Proof.
  intros event w.
  refine (@handler_malformed_body event (jsq "{`message`: ")
            (js "chat-classroom") w initial eq_refl _ eq_refl _ _).
  - vm_compute. reflexivity.
  - discriminate.
  - vm_compute. reflexivity.
Defined.

End Entry.

(* ================================================================== *)
(** * The operations: what a run costs and what it reports *)
(* ================================================================== *)

Module Outcomes.

Import Bridge JSON StringFacts JSONFacts Transport ToolCall Adapter Shape
       Scenario.

Local Open Scope string_scope.
Local Open Scope list_scope.

(** ** The tool call *)

(** A tool call reads the clock once. *)
Lemma callMcpTool_ticks toolName (toolArgs : object) w st :
  ticks (snd (callMcpTool toolName (VObj toolArgs) w st)) = S (ticks st).
Proof.
  rewrite callMcpTool_run.
  destruct (transport w _ _) as [e|status hs data]; [reflexivity|].
  unfold interpret.
  destruct (status =? 200)%Z.
  - now destruct (get _ "result").
  - destruct (get _ "error"); [reflexivity|].
    destruct (invalid_request_error _); [|reflexivity].
    unfold alternative.
    destruct (transport w _ _) as [e|status2 hs2 data2]; [reflexivity|].
    now destruct (status2 =? 200)%Z.
Qed.

(** Whatever a tool call throws went through its [catch]. *)
Lemma callMcpTool_wrapped toolName (toolArgs : object) w st e :
  fst (callMcpTool toolName (VObj toolArgs) w st) = Throw e ->
  exists e0, e = wrap e0.
Proof.
  rewrite callMcpTool_run.
  destruct (transport w _ _) as [e1|status hs data].
  { intros H. injection H as <-. now eexists. }
  unfold interpret.
  destruct (status =? 200)%Z.
  - destruct (get _ "result"); intros H; [|discriminate H].
    injection H as <-. now eexists.
  - destruct (get _ "error"); [intros H; injection H as <-; now eexists|].
    destruct (invalid_request_error _);
      [|intros H; injection H as <-; now eexists].
    unfold alternative.
    destruct (transport w _ _) as [e2|status2 hs2 data2];
      [intros H; injection H as <-; now eexists|].
    destruct (status2 =? 200)%Z; intros H; [discriminate H|].
    injection H as <-. now eexists.
Qed.


(** ** What a run that returns went through *)

(** An operation that returns has answered 400 at once, or has passed
    validation; then it has failed to convert a parameter it logs, or it
    has called its tool and concluded. *)
Lemma exports_returned op params w st r st' :
  exports op params w st = (Return r, st') ->
  (statusCode r = 400%Z /\ st' = st
   /\ exists c, validate op params = Invalid c)
  \/ (validate op params = Valid
      /\ match prepare op params with
         | inl e =>
           e = conversion_error
           /\ r = failed (failure_body op e
                            (VStr (toISOString (clock w (ticks st)))))
           /\ st' = {| trace := trace st; ticks := S (ticks st) |}
         | inr args =>
           concluded op w (callMcpTool (tool_name op) (VObj args) w st)
                     (Return r, st')
         end).
Proof.
  intros Hrun. pose proof (exports_shape op params w st) as Hs.
  unfold shape in Hs. rewrite Hrun in Hs.
  destruct (validate op params) as [c|x| |].
  - destruct Hs as [b [Hb _]]. injection Hb as -> ->. left.
    split; [reflexivity|]. split; [reflexivity|]. now exists c.
  - destruct Hs as [Hx _]. discriminate Hx.
  - discriminate Hs.
  - right. split; [reflexivity|].
    destruct (prepare op params) as [e|args] eqn:Hp.
    + injection Hs as -> ->.
      split; [exact (prepare_error _ _ Hp)|]. now split.
    + now destruct Hs.
Qed.

(** What [concluded] says of the status. *)
Lemma concluded_status op w x r st' :
  concluded op w x (Return r, st') ->
  match fst x with
  | Return _ => statusCode r = 200%Z
  | Throw e =>
    r = failed (failure_body op e
                  (VStr (toISOString (clock w (ticks (snd x))))))
  end.
Proof.
  unfold concluded. cbv zeta. cbn [fst snd]. intros [_ H].
  destruct (fst x).
  - destruct H as [b [Hb _]]. now injection Hb as ->.
  - now injection H as ->.
Qed.

(** An operation that passes validation answers 200 or 500. *)
Lemma valid_status op params w st r st' :
  validate op params = Valid ->
  exports op params w st = (Return r, st') ->
  statusCode r = 200%Z \/ statusCode r = 500%Z.
Proof.
  intros Hv Hrun.
  destruct (exports_returned _ _ _ _ Hrun) as [[_ [_ [c Hc]]]|[_ H]].
  { rewrite Hv in Hc. discriminate Hc. }
  destruct (prepare op params) as [e|args].
  - destruct H as [_ [-> _]]. now right.
  - apply concluded_status in H.
    destruct (fst (callMcpTool (tool_name op) (VObj args) w st));
      [now left|subst r; now right].
Qed.

(** ** What a run costs *)

(** X6: what an answer costs.  A 400 costs nothing: no request, no reading
    of the clock.  A 500 made because a parameter that is logged does not
    convert to a string costs one reading of the clock and no request.  Any
    other answer is a 200 or a 500 made after exactly two readings of the
    clock and at most two requests: the JSON-RPC request, then the
    alternate one. *)
Theorem exports_accounting :
  forall op params w st r st',
    exports op params w st = (Return r, st') ->
    (statusCode r = 400%Z /\ st' = st)
    \/ (statusCode r = 500%Z
        /\ prepare op params = inl conversion_error
        /\ st' = {| trace := trace st; ticks := S (ticks st) |})
    \/ ((statusCode r = 200%Z \/ statusCode r = 500%Z)
        /\ ticks st' = S (S (ticks st))
        /\ exists args rest more,
             prepare op params = inr args
             /\ trace st' = trace st ++ rest
             /\ rest ++ more
                = [primary_request w (clock w (ticks st)) (tool_name op)
                                   (VObj args);
                   alternate_request w (tool_name op) args]).
Proof.
  intros op params w st r st' Hrun.
  destruct (exports_returned _ _ _ _ Hrun) as [[H1 [H2 _]]|[_ H]];
    [left; now split|].
  right. destruct (prepare op params) as [e|args].
  - destruct H as [-> [-> ->]]. left. repeat split; reflexivity.
  - right. pose proof (concluded_status H) as Hs.
    destruct H as [Hst _]. cbn [snd] in Hst. split; [|split].
    + destruct (fst (callMcpTool (tool_name op) (VObj args) w st));
        [now left|subst r; now right].
    + rewrite Hst. cbn [ticks]. now rewrite callMcpTool_ticks.
    + destruct (callMcpTool_trace (tool_name op) args w st)
        as [rest [Htrace Hrest]].
      rewrite Hst. cbn [trace]. rewrite Htrace.
      destruct Hrest as [-> | ->].
      * eexists. eexists. eexists. split; [reflexivity|].
        split; [reflexivity|]. reflexivity.
      * exists args. eexists. exists []. split; [reflexivity|].
        split; [reflexivity|]. now rewrite app_nil_r.
Qed.

Lemma exports_accounting_witness :
  let w := world_of (always (Responded 200 [] (jsq "{`result`:{`ok`:1}}"))) in
  let params := [(js "classroom_id", str "c1")] in
  let run := exports GetClassroomInfo params w initial in
  exists r,
    fst run = Return r
    /\ ((statusCode r = 400%Z /\ snd run = initial)
        \/ (statusCode r = 500%Z
            /\ prepare GetClassroomInfo params = inl conversion_error
            /\ snd run = {| trace := trace initial;
                            ticks := S (ticks initial) |})
        \/ ((statusCode r = 200%Z \/ statusCode r = 500%Z)
            /\ ticks (snd run) = S (S (ticks initial))
            /\ exists args rest more,
                 prepare GetClassroomInfo params = inr args
                 /\ trace (snd run) = trace initial ++ rest
                 /\ rest ++ more
                    = [primary_request w (clock w (ticks initial))
                         (tool_name GetClassroomInfo) (VObj args);
                       alternate_request w (tool_name GetClassroomInfo)
                                         args])).
Proof.
  intros w params run.
  assert (Hr : exists r, fst run = Return r)
    by (vm_compute; eexists; reflexivity).
  destruct Hr as [r Hr]. exists r. split; [exact Hr|].
  exact (@exports_accounting GetClassroomInfo params w initial r (snd run)
           (Operations.run_returns run Hr)).
Defined.

(** ** What a run reports *)

(** X7: the body of every 200 says [success: true] and
    [source: "mcp_server"], and its timestamp is the second reading of the
    clock, taken after the tool call has returned. *)
Theorem exports_success_envelope :
  forall op params w st r st',
    exports op params w st = (Return r, st') ->
    statusCode r = 200%Z ->
    get (body r) "success" = inr (VBool true)
    /\ get (body r) "source" = inr (str "mcp_server")
    /\ get (body r) "timestamp"
       = inr (VStr (toISOString (clock w (S (ticks st))))).
Proof.
  intros op params w st r st' Hrun Hstatus.
  destruct (exports_returned _ _ _ _ Hrun) as [[H _]|[_ H]].
  { rewrite H in Hstatus. discriminate Hstatus. }
  destruct (prepare op params) as [e|args].
  { destruct H as [_ [-> _]]. discriminate Hstatus. }
  unfold concluded in H. cbv zeta in H. cbn [fst snd] in H.
  destruct H as [_ Hres]. rewrite callMcpTool_ticks in Hres.
  destruct (fst (callMcpTool (tool_name op) (VObj args) w st)).
  - destruct Hres as [b [Hb [H1 [_ [H2 H3]]]]]. injection Hb as ->.
    cbn [body ok get]. now rewrite H1, H2, H3.
  - injection Hres as ->. discriminate Hstatus.
Qed.

Lemma exports_success_envelope_witness :
  let w := world_of (always (Responded 200 [] (jsq "{`result`:{`ok`:1}}"))) in
  let params := [(js "classroom_id", str "c1")] in
  let run := exports GetClassroomInfo params w initial in
  exists r,
    fst run = Return r
    /\ statusCode r = 200%Z
    /\ get (body r) "success" = inr (VBool true)
    /\ get (body r) "source" = inr (str "mcp_server")
    /\ get (body r) "timestamp"
       = inr (VStr (toISOString (clock w (S (ticks initial))))).
Proof.
  intros w params run.
  assert (Hr : exists r, fst run = Return r /\ statusCode r = 200%Z)
    by (vm_compute; eexists; split; reflexivity).
  destruct Hr as [r [Hr Hstatus]]. exists r.
  split; [exact Hr|]. split; [exact Hstatus|].
  exact (@exports_success_envelope GetClassroomInfo params w initial r
           (snd run) (Operations.run_returns run Hr) Hstatus).
Defined.

(** X8: the error message of a 500 has one of two origins.  It starts with
    [Error conectando con MCP: ] when the tool was called: whatever fails
    in a tool call (the transport, the backend's status, the alternate
    request, a property read on the reply) reaches the caller through the
    [catch] of [callMcpTool].  Or it is the message of the TypeError of a
    conversion to a string, when a parameter that is logged before the call
    does not convert; then nothing was asked of the transport. *)
Theorem exports_failure_message :
  forall op params w st r st',
    exports op params w st = (Return r, st') ->
    statusCode r = 500%Z ->
    (exists args msg,
        prepare op params = inr args
        /\ get (body r) "error"
           = inr (VStr (js "Error conectando con MCP: " ++ msg)))
    \/ (prepare op params = inl conversion_error
        /\ get (body r) "error"
           = inr (str "Cannot convert object to primitive value")
        /\ trace st' = trace st).
Proof.
  intros op params w st r st' Hrun Hstatus.
  destruct (exports_returned _ _ _ _ Hrun) as [[H _]|[_ H]].
  { rewrite H in Hstatus. discriminate Hstatus. }
  destruct (prepare op params) as [e|args].
  { destruct H as [-> [-> ->]]. right. split; [reflexivity|].
    split; [|reflexivity]. now destruct op. }
  left. pose proof (concluded_status H) as Hs.
  destruct (fst (callMcpTool (tool_name op) (VObj args) w st))
    as [v|e] eqn:Hcall.
  - rewrite Hs in Hstatus. discriminate Hstatus.
  - subst r. destruct (callMcpTool_wrapped _ _ _ _ Hcall) as [e0 ->].
    exists args, (message e0). split; [reflexivity|]. now destruct op.
Qed.

Lemma exports_failure_message_witness :
  let w := world_of (always (Responded 503 [] (js "upstream down"))) in
  let params := [(js "classroom_id", str "c1")] in
  let run := exports GetClassroomInfo params w initial in
  exists r,
    fst run = Return r
    /\ statusCode r = 500%Z
    /\ ((exists args msg,
            prepare GetClassroomInfo params = inr args
            /\ get (body r) "error"
               = inr (VStr (js "Error conectando con MCP: " ++ msg)))
        \/ (prepare GetClassroomInfo params = inl conversion_error
            /\ get (body r) "error"
               = inr (str "Cannot convert object to primitive value")
            /\ trace (snd run) = trace initial)).
Proof.
  intros w params run.
  assert (Hr : exists r, fst run = Return r /\ statusCode r = 500%Z)
    by (vm_compute; eexists; split; reflexivity).
  destruct Hr as [r [Hr Hstatus]]. exists r.
  split; [exact Hr|]. split; [exact Hstatus|].
  exact (@exports_failure_message GetClassroomInfo params w initial r
           (snd run) (Operations.run_returns run Hr) Hstatus).
Defined.

(** The second origin, on an example: a [topic] that does not convert. *)
Example unconvertible_topic :
  exports GenerateResources
    [(js "classroom_id", str "c1"); (js "resource_type", str "pdf");
     (js "user_id", str "u1");
     (js "topic", VArr [obj [("toString", num 1)]])]
    (world_of (always (Responded 200 [] (jsq "{`result`:{`ok`:1}}"))))
    initial
  = (Return {| statusCode := 500;
               body := obj
                 [("error", str "Cannot convert object to primitive value");
                  ("timestamp", str "2025-11-02T00:00:00.000Z");
                  ("hint", str "Verifica que el classroom tenga documentos cargados y que las dependencias de generación estén instaladas")] |},
     {| trace := []; ticks := 1 |}).
Proof. vm_compute. reflexivity. Qed.





End Outcomes.

(* ================================================================== *)
(** * The operations: what is sent to the backend *)
(* ================================================================== *)

Module Arguments.

Import Bridge JSON StringFacts JSONFacts Transport ToolCall Adapter Shape
       Scenario Operations Returns.

Local Open Scope string_scope.
Local Open Scope list_scope.

Unset Implicit Arguments.

(** A parameter that passes the test [!v || !v.trim()]: a string with
    something other than white space in it. *)
Definition filled (v : value) : bool :=
  match v with
  | VStr s => truthy (VStr (trim s))
  | _ => false
  end.

Lemma blank_filled v x : filled v = true -> blank v x = ret false.
Proof.
  destruct v as [| |b|n|s|l|o]; try discriminate. cbn [filled]. intros H.
  unfold blank. destruct s as [|c s]; [discriminate H|].
  change (negb (truthy (VStr (c :: s)))) with false. cbv iota.
  now rewrite H.
Qed.

(** The [try] block and the [catch] block that every handler ends with. *)
Lemma tail_run toolName (args : value) (okb : value -> value -> result)
      (errb : error -> value -> result) w st :
  try_catch
    (result <- callMcpTool toolName args ;;
     timestamp <- now_iso ;;
     ret (okb result timestamp))
    (fun error => timestamp <- now_iso ;; ret (errb error timestamp)) w st
  = let call := callMcpTool toolName args w st in
    let timestamp := VStr (toISOString (clock w (ticks (snd call)))) in
    (Return match fst call with
            | Return v => okb v timestamp
            | Throw e => errb e timestamp
            end,
     {| trace := trace (snd call); ticks := S (ticks (snd call)) |}).
Proof.
  unfold try_catch, bind, now_iso, Date_now, ret. cbv zeta.
  destruct (callMcpTool toolName args w st) as [[v|e] st1]; reflexivity.
Qed.

(** A filled parameter passes both tests of validation. *)
Lemma filled_checked v :
  filled v = true -> blank_value v = false /\ ill_typed v = false.
Proof.
  destruct v as [| |b|n|s|l|o]; try discriminate. cbn [filled]. intros H.
  unfold blank_value, ill_typed. cbn [is_string negb andb].
  rewrite andb_false_r. split; [|reflexivity].
  rewrite H. cbn [negb]. rewrite orb_false_r.
  destruct s; [discriminate H|reflexivity].
Qed.

Lemma filled_string v : filled v = true -> exists s, v = VStr s.
Proof. destruct v; try discriminate. intros _. now eexists. Qed.

Lemma require_filled v f next : filled v = true -> require v f next = next.
Proof.
  intros H. destruct (filled_checked v H) as [Hb Hi].
  unfold require. now rewrite Hb, Hi.
Qed.

(** A log line of a [try] block, and a conversion in it. *)
Lemma try_log {A} vs (m : M A) h w st :
  try_catch (console_log vs ;; m) h w st
  = match interpolate vs with
    | inl e => h e w st
    | inr _ => try_catch m h w st
    end.
Proof.
  unfold try_catch, bind, console_log, lift.
  destruct (interpolate vs); reflexivity.
Qed.

(** ** search-chunks *)

Lemma search_chunks_valid params :
  filled (field params "query_text") = true ->
  filled (field params "classroom_id") = true ->
  validate SearchSimilarChunks params = Valid.
Proof.
  intros Hq Hc. cbv beta iota delta [validate]. cbv zeta.
  now rewrite (require_filled _ _ _ Hq), (require_filled _ _ _ Hc).
Qed.

(** X11: search-chunks sends a [threshold] only when the one it is given
    is truthy.  With a query text, a classroom id, a [limit] that converts
    to a string and a [threshold] that is 0 (or an empty string, or none),
    the operation calls its tool, and the text of the request has no
    [threshold] member: it is the request of a call made with no threshold
    at all. *)
Theorem search_chunks_falsy_threshold :
  forall params w st l,
    filled (field params "query_text") = true ->
    filled (field params "classroom_id") = true ->
    truthy (field params "threshold") = false ->
    ToString (field_default params "limit" (num 5)) = inr l ->
    exists args,
      prepare SearchSimilarChunks params = inr args
      /\ calls SearchSimilarChunks params w st args
      /\ stringify_text
           (mcpRequest (clock w (ticks st)) (js "search_similar_chunks")
              (VObj args))
         = stringify_text
             (mcpRequest (clock w (ticks st)) (js "search_similar_chunks")
                (obj [("query_text", field params "query_text");
                      ("classroom_id", field params "classroom_id");
                      ("limit", VNum (parseInt_string l))])).
Proof.
  intros params w st l Hq Hc Ht Hl.
  destruct (filled_string _ Hq) as [q Eq].
  destruct (filled_string _ Hc) as [c Ec].
  assert (Hor : ToString (or_else (field params "threshold") (str "default"))
                = inr (js "default"))
    by (unfold or_else; now rewrite Ht).
  pose proof (prepare_search_chunks params Eq Ec Hl Hor) as Hp.
  rewrite Ht in Hp.
  eexists. split; [exact Hp|]. split.
  - apply exports_calls; [now apply search_chunks_valid|exact Hp].
  - rewrite Eq, Ec. reflexivity.
Qed.

Lemma search_chunks_falsy_threshold_witness :
  let params := [(js "query_text", str "redes");
                 (js "classroom_id", str "c1");
                 (js "threshold", num 0)] in
  let w := world_of down in
  exists args,
    prepare SearchSimilarChunks params = inr args
    /\ calls SearchSimilarChunks params w initial args
    /\ stringify_text
         (mcpRequest (clock w (ticks initial)) (js "search_similar_chunks")
            (VObj args))
       = stringify_text
           (mcpRequest (clock w (ticks initial)) (js "search_similar_chunks")
              (obj [("query_text", field params "query_text");
                    ("classroom_id", field params "classroom_id");
                    ("limit", VNum (parseInt_string (js "5")))])).
Proof.
  intros params w.
  exact (@search_chunks_falsy_threshold params w initial (js "5")
           eq_refl eq_refl eq_refl eq_refl).
Defined.

(** X12: search-chunks forwards a [limit] that [parseInt] cannot read (a
    word) instead of refusing it.  With a query text, a classroom id, a
    [limit] that converts to a string in which [parseInt] finds no number,
    and a [threshold] that is printed without an error, the operation calls
    its tool with a [limit] that is written [null] in the request. *)
Theorem search_chunks_unreadable_limit :
  forall params w st l t,
    filled (field params "query_text") = true ->
    filled (field params "classroom_id") = true ->
    ToString (field_default params "limit" (num 5)) = inr l ->
    isNaN (parseInt_string l) = true ->
    ToString (or_else (field params "threshold") (str "default")) = inr t ->
    exists args,
      prepare SearchSimilarChunks params = inr args
      /\ calls SearchSimilarChunks params w st args
      /\ JSON.stringify (obj_get args (js "limit")) = Some (js "null").
Proof.
  intros params w st l t Hq Hc Hl Hn Ht.
  destruct (filled_string _ Hq) as [q Eq].
  destruct (filled_string _ Hc) as [c Ec].
  pose proof (prepare_search_chunks params Eq Ec Hl Ht) as Hp.
  eexists. split; [exact Hp|]. split.
  - apply exports_calls; [now apply search_chunks_valid|exact Hp].
  - change (JSON.stringify (VNum (parseInt_string l)) = Some (js "null")).
    destruct (parseInt_string l); try discriminate Hn. reflexivity.
Qed.

Lemma search_chunks_unreadable_limit_witness :
  let params := [(js "query_text", str "redes");
                 (js "classroom_id", str "c1");
                 (js "limit", str "abc")] in
  let w := world_of down in
  exists args,
    prepare SearchSimilarChunks params = inr args
    /\ calls SearchSimilarChunks params w initial args
    /\ JSON.stringify (obj_get args (js "limit")) = Some (js "null").
Proof.
  intros params w.
  exact (@search_chunks_unreadable_limit params w initial (js "abc")
           (js "default") eq_refl eq_refl eq_refl eq_refl eq_refl).
Defined.

(** ** store-document-chunk *)

(** X13: store-document-chunk asks for a [chunk_index] that is there, not
    for a truthy one: with the document id and the content given, the
    answer is a 400 exactly when [chunk_index] is [undefined] or [null], so
    the index 0 (and [false], and the empty string) goes through. *)
Theorem store_chunk_index_required :
  forall params w st r st',
    filled (field params "classroom_document_id") = true ->
    filled (field params "content") = true ->
    exports StoreDocumentChunk params w st = (Return r, st') ->
    (statusCode r = 400%Z <-> is_nullish (field params "chunk_index") = true).
Proof.
  intros params w st r st' Hd Hc Hrun.
  assert (Hv : validate StoreDocumentChunk params
               = if is_nullish (field params "chunk_index")
                 then Invalid (Missing "chunk_index") else Valid).
  { cbv beta iota delta [validate]. cbv zeta.
    now rewrite (require_filled _ _ _ Hd), (require_filled _ _ _ Hc). }
  destruct (is_nullish (field params "chunk_index")).
  - pose proof (exports_shape StoreDocumentChunk params w st) as Hs.
    unfold shape in Hs. rewrite Hv, Hrun in Hs.
    destruct Hs as [b [Hb _]]. injection Hb as -> _. now split.
  - destruct (@Outcomes.valid_status _ _ _ _ _ _ Hv Hrun) as [H|H]; rewrite H;
      split; discriminate.
Qed.

Lemma store_chunk_index_required_witness :
  let params := [(js "classroom_document_id", str "d1");
                 (js "chunk_index", num 0);
                 (js "content", str "Los embeddings son vectores")] in
  let run := exports StoreDocumentChunk params (world_of down) initial in
  exists r,
    fst run = Return r
    /\ (statusCode r = 400%Z
        <-> is_nullish (field params "chunk_index") = true).
Proof.
  intros params run.
  assert (Hr : exists r, fst run = Return r)
    by (vm_compute; eexists; reflexivity).
  destruct Hr as [r Hr]. exists r. split; [exact Hr|].
  exact (@store_chunk_index_required params (world_of down) initial r
           (snd run) eq_refl eq_refl (Operations.run_returns run Hr)).
Defined.

(** ** generate-resources *)

(** X14: generate-resources reads the resource type without regard to
    case.  With the classroom id given and a resource type that is a
    non-blank string: when its lower-case form is [pdf] or [ppt], the user
    id is given and the parameters that are logged convert to strings, the
    tool is called with exactly [pdf] or [ppt]; when it is anything else
    the answer is a 400 that echoes the type as it was received and lists
    the two allowed ones, before the user id is looked at and before any
    request. *)
Theorem generate_resources_type :
  forall params t w st,
    filled (field params "classroom_id") = true ->
    field params "resource_type" = VStr t ->
    filled (VStr t) = true ->
    (is_pdf_or_ppt (VStr (toLowerCase t)) = true ->
     filled (field params "user_id") = true ->
     forall args,
       prepare GenerateResources params = inr args ->
       calls GenerateResources params w st args
       /\ (obj_get args (js "resource_type") = str "pdf"
           \/ obj_get args (js "resource_type") = str "ppt"))
    /\ (is_pdf_or_ppt (VStr (toLowerCase t)) = false ->
        exists b,
          exports GenerateResources params w st
          = (Return {| statusCode := 400; body := VObj b |}, st)
          /\ obj_get b (js "received") = VStr t
          /\ obj_get b (js "allowed") = strs ["pdf"; "ppt"]).
Proof.
  intros params t w st Hc Ht Hf.
  assert (Hf' : filled (field params "resource_type") = true)
    by now rewrite Ht.
  split; intros Hp.
  - intros Hu args Hargs.
    assert (Hv : validate GenerateResources params = Valid).
    { cbv beta iota delta [validate]. cbv zeta.
      rewrite (require_filled _ _ _ Hc), (require_filled _ _ _ Hf').
      rewrite Ht. cbn [lower]. rewrite Hp. cbn [negb].
      now rewrite (require_filled _ _ _ Hu). }
    split; [now apply exports_calls|].
    assert (Hlow : VStr (toLowerCase t) = str "pdf"
                   \/ VStr (toLowerCase t) = str "ppt").
    { unfold is_pdf_or_ppt in Hp. cbn [strict_eq str] in Hp.
      apply orb_true_iff in Hp as [Hp|Hp]; apply str_eqb_eq in Hp;
        [left|right]; now rewrite Hp. }
    assert (Hr : obj_get args (js "resource_type") = VStr (toLowerCase t)).
    { revert Hargs. cbv beta iota delta [prepare]. cbv zeta.
      rewrite Ht. cbn [lower logging]. unfold and_then.
      repeat match goal with
             | |- context [match interpolate ?l with _ => _ end] =>
               destruct (interpolate l); [discriminate|]
             | |- context [match ?r with inl _ => _ | inr _ => _ end] =>
               destruct r; [discriminate|]
             | |- context [if ?b then _ else _] => destruct b
             end;
        cbn [logging];
        repeat match goal with
               | |- context [match interpolate ?l with _ => _ end] =>
                 destruct (interpolate l); [discriminate|]
               | |- context [if ?b then _ else _] => destruct b
               end;
        intros H; injection H as <-; reflexivity. }
    rewrite Hr. exact Hlow.
  - pose proof (exports_shape GenerateResources params w st) as Hs.
    unfold shape in Hs. cbv beta iota delta [validate] in Hs.
    cbv zeta in Hs.
    rewrite (require_filled _ _ _ Hc), (require_filled _ _ _ Hf') in Hs.
    rewrite Ht in Hs. cbn [lower] in Hs. rewrite Hp in Hs. cbn [negb] in Hs.
    destruct Hs as [b [Hb [_ [Hrec [Hall _]]]]].
    exists b. split; [exact Hb|]. split; [|exact Hall].
    now rewrite Hrec.
Qed.

Lemma generate_resources_type_witness :
  let params := [(js "classroom_id", str "c1");
                 (js "resource_type", str "PDF");
                 (js "user_id", str "u1")] in
  let args := [(js "classroom_id", str "c1");
               (js "resource_type", str "pdf");
               (js "user_id", str "u1")] in
  let w := world_of down in
  calls GenerateResources params w initial args
  /\ (obj_get args (js "resource_type") = str "pdf"
      \/ obj_get args (js "resource_type") = str "ppt").
Proof.
  intros params args w.
  exact (proj1 (@generate_resources_type params (js "PDF") w initial
                  eq_refl eq_refl eq_refl) eq_refl eq_refl args eq_refl).
Defined.

(** ** generate-embedding *)

Lemma blank_unfilled s x : filled (VStr s) = false -> blank (VStr s) x = ret true.
Proof.
  cbn [filled]. intros H. unfold blank. destruct s as [|c s]; [reflexivity|].
  change (negb (truthy (VStr (c :: s)))) with false. cbv iota.
  now rewrite H.
Qed.

(** X15: the 200 of generate-embedding describes the text it was given:
    [metadata.text_length] is its length in UTF-16 code units, and
    [metadata.text_preview] is its first hundred code units followed by
    three dots when there are more, so never more than 103 code units, and
    the text itself when it has a hundred or fewer. *)
Theorem generate_embedding_preview :
  forall params text w st r st',
    field params "text" = VStr text ->
    exports GenerateEmbedding params w st = (Return r, st') ->
    statusCode r = 200%Z ->
    exists meta preview,
      get (body r) "metadata" = inr (VObj meta)
      /\ obj_get meta (js "text_length")
         = num (Z.of_nat (List.length text))
      /\ obj_get meta (js "text_preview") = VStr preview
      /\ (List.length preview <= 103)%nat
      /\ firstn 100 preview = firstn 100 text
      /\ ((List.length text <= 100)%nat -> preview = text).
Proof.
  intros params text w st r st' Ht.
  cbv beta iota delta [exports handleMcpGenerateEmbedding]. cbv zeta.
  rewrite Ht. destruct (filled (VStr text)) eqn:Hf.
  - rewrite (blank_filled _ "text" Hf), bind_ret. cbv iota.
    rewrite !try_log. cbn [interpolate ToString length_of preview num].
    rewrite tail_run. cbv zeta. intros H. injection H as <- _.
    destruct (fst (callMcpTool _ _ w st)); [|discriminate]. intros _.
    eexists.
    exists (firstn 100 text
            ++ (if (100 <? List.length text)%nat then js "..." else [])).
    split; [reflexivity|]. split; [reflexivity|].
    split; [reflexivity|].
    assert (Hlen : (List.length (firstn 100 text) <= 100)%nat)
      by apply firstn_le_length.
    split; [|split].
    + rewrite length_app.
      destruct (100 <? List.length text)%nat;
        [change (List.length (js "...")) with 3%nat|cbn [List.length]]; lia.
    + destruct (100 <? List.length text)%nat eqn:E.
      * apply Nat.ltb_lt in E.
        rewrite firstn_app, firstn_firstn.
        replace (List.length (firstn 100 text)) with 100%nat
          by (rewrite length_firstn; lia).
        cbn [Nat.sub Nat.min firstn]. now rewrite app_nil_r.
      * now rewrite app_nil_r, firstn_firstn.
    + intros Hle. apply Nat.ltb_ge in Hle. rewrite Hle, app_nil_r.
      apply firstn_all2. now apply Nat.ltb_ge.
  - rewrite (blank_unfilled _ "text" Hf), bind_ret. cbv iota.
    intros H. injection H as <- _. discriminate.
Qed.

Lemma generate_embedding_preview_witness :
  let w := world_of (always (Responded 200 [] (jsq "{`result`:[0.5]}"))) in
  let params := [(js "text", str "hola")] in
  let run := exports GenerateEmbedding params w initial in
  exists r,
    fst run = Return r
    /\ statusCode r = 200%Z
    /\ exists meta preview,
         get (body r) "metadata" = inr (VObj meta)
         /\ obj_get meta (js "text_length")
            = num (Z.of_nat (List.length (js "hola")))
         /\ obj_get meta (js "text_preview") = VStr preview
         /\ (List.length preview <= 103)%nat
         /\ firstn 100 preview = firstn 100 (js "hola")
         /\ ((List.length (js "hola") <= 100)%nat -> preview = js "hola").
Proof.
  intros w params run.
  assert (Hr : exists r, fst run = Return r /\ statusCode r = 200%Z)
    by (vm_compute; eexists; split; reflexivity).
  destruct Hr as [r [Hr Hstatus]]. exists r.
  split; [exact Hr|]. split; [exact Hstatus|].
  exact (@generate_embedding_preview params (js "hola") w initial r (snd run)
           eq_refl (Operations.run_returns run Hr) Hstatus).
Defined.

Set Implicit Arguments.

End Arguments.

(* ================================================================== *)
(** * search-similar-documents: the numeric parameters *)
(* ================================================================== *)

Module Validation.

Import Bridge JSON StringFacts JSONFacts Transport ToolCall Adapter Shape
       Scenario Operations Arguments.

Local Open Scope string_scope.
Local Open Scope list_scope.

Unset Implicit Arguments.

(** With a query text, validation is the two numeric tests. *)
Lemma search_documents_validate params :
  filled (field params "query_text") = true ->
  validate SearchSimilarDocuments params
  = match parseInt (field_default params "limit" (num 5)) with
    | inl _ => Unreadable
    | inr parsedLimit =>
      if limit_out_of_range parsedLimit then Invalid BadLimit
      else if strict_eq (field params "threshold") VUndefined then Valid
      else match parseFloat (field params "threshold") with
           | inl _ => Unreadable
           | inr parsedThreshold =>
             if threshold_out_of_range parsedThreshold
             then Invalid BadThreshold
             else Valid
           end
    end.
Proof.
  intros Hq. cbv beta iota delta [validate]. cbv zeta.
  now rewrite (require_filled _ _ _ Hq).
Qed.

(** With a query text, the handler that returns has answered by the two
    numeric tests alone. *)
Lemma search_documents_status params w st r st' :
  filled (field params "query_text") = true ->
  exports SearchSimilarDocuments params w st = (Return r, st') ->
  (bad_limit params || bad_threshold params = true
   /\ statusCode r = 400%Z
   /\ st' = st
   /\ get (body r) "received"
      = inr (if bad_limit params then field_default params "limit" (num 5)
             else field params "threshold"))
  \/ (bad_limit params || bad_threshold params = false
      /\ statusCode r <> 400%Z).
Proof.
  intros Hq Hrun.
  pose proof (search_documents_validate params Hq) as Hv.
  pose proof (exports_shape SearchSimilarDocuments params w st) as Hs.
  unfold shape in Hs. rewrite Hrun in Hs.
  assert (Hvalid : validate SearchSimilarDocuments params = Valid ->
                   statusCode r <> 400%Z).
  { intros H.
    destruct (@Outcomes.valid_status _ _ _ _ _ _ H Hrun) as [E|E];
      rewrite E; discriminate. }
  unfold bad_limit, bad_threshold. cbv zeta.
  destruct (parseInt (field_default params "limit" (num 5)))
    as [e|parsedLimit].
  { rewrite Hv in Hs. discriminate Hs. }
  destruct (limit_out_of_range parsedLimit).
  { rewrite Hv in Hs. destruct Hs as [b [Hb [_ [Hrec _]]]].
    injection Hb as -> ->. left. cbn [orb]. repeat split.
    cbn [body bad_request get]. now rewrite Hrec. }
  destruct (strict_eq (field params "threshold") VUndefined).
  { right. split; [reflexivity|]. now apply Hvalid. }
  destruct (parseFloat (field params "threshold")) as [e|parsedThreshold].
  { rewrite Hv in Hs. discriminate Hs. }
  destruct (threshold_out_of_range parsedThreshold).
  - rewrite Hv in Hs. destruct Hs as [b [Hb [_ [Hrec _]]]].
    injection Hb as -> ->. left. cbn [orb negb andb]. repeat split.
    cbn [body bad_request get]. now rewrite Hrec.
  - right. split; [reflexivity|]. now apply Hvalid.
Qed.

(** X16: search-similar-documents, given a query text, when it returns an
    answer (it throws when [parseInt] or [parseFloat] cannot convert what
    they are given to a string), answers 400 exactly when [parseInt(limit)]
    (with 5 for a missing limit) is [NaN], below 1 or above 50, or a
    [threshold] is given and [parseFloat(threshold)] is [NaN], below 0 or
    above 1; that 400 echoes the value received (the limit if it is the
    limit that fails) and is made before any request and any reading of
    the clock. *)
Theorem search_documents_validation :
  forall params w st r st',
    filled (field params "query_text") = true ->
    exports SearchSimilarDocuments params w st = (Return r, st') ->
    (statusCode r = 400%Z <-> bad_limit params || bad_threshold params = true)
    /\ (statusCode r = 400%Z ->
        st' = st
        /\ get (body r) "received"
           = inr (if bad_limit params
                  then field_default params "limit" (num 5)
                  else field params "threshold")).
Proof.
  intros params w st r st' Hq Hrun.
  destruct (search_documents_status params w st r st' Hq Hrun)
    as [[Hbad [Hs [Hst Hrec]]]|[Hbad Hs]].
  - split; [now split|]. intros _. now split.
  - split; [|intros H; now contradiction Hs].
    split; [intros H; now contradiction Hs|].
    intros H. rewrite Hbad in H. discriminate H.
Qed.

Lemma search_documents_validation_witness :
  let params := [(js "query_text", str "redes"); (js "limit", num 51)] in
  let run := exports SearchSimilarDocuments params (world_of down) initial in
  exists r,
    fst run = Return r
    /\ (statusCode r = 400%Z
        <-> bad_limit params || bad_threshold params = true)
    /\ (statusCode r = 400%Z ->
        snd run = initial
        /\ get (body r) "received"
           = inr (if bad_limit params
                  then field_default params "limit" (num 5)
                  else field params "threshold")).
Proof.
  intros params run.
  assert (Hr : exists r, fst run = Return r)
    by (vm_compute; eexists; reflexivity).
  destruct Hr as [r Hr]. exists r. split; [exact Hr|].
  exact (@search_documents_validation params (world_of down) initial r
           (snd run) eq_refl (Operations.run_returns run Hr)).
Defined.

(** ** The bounds, on integers *)

(** The integers from [lo], [n] of them. *)
Definition integers (lo : Z) (n : nat) : list Z :=
  map (fun i => (lo + Z.of_nat i)%Z) (seq 0 n).

Lemma integers_In lo n z :
  (lo <= z < lo + Z.of_nat n)%Z -> In z (integers lo n).
Proof.
  intros H. unfold integers. apply in_map_iff.
  exists (Z.to_nat (z - lo)). split; [lia|].
  apply in_seq. lia.
Qed.

(** A limit given as a number or as its decimal string. *)
Definition limit_rejected (n : Z) : bool :=
  bad_limit [(js "limit", num n)]
  && bad_limit [(js "limit", VStr (string_of_Z n))].

Definition limit_accepted (n : Z) : bool :=
  negb (bad_limit [(js "limit", num n)])
  && negb (bad_limit [(js "limit", VStr (string_of_Z n))]).

Lemma limits_checked :
  forallb (fun n => if ((1 <=? n) && (n <=? 50))%Z
                    then limit_accepted n else limit_rejected n)
          (integers (-100) 1101) = true.
Proof. vm_compute. reflexivity. Qed.

Lemma bad_limit_of params v :
  field params "limit" = v -> v <> VUndefined ->
  bad_limit params = bad_limit [(js "limit", v)].
Proof.
  intros H Hv. unfold bad_limit, field_default. rewrite H.
  change (field [(js "limit", v)] "limit") with v. reflexivity.
Qed.

(** X17: for every integer [n] from -100 to 1000, given as a number or as
    its decimal string, with a query text and no threshold,
    search-similar-documents answers 400 exactly when [n] is below 1 or
    above 50: the bounds 1 and 50 are allowed, 0 and 51 are not. *)
Theorem search_documents_limit_bounds :
  forall params n w st r st',
    (-100 <= n <= 1000)%Z ->
    filled (field params "query_text") = true ->
    field params "limit" = num n
    \/ field params "limit" = VStr (string_of_Z n) ->
    field params "threshold" = VUndefined ->
    exports SearchSimilarDocuments params w st = (Return r, st') ->
    (statusCode r = 400%Z <-> (n < 1 \/ 50 < n)%Z).
Proof.
  intros params n w st r st' Hn Hq Hl Ht Hrun.
  assert (Hth : bad_threshold params = false)
    by (unfold bad_threshold; now rewrite Ht).
  assert (Hlim : bad_limit params
                 = negb ((1 <=? n) && (n <=? 50))%Z).
  { pose proof limits_checked as Hall.
    rewrite forallb_forall in Hall.
    specialize (Hall n (integers_In (-100) 1101 n ltac:(lia))).
    unfold limit_accepted, limit_rejected in Hall.
    destruct Hl as [Hl|Hl]; rewrite (bad_limit_of params _ Hl)
      by discriminate;
      destruct ((1 <=? n) && (n <=? 50))%Z;
      apply andb_true_iff in Hall as [H1 H2];
      rewrite ?negb_true_iff in H1, H2; assumption. }
  destruct (search_documents_status params w st r st' Hq Hrun)
    as [[Hbad [Hs _]]|[Hbad Hs]];
    rewrite Hth, orb_false_r, Hlim in Hbad.
  - split; [intros _|intros _; exact Hs].
    apply negb_true_iff, andb_false_iff in Hbad as [H|H];
      [apply Z.leb_gt in H|apply Z.leb_gt in H]; lia.
  - split; [intros H; now contradiction Hs|]. intros H. exfalso.
    apply negb_false_iff, andb_true_iff in Hbad as [H1 H2].
    apply Z.leb_le in H1, H2. lia.
Qed.

Lemma search_documents_limit_bounds_witness :
  let params := [(js "query_text", str "redes"); (js "limit", str "50")] in
  let run := exports SearchSimilarDocuments params (world_of down) initial in
  exists r,
    fst run = Return r
    /\ (statusCode r = 400%Z <-> (50 < 1 \/ 50 < 50)%Z).
Proof.
  intros params run.
  assert (Hr : exists r, fst run = Return r)
    by (vm_compute; eexists; reflexivity).
  destruct Hr as [r Hr]. exists r. split; [exact Hr|].
  refine (@search_documents_limit_bounds params 50%Z (world_of down) initial
            r (snd run) _ eq_refl (or_intror _) eq_refl
            (Operations.run_returns run Hr)).
  - lia.
  - vm_compute. reflexivity.
Defined.

Set Implicit Arguments.

End Validation.

(* ================================================================== *)
(** * The service as a whole: responses, requests, the server it names *)
(* ================================================================== *)

Module Service.

Import Bridge JSON StringFacts JSONFacts Transport ToolCall Adapter Shape
       Scenario JSONValid Index Dispatcher.

Local Open Scope string_scope.
Local Open Scope list_scope.

Unset Implicit Arguments.

(** ** Every response *)

Lemma handler_returns event w st :
  is_nullish event = false ->
  exists r st' sc b,
    handler event w st = (Return r, st') /\ r = createResponse sc b.
Proof.
  intros Hev. rewrite (@handler_run event w st Hev).
  destruct (is_preflight event); [now do 4 eexists|].
  destruct (route event w st) as [[r|e] st'] eqn:E; [|now do 4 eexists].
  destruct (@route_returns event w st r st' Hev E) as [sc [b [-> _]]].
  now do 4 eexists.
Qed.

(** X18: the entry point throws only on an event that is [undefined] or
    [null], and then a TypeError; on every other event it returns a
    response, and the response carries the four CORS headers, whatever its
    status. *)
Theorem handler_total :
  forall event w st,
    (is_nullish event = true ->
     exists e, handler event w st = (Throw e, st)
               /\ name e = js "TypeError")
    /\ (is_nullish event = false ->
        exists r st',
          handler event w st = (Return r, st')
          /\ headers r
             = [("Content-Type", "application/json");
                ("Access-Control-Allow-Origin", "*");
                ("Access-Control-Allow-Methods", "GET, POST, OPTIONS");
                ("Access-Control-Allow-Headers",
                 "Content-Type, Authorization")]).
Proof.
  intros event w st. split; intros Hev.
  - destruct event; try discriminate Hev; eexists; split; reflexivity.
  - destruct (handler_returns event w st Hev) as [r [st' [sc [b [H ->]]]]].
    now exists (createResponse sc b), st'.
Qed.

(** ** Every request *)

(** A request to the backend: a POST under the configured base URL, with a
    JSON text as body. *)
Definition to_backend (w : world) (rq : request) : Prop :=
  rq_method rq = str "POST"
  /\ startsWith (rq_url rq) (MCP_SERVER_URL w) = true
  /\ exists s v, rq_body rq = Some s /\ JSON.parse s = Some v.

Lemma stringify_text_parses (o : object) :
  exists s v, Some (stringify_text (VObj o)) = Some s /\ JSON.parse s = Some v.
Proof.
  destruct (stringify_object_parses o) as [s [v [Hs Hv]]].
  exists s, v. split; [|exact Hv]. unfold stringify_text. now rewrite Hs.
Qed.

Lemma primary_to_backend w now toolName toolArgs :
  to_backend w (primary_request w now toolName toolArgs).
Proof.
  split; [reflexivity|]. split; [apply startsWith_app|].
  cbn [rq_body primary_request]. unfold mcpRequest at 1, obj at 1.
  apply stringify_text_parses.
Qed.

Lemma alternate_to_backend w toolName toolArgs :
  to_backend w (alternate_request w toolName toolArgs).
Proof.
  split; [reflexivity|]. split; [apply startsWith_app|].
  cbn [rq_body alternate_request]. apply stringify_text_parses.
Qed.

(** The requests of one run: none, one or two, all to the backend. *)
Definition requests (w : world) (st st' : state) (l : list request) : Prop :=
  trace st' = trace st ++ l
  /\ (List.length l <= 2)%nat
  /\ Forall (to_backend w) l.

Lemma requests_none w st st' :
  trace st' = trace st -> requests w st st' [].
Proof.
  intros H. split; [now rewrite H, app_nil_r|]. split; [cbn; lia|constructor].
Qed.

Lemma exports_requests op params w st :
  exists l,
    requests w st (snd (exports op params w st)) l
    /\ (forall r, fst (exports op params w st) = Return r ->
                  Bridge.statusCode r = 400%Z -> l = []).
Proof.
  pose proof (exports_shape op params w st) as Hs. unfold shape in Hs.
  destruct (validate op params) as [c|x| |].
  - destruct Hs as [b [Hb _]]. rewrite Hb. exists [].
    split; [now apply requests_none|reflexivity].
  - destruct Hs as [Hx _]. rewrite Hx. exists [].
    split; [now apply requests_none|reflexivity].
  - rewrite Hs. exists [].
    split; [now apply requests_none|reflexivity].
  - destruct (prepare op params) as [e0|args].
    { rewrite Hs. exists [].
      split; [now apply requests_none|reflexivity]. }
    destruct Hs as [_ Hc]. unfold concluded in Hc. cbv zeta in Hc.
    destruct Hc as [Hst Hres].
    destruct (callMcpTool_trace (tool_name op) args w st)
      as [rest [Htrace Hrest]].
    exists (primary_request w (clock w (ticks st)) (tool_name op) (VObj args)
            :: rest).
    split.
    + split; [rewrite Hst; exact Htrace|].
      destruct Hrest as [-> | ->].
      * split; [cbn; lia|].
        apply Forall_cons; [apply primary_to_backend|apply Forall_nil].
      * split; [cbn; lia|].
        apply Forall_cons; [apply primary_to_backend|].
        apply Forall_cons; [apply alternate_to_backend|apply Forall_nil].
    + intros r Hr Hstatus. rewrite Hr in Hres.
      destruct (fst (callMcpTool (tool_name op) (VObj args) w st)).
      * destruct Hres as [b [Hb _]]. injection Hb as ->.
        discriminate Hstatus.
      * injection Hres as ->. discriminate Hstatus.
Qed.

Lemma route_requests event w st :
  is_nullish event = false ->
  exists l,
    requests w st (snd (route event w st)) l
    /\ (forall r, fst (route event w st) = Return r ->
                  statusCode r = 400%Z \/ statusCode r = 404%Z -> l = []).
Proof.
  intros Hev. unfold route, route_with.
  pose proof (getEndpoint_stateless event w st) as S1.
  destruct (getEndpoint event w st) as [[endpoint|e] st1] eqn:E1;
    cbn [snd] in S1; subst st1;
    [rewrite (@run_bind_return _ _ _ _ _ _ _ _ E1)
    |rewrite (@run_bind_throw _ _ _ _ _ _ _ _ E1)].
  2:{ exists []. split; [now apply requests_none|reflexivity]. }
  pose proof (extractParams_stateless event w st) as S2.
  destruct (extractParams event w st) as [[params|e] st2] eqn:E2;
    cbn [snd] in S2; subst st2;
    [rewrite (@run_bind_return _ _ _ _ _ _ _ _ E2)
    |rewrite (@run_bind_throw _ _ _ _ _ _ _ _ E2)].
  2:{ exists []. split; [now apply requests_none|reflexivity]. }
  destruct (dispatch endpoint) as [op|].
  - destruct (exports_requests op params w st) as [l [Hl H400]].
    exists l.
    destruct (exports op params w st) as [[res|e] st3] eqn:E3;
      [rewrite (@run_bind_return _ _ _ _ _ _ _ _ E3)
      |rewrite (@run_bind_throw _ _ _ _ _ _ _ _ E3)];
      cbn [fst snd] in *.
    + split; [exact Hl|]. intros r Hr [Hs|Hs].
      * injection Hr as <-. cbn [statusCode createResponse] in Hs.
        apply (H400 res eq_refl). exact Hs.
      * injection Hr as <-. cbn [statusCode createResponse] in Hs.
        destruct (@Outcomes.exports_returned _ _ _ _ _ _ E3)
          as [[H4 _]|[Hv _]].
        -- rewrite H4 in Hs. discriminate Hs.
        -- destruct (@Outcomes.valid_status _ _ _ _ _ _ Hv E3) as [E|E];
             rewrite E in Hs; discriminate Hs.
    + split; [exact Hl|]. intros r Hr. discriminate Hr.
  - exists []. split; [|reflexivity].
    destruct (str_eqb endpoint (js "health"));
      [now apply requests_none|].
    destruct (str_eqb endpoint (js "info"));
      [now apply requests_none|].
    rewrite (@not_found_run event endpoint w st Hev).
    now apply requests_none.
Qed.

(** X19: whatever the event, the entry point makes at most two requests,
    and each is a POST to a URL under the configured MCP server, with a
    JSON text as body; it makes none to answer a preflight, nor when it
    answers 400 or 404. *)
Theorem handler_requests :
  forall event w st r st',
    handler event w st = (Return r, st') ->
    exists l,
      trace st' = trace st ++ l
      /\ (List.length l <= 2)%nat
      /\ Forall (to_backend w) l
      /\ (is_preflight event = true
          \/ statusCode r = 400%Z \/ statusCode r = 404%Z -> l = []).
Proof.
  intros event w st r st' Hrun.
  assert (Hev : is_nullish event = false)
    by (destruct event; try reflexivity; discriminate Hrun).
  rewrite (@handler_run event w st Hev) in Hrun.
  destruct (is_preflight event).
  { injection Hrun as <- <-. exists [].
    destruct (requests_none w st st eq_refl) as [H1 [H2 H3]].
    repeat split; assumption. }
  destruct (route_requests event w st Hev) as [l [[H1 [H2 H3]] Hnone]].
  exists l.
  destruct (route event w st) as [[r0|e] st0]; cbn [fst snd] in *;
    injection Hrun as <- <-.
  - repeat split; try assumption.
    intros [H|H]; [discriminate H|]. now apply (Hnone r0).
  - repeat split; try assumption.
    intros [H|[H|H]]; discriminate H.
Qed.

Lemma handler_requests_witness :
  let event := obj [("path", str "/classroom-info");
                    ("httpMethod", str "POST");
                    ("body", VStr (jsq "{`classroom_id`:`c1`}"))] in
  let w := world_of (in_turn
             [Responded 400 []
                (jsq "{`error`:{`code`:-32600,`message`:`Invalid Request`}}");
              Responded 200 [] (jsq "{`name`:`Redes`}")]) in
  let run := handler event w initial in
  exists r l,
    fst run = Return r
    /\ trace (snd run) = trace initial ++ l
    /\ (List.length l <= 2)%nat
    /\ Forall (to_backend w) l
    /\ (is_preflight event = true
        \/ statusCode r = 400%Z \/ statusCode r = 404%Z -> l = []).
Proof.
  intros event w run.
  assert (Hr : exists r, fst run = Return r)
    by (vm_compute; eexists; reflexivity).
  destruct Hr as [r Hr].
  destruct (@handler_requests event w initial r (snd run)
              (Operations.run_returns run Hr)) as [l Hl].
  exists r, l. split; [exact Hr|exact Hl].
Defined.

(** ** The health check *)

(** X20: the health check does not look at the backend.  For an event
    routed to [health] (and whose parameters are extracted without an
    error) the answer is a 200 that says [healthy], made with one reading
    of the clock and no request, whatever the state of the backend. *)
Theorem health_without_backend :
  forall event w st params,
    is_preflight event = false ->
    fst (getEndpoint event w st) = Return (js "health") ->
    fst (extractParams event w st) = Return params ->
    handler event w st
    = (Return (createResponse 200 (health_body w (stamp w st))), tick st)
    /\ get (health_body w (stamp w st)) "status" = inr (str "healthy").
Proof.
  intros event w st params Hpre Hend Hpar.
  split; [|reflexivity].
  pose proof (@getEndpoint_defined event w st _ Hend) as Hev.
  pose proof (getEndpoint_stateless event w st) as S1.
  pose proof (extractParams_stateless event w st) as S2.
  assert (E1 : getEndpoint event w st = (Return (js "health"), st))
    by (rewrite (run_pair (getEndpoint event w st)); now rewrite Hend, S1).
  assert (E2 : extractParams event w st = (Return params, st))
    by (rewrite (run_pair (extractParams event w st)); now rewrite Hpar, S2).
  rewrite (@handler_run event w st Hev), Hpre. unfold route, route_with.
  rewrite (@run_bind_return _ _ _ _ _ _ _ _ E1).
  rewrite (@run_bind_return _ _ _ _ _ _ _ _ E2).
  replace (dispatch (js "health")) with (@None operation)
    by (vm_compute; reflexivity).
  replace (str_eqb (js "health") (js "health")) with true
    by (vm_compute; reflexivity).
  reflexivity.
Qed.

Lemma health_without_backend_witness :
  let event := obj [("path", str "/health"); ("httpMethod", str "GET")] in
  let w := world_of down in
  handler event w initial
  = (Return (createResponse 200 (health_body w (stamp w initial))),
     tick initial)
  /\ get (health_body w (stamp w initial)) "status" = inr (str "healthy").
Proof.
  intros event w.
  refine (@health_without_backend event w initial [] eq_refl _ _);
    vm_compute; reflexivity.
Defined.

(** ** The server that is named and the server that is called *)

(** X21: with [MCP_SERVER_URL] set (and not empty), the health check and
    the documentation name the server the requests go to.  With it unset,
    they name two different servers, neither of which is called: the base
    of the request URLs is then the empty string, so the requests go to
    the bare path [/mcp]. *)
Theorem named_and_called_server :
  forall w t now toolName toolArgs,
    match env_MCP_SERVER_URL w with
    | Some (c :: u) =>
      get (health_body w t) "mcp_server" = inr (VStr (c :: u))
      /\ get (info_body w t) "mcp_server" = inr (VStr (c :: u))
      /\ rq_url (build_request (MCP_SERVER_URL w ++ js "/mcp")
                   {| opt_method := str "POST";
                      opt_body := mcpRequest now toolName toolArgs;
                      opt_headers :=
                        [(js "Accept",
                          str "application/json, text/event-stream");
                         (js "Content-Type", str "application/json")] |})
         = (c :: u) ++ js "/mcp"
    | _ =>
      get (health_body w t) "mcp_server"
      = inr (str "https://fiscmcp.fastmcp.app")
      /\ get (info_body w t) "mcp_server"
         = inr (str "https://estudia-mcp.fastmcp.app")
      /\ rq_url (build_request (MCP_SERVER_URL w ++ js "/mcp")
                   {| opt_method := str "POST";
                      opt_body := mcpRequest now toolName toolArgs;
                      opt_headers :=
                        [(js "Accept",
                          str "application/json, text/event-stream");
                         (js "Content-Type", str "application/json")] |})
         = js "/mcp"
    end.
Proof.
  intros w t now toolName toolArgs.
  unfold health_body, info_body, mcp_server, MCP_SERVER_URL.
  destruct (env_MCP_SERVER_URL w) as [[|c u]|]; repeat split; reflexivity.
Qed.

Set Implicit Arguments.

End Service.

(* ================================================================== *)
(** * Replies of the backend, end to end *)
(* ================================================================== *)

Module Replies.

Import Bridge JSON StringFacts JSONFacts Transport ToolCall Adapter Shape
       Scenario ObjectFacts.

Local Open Scope string_scope.
Local Open Scope list_scope.

Unset Implicit Arguments.

(** ** Trimming and splitting *)






(** ** An event-stream frame *)








(** ** The headers of a request *)

(** The headers [makeHttpRequest] starts from. *)
Definition default_headers : object :=
  [(js "Content-Type", str "application/json");
   (js "Accept", str "application/json, text/event-stream");
   (js "User-Agent", str "FiscAI-Lambda-Bridge")].

(** X24: [makeHttpRequest] sends the caller's headers over its three
    defaults: a header the caller names has the caller's value, any other
    has the default one, so [Content-Type], [Accept] and [User-Agent] are
    always there. *)
Theorem build_request_headers :
  forall url o k,
    distinct_keys (opt_headers o) = true ->
    obj_get (rq_headers (build_request url o)) k
    = if obj_has (opt_headers o) k then obj_get (opt_headers o) k
      else obj_get default_headers k.
Proof.
  intros url o k Hd. cbn [rq_headers build_request].
  fold default_headers.
  rewrite spread_into_object. now apply obj_get_fold.
Qed.

Lemma build_request_headers_witness :
  let o := {| opt_method := str "POST";
              opt_body := obj [("text", str "hola")];
              opt_headers := [(js "Accept", str "application/json");
                              (js "X-Trace", str "1")] |} in
  obj_get (rq_headers (build_request (js "https://mcp.example/mcp") o))
          (js "Accept")
  = if obj_has (opt_headers o) (js "Accept")
    then obj_get (opt_headers o) (js "Accept")
    else obj_get default_headers (js "Accept").
Proof.
  intros o.
  exact (@build_request_headers (js "https://mcp.example/mcp") o
           (js "Accept") eq_refl).
Defined.

Set Implicit Arguments.

End Replies.

(* ================================================================== *)
(** * The dispatcher and the operations together *)
(* ================================================================== *)

Module Composition.

Import Bridge JSON StringFacts JSONFacts Transport ToolCall Adapter Shape
       Scenario Index Dispatcher.

Local Open Scope string_scope.
Local Open Scope list_scope.

Unset Implicit Arguments.

(** X25: the dispatcher adds nothing to what an operation answers and
    loses nothing of what it throws.  For an event that is not a preflight,
    is routed to the operation [op] and yields the parameters [params]:
    when the operation returns [{statusCode, body}] the response has that
    status and the JSON text of that body; when the operation throws (a
    required string parameter that is a number, say) the response is a 500
    whose [error] is the message of what was thrown. *)
Theorem handler_mirrors_operation :
  forall event w st op params,
    is_preflight event = false ->
    routed event w st = Some op ->
    fst (extractParams event w st) = Return params ->
    handler event w st
    = match exports op params w st with
      | (Return res, st') =>
        (Return (createResponse (Bridge.statusCode res) (Bridge.body res)),
         st')
      | (Throw e, st') =>
        (Return (createResponse 500 (crash_body w e (stamp w st'))), tick st')
      end.
Proof.
  intros event w st op params Hpre Hroute Hpar.
  assert (Hev : is_nullish event = false).
  { unfold routed in Hroute.
    destruct (fst (getEndpoint event w st)) as [endpoint|e] eqn:E;
      [|discriminate Hroute].
    exact (@getEndpoint_defined event w st endpoint E). }
  pose proof (extractParams_stateless event w st) as S2.
  assert (E2 : extractParams event w st = (Return params, st))
    by (rewrite (run_pair (extractParams event w st)); now rewrite Hpar, S2).
  rewrite (@handler_run event w st Hev), Hpre.
  rewrite (@route_calls event w st op Hroute).
  rewrite (@run_bind_return _ _ _ _ _ _ _ _ E2).
  unfold bind, ret.
  now destruct (exports op params w st) as [[res|e] st'].
Qed.

Lemma handler_mirrors_operation_witness :
  let event := obj [("path", str "/generate-embedding");
                    ("httpMethod", str "POST");
                    ("body", VStr (jsq "{`text`:5}"))] in
  let w := world_of down in
  let params := [(js "text", num 5)] in
  handler event w initial
  = match exports GenerateEmbedding params w initial with
    | (Return res, st') =>
      (Return (createResponse (Bridge.statusCode res) (Bridge.body res)), st')
    | (Throw e, st') =>
      (Return (createResponse 500 (crash_body w e (stamp w st'))), tick st')
    end.
Proof.
  intros event w params.
  refine (@handler_mirrors_operation event w initial GenerateEmbedding params
            eq_refl _ _); vm_compute; reflexivity.
Defined.

(** ** The documentation and the router *)

(** The paths a list of documentation entries holds. *)
Fixpoint paths_of (entries : object) : list jsstring :=
  match entries with
  | [] => []
  | (_, VStr p) :: entries' => p :: paths_of entries'
  | _ :: entries' => paths_of entries'
  end.

(** Where a documented path leads: to the health check or to an
    operation. *)
Definition leads_somewhere (path : jsstring) : bool :=
  let endpoint := endpoint_of_path (strip_trailing_slash path) in
  str_eqb endpoint (js "health")
  || match dispatch endpoint with Some _ => true | None => false end.

(** X26: the documentation agrees with the router.  Every path listed
    under [endpoints] in the reply to [/info] leads to the health check or
    to an operation, and each of the ten routed operations is reached by
    one of the listed paths. *)
Theorem documented_endpoints_routed :
  forall w t,
    exists entries,
      get (info_body w t) "endpoints" = inr (VObj entries)
      /\ List.length (paths_of entries) = List.length entries
      /\ forallb leads_somewhere (paths_of entries) = true
      /\ forallb (fun lo =>
                    existsb (fun p =>
                               match dispatch (endpoint_of_path
                                                 (strip_trailing_slash p)) with
                               | Some op =>
                                 str_eqb (tool_name op) (tool_name (snd lo))
                               | None => false
                               end) (paths_of entries))
                 routes = true.
Proof.
  intros w t. eexists. split; [reflexivity|].
  split; [reflexivity|]. split; vm_compute; reflexivity.
Qed.

Set Implicit Arguments.

End Composition.
